(** * HealthAssistant.cpp: a shallow embedding and its verified properties

    The development follows the single source file of the repository.
    [Module Cxx] models the pieces of the C++ standard library the program
    calls (exceptions, [std::getline], [std::stoi], [std::stod], stream
    formatting of [int] and [double], [static_cast<int>]).  The program
    itself ([UserInfo], [UserInfoManager], [HealthAssistant] with its two
    subclasses, and [UserStats]) is embedded after it, one Rocq definition
    per C++ function, with the global state passed explicitly. *)

From Stdlib Require Import ZArith Floats String Ascii List Lia.
From Stdlib Require Import DecimalString DecimalPos DecimalN DecimalZ.
From stdpp Require Import base list strings gmap.

Set Warnings "-inexact-float".
Local Open Scope string_scope.
Local Open Scope Z_scope.

(* ===================================================================== *)
(** * The C++ library model *)
(* ===================================================================== *)

Module Cxx.

(** ** Exceptions and the outcome of a call *)

(** The three standard exceptions the program can raise, each with its
    [what()] string. *)
Inductive exn : Type :=
| runtime_error (what : string)
| invalid_argument (what : string)
| out_of_range (what : string).

(** A call returns, throws, dereferences the null pointer or divides an
    integer by zero (both undefined behaviour; the process is killed by the
    operating system, with SIGSEGV and SIGFPE on x86-64). *)
Inductive result (A : Type) : Type :=
| Ok (a : A)
| Throw (e : exn)
| NullDeref
| DivideByZero.
Arguments Ok {A} a.
Arguments Throw {A} e.
Arguments NullDeref {A}.
Arguments DivideByZero {A}.

Definition is_Ok {A} (r : result A) : bool :=
  match r with Ok _ => true | _ => false end.

(** ** Characters *)

Definition comma : ascii := ","%char.
Definition newline : ascii := ascii_of_nat 10.

(** [std::isspace] in the "C" locale. *)
Definition isspace (c : ascii) : bool :=
  let n := nat_of_ascii c in
  (n =? 32)%nat || ((9 <=? n)%nat && (n <=? 13)%nat).

Definition isdigit (c : ascii) : bool :=
  let n := nat_of_ascii c in (48 <=? n)%nat && (n <=? 57)%nat.

Definition digit_value (c : ascii) : Z := Z.of_nat (nat_of_ascii c) - 48.

Definition digit_char (d : Z) : ascii := ascii_of_nat (48 + Z.to_nat d).

Fixpoint skip_space (s : string) : string :=
  match s with
  | String c s' => if isspace c then skip_space s' else s
  | EmptyString => s
  end.

(** The longest prefix of decimal digits, and what follows it. *)
Fixpoint span_digits (s : string) : string * string :=
  match s with
  | String c s' =>
      if isdigit c
      then let '(d, r) := span_digits s' in (String c d, r)
      else (EmptyString, s)
  | EmptyString => (EmptyString, EmptyString)
  end.

(** The value of a string of decimal digits, most significant first. *)
Fixpoint digits_value (acc : Z) (s : string) : Z :=
  match s with
  | String c s' => digits_value (10 * acc + digit_value c) s'
  | EmptyString => acc
  end.

(** ** Input streams and [std::getline] *)

(** A stream over the characters that are still unread, with its [eofbit]
    and [failbit]. *)
Record istream : Type := mk_istream {
  unread : string;
  eofbit : bool;
  failbit : bool
}.

Definition open_istream (content : string) : istream :=
  {| unread := content; eofbit := false; failbit := false |}.

Definition good (s : istream) : bool := negb (eofbit s) && negb (failbit s).

(** Splits [s] at the first [delim]: the characters before it and the
    characters after it; [None] when [s] holds no [delim]. *)
Fixpoint split_at (delim : ascii) (s : string) : option (string * string) :=
  match s with
  | EmptyString => None
  | String c s' =>
      if Ascii.eqb c delim then Some (EmptyString, s')
      else match split_at delim s' with
           | Some (tok, rest) => Some (String c tok, rest)
           | None => None
           end
  end.

(** [std::getline(ist, str, delim)].  The sentry fails on a stream that is
    not good: [failbit] is set and [str] keeps its old value.  Otherwise
    [str] is erased and filled up to the delimiter, which is consumed; when
    the input ends first, [eofbit] is set, and [failbit] too if no character
    was taken. *)
Definition getline (ist : istream) (str : string) (delim : ascii)
  : string * istream :=
  if good ist then
    match split_at delim (unread ist) with
    | Some (tok, rest) =>
        (tok, {| unread := rest; eofbit := false; failbit := false |})
    | None =>
        (unread ist,
         {| unread := EmptyString; eofbit := true;
            failbit := match unread ist with EmptyString => true | _ => false end |})
    end
  else (str, {| unread := unread ist; eofbit := eofbit ist; failbit := true |}).

(** The values [line] takes in [while (getline(file, line)) { ... }] when the
    body does not touch [file]: the loop runs while [failbit] is clear. *)
Fixpoint getlines (fuel : nat) (file : istream) (line : string) : list string :=
  match fuel with
  | O => []
  | S n =>
      let '(line', file') := getline file line newline in
      if failbit file' then [] else line' :: getlines n file' line'
  end.

(** Every successful [getline] consumes a character or ends the stream, so
    one more round than there are characters is enough. *)
Definition file_lines (content : string) : list string :=
  getlines (S (String.length content)) (open_istream content) EmptyString.

(** ** [int]: range, formatting, [std::stoi] *)

Definition INT_MIN : Z := - 2 ^ 31.
Definition INT_MAX : Z := 2 ^ 31 - 1.
Definition LONG_MIN : Z := - 2 ^ 63.
Definition LONG_MAX : Z := 2 ^ 63 - 1.

Definition in_int (z : Z) : bool := (INT_MIN <=? z) && (z <=? INT_MAX).

(** [os << n] for an [int]: decimal digits, with a minus sign when negative. *)
Definition show_unsigned (n : Z) : string :=
  NilEmpty.string_of_uint (N.to_uint (Z.to_N n)).

Definition show_int (n : Z) : string :=
  if n <? 0 then String "-" (show_unsigned (- n)) else show_unsigned n.

(** An optional sign: whether it is a minus, and the rest. *)
Definition take_sign (s : string) : bool * string :=
  match s with
  | String "-" s' => (true, s')
  | String "+" s' => (false, s')
  | _ => (false, s)
  end.

(** [std::stoi(str)]: [strtol] in base 10 on the longest prefix that reads as
    a number (white space, sign, digits); [invalid_argument] when there is no
    digit, [out_of_range] when [strtol] overflows or the value is no [int]. *)
Definition stoi (str : string) : result Z :=
  let '(neg, s) := take_sign (skip_space str) in
  let '(ds, _) := span_digits s in
  match ds with
  | EmptyString => Throw (invalid_argument "stoi")
  | _ =>
      let v := digits_value 0 ds in
      let v := if neg then - v else v in
      if in_int v then Ok v else Throw (out_of_range "stoi")
  end.

(** ** [double]: exact values and rounding *)

(** A [double] is a binary64 number, Rocq's primitive [float].  Its exact
    value is read off [Prim2SF]: a sign and a fraction [num / den]. *)
Inductive dclass : Type :=
| DNaN
| DInf (neg : bool)
| DZero (neg : bool)
| DFin (neg : bool) (num den : Z).

Definition classify (x : float) : dclass :=
  match Prim2SF x with
  | S754_nan => DNaN
  | S754_infinity s => DInf s
  | S754_zero s => DZero s
  | S754_finite s m e =>
      if 0 <=? e then DFin s (Z.pos m * 2 ^ e) 1
      else DFin s (Z.pos m) (2 ^ (- e))
  end.

(** [n / d] rounded to the nearest integer, ties to even ([0 <= n], [0 < d]). *)
Definition round_half_even (n d : Z) : Z :=
  let q := n / d in
  match 2 * (n mod d) ?= d with
  | Lt => q
  | Gt => q + 1
  | Eq => if Z.even q then q else q + 1
  end.

(** [n / d * 10 ^ k] rounded to the nearest integer, ties to even. *)
Definition scaled_round (n d k : Z) : Z :=
  if 0 <=? k then round_half_even (n * 10 ^ k) d
  else round_half_even n (d * 10 ^ (- k)).

(** The binary64 number nearest to [n / d] ([0 <= n], [0 < d]), ties to even:
    the quotient is taken with at least 64 significant bits and a sticky bit,
    and [binary_normalize] rounds it to 53. *)
Definition nearest_double (neg : bool) (n d : Z) : spec_float :=
  if n =? 0 then S754_zero neg
  else
    let s := Z.max 0 (64 + Z.log2 d - Z.log2 n) in
    let q := (n * 2 ^ s) / d in
    let sticky := if (n * 2 ^ s) mod d =? 0 then 0 else 1 in
    let m := 2 * q + sticky in
    binary_normalize prec emax (if neg then - m else m) (- s - 1) false.

(** Whether the exact value [n / d] is tiny for glibc's [strtod]: rounded to
    53 bits with no bound on the exponent it is still below [DBL_MIN], that
    is, it is below [DBL_MIN] by more than a quarter of the spacing of the
    subnormal numbers: [n / d < (2 ^ 54 - 1) * 2 ^ - 1076]. *)
Definition tiny (n d : Z) : bool := n * 2 ^ 1076 <? (2 ^ 54 - 1) * d.

(** Whether [strtod] reports [ERANGE] for the exact value [n / d] rounded to
    [r]: the result overflowed, or the value is tiny and the result is not
    exact.  A value less than half a spacing below [DBL_MIN] rounds to
    [DBL_MIN]; it is reported when it is tiny. *)
Definition erange (n d : Z) (r : spec_float) : bool :=
  match r with
  | S754_infinity _ => true
  | S754_zero _ => negb (n =? 0)
  | S754_finite _ m e =>
      tiny n d &&
      negb (if 0 <=? e then Z.pos m * 2 ^ e * d =? n
            else Z.pos m * d =? n * 2 ^ (- e))
  | S754_nan => false
  end.

(** [static_cast<int>(x)]: the value truncated toward zero.  The conversion
    is undefined when the truncated value is no [int] (and for NaN and the
    infinities); the model gives what the x86-64 conversion instruction
    leaves there, [INT_MIN]. *)
Definition static_cast_int (x : float) : Z :=
  match classify x with
  | DFin s n d =>
      let t := n / d in
      let v := if s then - t else t in
      if in_int v then v else INT_MIN
  | DZero _ => 0
  | DNaN | DInf _ => INT_MIN
  end.

(** The conversion of an [int] to [double]; it is exact. *)
Definition double_of_int (z : Z) : float :=
  SF2Prim (binary_normalize prec emax z 0 false).

(** ** [std::stod] *)

Definition to_lower (c : ascii) : ascii :=
  let n := nat_of_ascii c in
  if (65 <=? n)%nat && (n <=? 90)%nat then ascii_of_nat (n + 32) else c.

(** Whether [s] starts with the lower-case word [p], letter case ignored. *)
Fixpoint starts_with_ci (p s : string) : bool :=
  match p, s with
  | EmptyString, _ => true
  | String a p', String b s' => Ascii.eqb a (to_lower b) && starts_with_ci p' s'
  | String _ _, EmptyString => false
  end.

Definition isxdigit (c : ascii) : bool :=
  let n := nat_of_ascii (to_lower c) in
  isdigit c || ((97 <=? n)%nat && (n <=? 102)%nat).

Definition xdigit_value (c : ascii) : Z :=
  if isdigit c then digit_value c
  else Z.of_nat (nat_of_ascii (to_lower c)) - 87.

Fixpoint span_xdigits (s : string) : string * string :=
  match s with
  | String c s' =>
      if isxdigit c
      then let '(d, r) := span_xdigits s' in (String c d, r)
      else (EmptyString, s)
  | EmptyString => (EmptyString, EmptyString)
  end.

Fixpoint xdigits_value (acc : Z) (s : string) : Z :=
  match s with
  | String c s' => xdigits_value (16 * acc + xdigit_value c) s'
  | EmptyString => acc
  end.

(** An exponent part: the marker [e] (or [p]), an optional sign and at least
    one digit; it counts as absent, value [0], when no digit follows. *)
Definition parse_exponent (marker : ascii) (s : string) : Z :=
  match s with
  | String c s' =>
      if Ascii.eqb (to_lower c) marker then
        let '(neg, s'') := take_sign s' in
        let '(ds, _) := span_digits s'' in
        match ds with
        | EmptyString => 0
        | _ => if neg then - digits_value 0 ds else digits_value 0 ds
        end
      else 0
  | EmptyString => 0
  end.

(** The fraction digits after a decimal point, and what follows them. *)
Definition take_fraction (span : string -> string * string) (s : string)
  : string * string :=
  match s with
  | String "." s' => span s'
  | _ => (EmptyString, s)
  end.

(** What [strtod] reads after white space and sign. *)
Inductive number : Type :=
| NoConversion
| Infinite
| NotANumber
| Fraction (num den : Z).

Definition scale (m base e : Z) : number :=
  if 0 <=? e then Fraction (m * base ^ e) 1 else Fraction m (base ^ (- e)).

Definition parse_decimal (s : string) : number :=
  let '(ip, r1) := span_digits s in
  let '(fp, r2) := take_fraction span_digits r1 in
  match ip +:+ fp with
  | EmptyString => NoConversion
  | ds =>
      scale (digits_value 0 ds) 10
            (parse_exponent "e" r2 - Z.of_nat (String.length fp))
  end.

Definition parse_hex (s : string) : number :=
  let '(ip, r1) := span_xdigits s in
  let '(fp, r2) := take_fraction span_xdigits r1 in
  match ip +:+ fp with
  | EmptyString => NoConversion
  | ds =>
      scale (xdigits_value 0 ds) 2
            (parse_exponent "p" r2 - 4 * Z.of_nat (String.length fp))
  end.

Definition parse_number (s : string) : number :=
  let hex :=
    match s with
    | String "0" (String x s') =>
        if Ascii.eqb (to_lower x) "x" then parse_hex s' else NoConversion
    | _ => NoConversion
    end in
  match hex with
  | NoConversion =>
      match parse_decimal s with
      | NoConversion =>
          if starts_with_ci "inf" s then Infinite
          else if starts_with_ci "nan" s then NotANumber
          else NoConversion
      | n => n
      end
  | n => n
  end.

(** [std::stod(str)]: [strtod] on the longest prefix that reads as a number;
    [invalid_argument] when there is none, [out_of_range] on [ERANGE].  What
    follows the number is ignored.  The one NaN of [float] stands for every
    NaN, so a sign or payload of a NaN is not kept. *)
Definition stod (str : string) : result float :=
  let '(neg, s) := take_sign (skip_space str) in
  match parse_number s with
  | NoConversion => Throw (invalid_argument "stod")
  | Infinite => Ok (if neg then neg_infinity else infinity)
  | NotANumber => Ok nan
  | Fraction n d =>
      let r := nearest_double neg n d in
      if erange n d r then Throw (out_of_range "stod") else Ok (SF2Prim r)
  end.

(** ** Formatting a [double] *)

(** The last [k] decimal digits of [n], most significant first. *)
Fixpoint digits_fixed (k : nat) (n : Z) : string :=
  match k with
  | O => EmptyString
  | S k' => digits_fixed k' (n / 10) +:+ String (digit_char (n mod 10)) EmptyString
  end.

Fixpoint zeros (k : nat) : string :=
  match k with
  | O => EmptyString
  | S k' => String "0" (zeros k')
  end.

(** [s] without its trailing zeros. *)
Fixpoint strip_zeros (s : string) : string :=
  match s with
  | EmptyString => EmptyString
  | String c s' =>
      match strip_zeros s' with
      | EmptyString => if Ascii.eqb c "0" then EmptyString else String c EmptyString
      | t => String c t
      end
  end.

Definition with_point (int_part frac : string) : string :=
  match frac with
  | EmptyString => int_part
  | _ => int_part +:+ String "." frac
  end.

Definition sign_string (neg : bool) : string := if neg then "-" else "".

(** Whether [10 ^ e <= n / d]. *)
Definition pow10_le (e n d : Z) : bool :=
  if 0 <=? e then 10 ^ e * d <=? n else d <=? n * 10 ^ (- e).

(** One less than the number of decimal digits of [n] ([0 < n]). *)
Definition ilog10 (n : Z) : Z := Z.of_nat (String.length (show_unsigned n)) - 1.

(** The decimal exponent of [n / d]: the floor of its base-10 logarithm
    ([0 < n], [0 < d]). *)
Definition decimal_exponent (n d : Z) : Z :=
  let e0 := ilog10 n - ilog10 d in
  if pow10_le e0 n d then e0 else e0 - 1.

(** Scientific style: one digit, the other digits without trailing zeros, and
    an exponent of at least two digits. *)
Definition style_e (ds : string) (X : Z) : string :=
  match ds with
  | String c rest =>
      with_point (String c EmptyString) (strip_zeros rest)
      +:+ "e" +:+ (if X <? 0 then "-" else "+")
      +:+ (if Z.abs X <? 10 then "0" else "") +:+ show_unsigned (Z.abs X)
  | EmptyString => EmptyString
  end.

(** Fixed style for the significant digits [ds] of a number with decimal
    exponent [X], trailing zeros of the fraction removed. *)
Definition style_f (ds : string) (X : Z) : string :=
  if X <? 0
  then "0." +:+ zeros (Z.to_nat (- X - 1)) +:+ strip_zeros ds
  else
    let k := Z.to_nat (X + 1) in
    with_point (substring 0 k ds)
               (strip_zeros (substring k (String.length ds - k) ds)).

(** [os << x] with the stream's defaults ([printf]'s [%g]) at precision [P]:
    [P] significant digits, scientific style when the decimal exponent [X] is
    below [-4] or not below [P], trailing zeros removed.  The type [float]
    has one NaN, printed [nan]; the library prints a NaN whose sign bit is
    set as [-nan], a difference of one character that no statement below
    depends on. *)
Definition format_general (P : nat) (x : float) : string :=
  match classify x with
  | DNaN => "nan"
  | DInf s => sign_string s +:+ "inf"
  | DZero s => sign_string s +:+ "0"
  | DFin s n d =>
      let p := Z.of_nat P in
      let X0 := decimal_exponent n d in
      let D0 := scaled_round n d (p - 1 - X0) in
      let '(X, D) := if 10 ^ p <=? D0 then (X0 + 1, 10 ^ (p - 1)) else (X0, D0) in
      let ds := digits_fixed P D in
      sign_string s +:+
      (if (X <? -4) || (p <=? X) then style_e ds X else style_f ds X)
  end.

(** [os << x] on a freshly constructed stream: precision 6. *)
Definition show_double (x : float) : string := format_general 6 x.

(** [os << std::fixed << std::setprecision(p) << x] ([printf]'s [%.pf]). *)
Definition format_fixed (p : nat) (x : float) : string :=
  match classify x with
  | DNaN => "nan"
  | DInf s => sign_string s +:+ "inf"
  | DZero s => sign_string s +:+ with_point "0" (zeros p)
  | DFin s n d =>
      let q := scaled_round n d (Z.of_nat p) in
      sign_string s +:+
      with_point (show_unsigned (q / 10 ^ Z.of_nat p))
                 (digits_fixed p (q mod 10 ^ Z.of_nat p))
  end.

(** ** A reference [log10] for running examples

    The program calls the C library's [log10], whose last bit is not fixed
    by any standard: the embedding takes [log10] as a parameter, and every
    theorem about the program is stated for all of them.  [log10_ref]
    evaluates the logarithm by the series of the inverse hyperbolic tangent
    and serves to run the program on examples. *)
Definition ln2 : float := 0.6931471805599453%float.
Definition ln10 : float := 2.302585092994046%float.

Fixpoint atanh_series (k : nat) (z2 zpow : float) (i : Z) : float :=
  match k with
  | O => 0%float
  | S k' => (zpow / double_of_int i + atanh_series k' z2 (zpow * z2) (i + 2))%float
  end.

Definition log10_ref (x : float) : float :=
  match Prim2SF x with
  | S754_nan => nan
  | S754_zero _ => neg_infinity
  | S754_infinity s => if s then nan else infinity
  | S754_finite true _ _ => nan
  | S754_finite false _ _ =>
      let '(m, e) := PrimFloat.frshiftexp x in
      let e := Uint63.to_Z e - FloatOps.shift in
      let '(m, e) := if (m <? 0.7071067811865476)%float
                     then ((m * 2)%float, e - 1) else (m, e) in
      let z := ((m - 1) / (m + 1))%float in
      let lnm := (2 * atanh_series 14 (z * z) z 1)%float in
      ((double_of_int e * ln2 + lnm) / ln10)%float
  end.

End Cxx.

Import Cxx.

(* ===================================================================== *)
(** * The program state *)
(* ===================================================================== *)

(** [struct UserInfo], the fields in the order of the source, each with its
    default member initialiser in [new_UserInfo]. *)
Record UserInfo : Type := mk_UserInfo {
  age : Z;
  weight : float;
  waist : float;
  neck : float;
  height : float;
  carbs : float;
  protein : float;
  fat : float;
  bfp : Z * string;
  daily_calories : Z;
  hip : float;
  name : string;
  gender : string;
  lifestyle : string
}.

Definition new_UserInfo : UserInfo :=
  {| age := 0; weight := 0; waist := 0; neck := 0; height := 0;
     carbs := 0; protein := 0; fat := 0; bfp := (0, "");
     daily_calories := 0; hip := 0; name := ""; gender := "";
     lifestyle := "" |}.

(** The assignments to the derived fields. *)
Definition set_bfp (user : UserInfo) (v : Z * string) : UserInfo :=
  {| age := age user; weight := weight user; waist := waist user;
     neck := neck user; height := height user; carbs := carbs user;
     protein := protein user; fat := fat user; bfp := v;
     daily_calories := daily_calories user; hip := hip user;
     name := name user; gender := gender user; lifestyle := lifestyle user |}.

Definition set_daily_calories (user : UserInfo) (v : Z) : UserInfo :=
  {| age := age user; weight := weight user; waist := waist user;
     neck := neck user; height := height user; carbs := carbs user;
     protein := protein user; fat := fat user; bfp := bfp user;
     daily_calories := v; hip := hip user;
     name := name user; gender := gender user; lifestyle := lifestyle user |}.

Definition set_carbs (user : UserInfo) (v : float) : UserInfo :=
  {| age := age user; weight := weight user; waist := waist user;
     neck := neck user; height := height user; carbs := v;
     protein := protein user; fat := fat user; bfp := bfp user;
     daily_calories := daily_calories user; hip := hip user;
     name := name user; gender := gender user; lifestyle := lifestyle user |}.

Definition set_protein (user : UserInfo) (v : float) : UserInfo :=
  {| age := age user; weight := weight user; waist := waist user;
     neck := neck user; height := height user; carbs := carbs user;
     protein := v; fat := fat user; bfp := bfp user;
     daily_calories := daily_calories user; hip := hip user;
     name := name user; gender := gender user; lifestyle := lifestyle user |}.

Definition set_fat (user : UserInfo) (v : float) : UserInfo :=
  {| age := age user; weight := weight user; waist := waist user;
     neck := neck user; height := height user; carbs := carbs user;
     protein := protein user; fat := v; bfp := bfp user;
     daily_calories := daily_calories user; hip := hip user;
     name := name user; gender := gender user; lifestyle := lifestyle user |}.

(** What a run of the program can see and change: the list of the one
    [static UserInfoManager] every [HealthAssistant] shares, the files, and
    the two console streams (one entry per line written).

    [userInfoList] is a [std::vector<UserInfo*>].  Every pointer in it comes
    from a [new UserInfo] that is pushed once and never shared, so the vector
    is modelled by the records themselves, in order, and a [UserInfo*] into
    it by an index. *)
Record State : Type := mk_State {
  userInfoList : list UserInfo;
  files : gmap string string;
  unopenable : gset string;
  cout : list string;
  cerr : list string
}.

(** A computation over the state that returns, throws or crashes. *)
Definition M (A : Type) : Type := State -> State * result A.

Definition ret {A} (a : A) : M A := fun st => (st, Ok a).

Definition bind {A B} (m : M A) (k : A -> M B) : M B :=
  fun st =>
    match m st with
    | (st', Ok a) => k a st'
    | (st', Throw e) => (st', Throw e)
    | (st', NullDeref) => (st', NullDeref)
    | (st', DivideByZero) => (st', DivideByZero)
    end.

Definition throw {A} (e : exn) : M A := fun st => (st, Throw e).

(** Lifts a library call that returns or throws. *)
Definition lift {A} (r : result A) : M A := fun st => (st, r).

(** The division of integers [a / b]: a zero divisor kills the process. *)
Definition divide (a b : Z) : M Z :=
  fun st => if b =? 0 then (st, DivideByZero) else (st, Ok (a / b)).

Notation "'let*' x ':=' m 'in' k" := (bind m (fun x => k))
  (at level 10, x name, m at level 100, k at level 200).
Notation "'let*' ' p ':=' m 'in' k" := (bind m (fun x => let 'p := x in k))
  (at level 10, p strict pattern, m at level 100, k at level 200).

(** The state with one component replaced. *)
Definition set_userInfoList (st : State) (l : list UserInfo) : State :=
  {| userInfoList := l; files := files st; unopenable := unopenable st;
     cout := cout st; cerr := cerr st |}.

Definition set_files (st : State) (fs : gmap string string) : State :=
  {| userInfoList := userInfoList st; files := fs;
     unopenable := unopenable st; cout := cout st; cerr := cerr st |}.

Definition add_cout (st : State) (s : string) : State :=
  {| userInfoList := userInfoList st; files := files st;
     unopenable := unopenable st; cout := (cout st ++ [s])%list;
     cerr := cerr st |}.

Definition add_cerr (st : State) (s : string) : State :=
  {| userInfoList := userInfoList st; files := files st;
     unopenable := unopenable st; cout := cout st;
     cerr := (cerr st ++ [s])%list |}.

(** [std::cout << ... << std::endl] and [std::cerr << ... << std::endl]. *)
Definition cout_line (s : string) : M unit := fun st => (add_cout st s, Ok tt).

Definition cerr_line (s : string) : M unit := fun st => (add_cerr st s, Ok tt).

Definition get_list : M (list UserInfo) := fun st => (st, Ok (userInfoList st)).

Definition put_list (l : list UserInfo) : M unit :=
  fun st => (set_userInfoList st l, Ok tt).

(** A [UserInfo*] into [userInfoList]: [None] is [nullptr]. *)
Definition ptr : Type := option nat.

(** Reading through the pointer. *)
Definition load (p : ptr) : M UserInfo :=
  fun st =>
    match p with
    | None => (st, NullDeref)
    | Some i =>
        match userInfoList st !! i with
        | Some user => (st, Ok user)
        | None => (st, NullDeref)
        end
    end.

(** Writing through the pointer. *)
Definition store (p : ptr) (user : UserInfo) : M unit :=
  match p with
  | None => fun st => (st, NullDeref)
  | Some i => let* l := get_list in put_list (<[i := user]> l)
  end.

(** Opening a file for reading: its content, or [None] when the file does
    not exist or cannot be opened.  A name is a regular file with its text
    or a name that does not open; a directory, which opens, has a position
    at its end that is not 0 and gives no line, is not among the sources of
    this model: a statement about a load that returns is stated of a file
    with its text. *)
Definition open_read (filename : string) (st : State) : option string :=
  if decide (filename ∈ unopenable st) then None else files st !! filename.

(** Appending to a file, which creates it when it is missing. *)
Definition append_file (filename text : string) : M unit :=
  fun st =>
    (set_files st
       (<[filename := default "" (files st !! filename) +:+ text]> (files st)),
     Ok tt).

(* ===================================================================== *)
(** * The program *)
(* ===================================================================== *)

Section Program.

(** The C library's [log10]. *)
Variable log10 : float -> float.

(** What an uninitialised [double] local happens to hold when it is read:
    [indeterminate] for the local [bfp] of [USNavyMethod::getBfp],
    [indeterminate_stats] for the local [bfp] of [UserStats::usNavyMethod].
    They are two locals, and what one holds says nothing of the other, nor
    of the same local at another call: a function takes the value as an
    argument, and a statement that compares two calls gives each its own,
    or keeps to the records on which the local is never read.  A loader
    hands the value it takes to every call it makes; no statement rests on
    two of these calls reading the same. *)
Variable indeterminate : float.
Variable indeterminate_stats : float.

(** ** Helper functions *)

(** [double_to_string(input, precision)]: a string stream in fixed notation. *)
Definition double_to_string (input : float) (precision : nat) : string :=
  format_fixed precision input.

(** ** UserInfoManager *)

(** [UserInfoManager::addUserInfo] on a record: [push_back]. *)
Definition addUserInfo (userInfo : UserInfo) : M unit :=
  let* l := get_list in put_list (l ++ [userInfo])%list.

(** The [while] loop of [deleteUser]: the iterator [it] walks over the
    records still ahead and stops at the first one named [username], or at
    [end()]. *)
Fixpoint deleteUser_loop (username : string) (ahead : list UserInfo) (it : nat)
  : nat :=
  match ahead with
  | [] => it
  | user :: ahead' =>
      if String.eqb (name user) username then it
      else deleteUser_loop username ahead' (S it)
  end.

(** [UserInfoManager::deleteUser]: [erase] at the iterator unless it is
    [end()]. *)
Definition deleteUser (username : string) : M unit :=
  let* l := get_list in
  let it := deleteUser_loop username l 0 in
  if (it <? length l)%nat then put_list (delete it l) else ret tt.

(** The [for] loop of [getUserInfo] over the records from index [i] on. *)
Fixpoint getUserInfo_loop (username : string) (ahead : list UserInfo) (i : nat)
  : ptr :=
  match ahead with
  | [] => None
  | user :: ahead' =>
      if String.eqb (name user) username then Some i
      else getUserInfo_loop username ahead' (S i)
  end.

(** [UserInfoManager::getUserInfo]: the first record named [username], or
    [nullptr] after a message on [std::cerr]. *)
Definition getUserInfo (username : string) : M ptr :=
  let* l := get_list in
  match l with
  | [] => let* _ := cerr_line "no user in list" in ret None
  | _ =>
      match getUserInfo_loop username l 0 with
      | Some i => ret (Some i)
      | None => let* _ := cerr_line "user not found" in ret None
      end
  end.

(** The body of the [for] loop of [writeToFile], without the [std::endl]:
    the line of one record. *)
Definition encode_line (user : UserInfo) : string :=
  name user +:+ "," +:+
  gender user +:+ "," +:+
  show_int (age user) +:+ "," +:+
  show_double (weight user) +:+ "," +:+
  show_double (waist user) +:+ "," +:+
  show_double (neck user) +:+ "," +:+
  (if String.eqb (gender user) "female" then double_to_string (hip user) 1 else "")
  +:+ "," +:+
  show_double (height user) +:+ "," +:+
  lifestyle user.

Definition endl : string := String newline EmptyString.

(** [UserInfoManager::writeToFile]: one line per record, appended. *)
Definition writeToFile (filename : string) : M unit :=
  fun st =>
    if decide (filename ∈ unopenable st)
    then cerr_line ("Error opening file: " +:+ filename) st
    else
      append_file filename
        (String.concat "" (map (fun user => encode_line user +:+ endl)
                               (userInfoList st))) st.

(** The statements that fill a [new UserInfo] from [line], the same in
    [UserInfoManager::readFromFile], [HealthAssistant::massLoadAndCompute] and
    [UserStats::massLoadAndCompute]: nine [getline]s on a string stream over
    the line, with [stoi] and [stod] on the numeric tokens.  [token] starts
    empty and keeps its value when a [getline] finds the stream exhausted. *)
Definition decode_line (line : string) : result UserInfo :=
  let iss := open_istream line in
  let token := "" in
  let '(name_, iss) := getline iss (name new_UserInfo) comma in
  let '(gender_, iss) := getline iss (gender new_UserInfo) comma in
  let '(token, iss) := getline iss token comma in
  match stoi token with
  | Ok age_ =>
  let '(token, iss) := getline iss token comma in
  match stod token with
  | Ok weight_ =>
  let '(token, iss) := getline iss token comma in
  match stod token with
  | Ok waist_ =>
  let '(token, iss) := getline iss token comma in
  match stod token with
  | Ok neck_ =>
  let '(token, iss) := getline iss token comma in
  match (match token with EmptyString => Ok 0%float | _ => stod token end) with
  | Ok hip_ =>
  let '(token, iss) := getline iss token comma in
  match stod token with
  | Ok height_ =>
  let '(lifestyle_, iss) := getline iss (lifestyle new_UserInfo) newline in
  Ok {| age := age_; weight := weight_; waist := waist_; neck := neck_;
        height := height_; carbs := carbs new_UserInfo;
        protein := protein new_UserInfo; fat := fat new_UserInfo;
        bfp := bfp new_UserInfo;
        daily_calories := daily_calories new_UserInfo; hip := hip_;
        name := name_; gender := gender_; lifestyle := lifestyle_ |}
  | Throw e => Throw e | NullDeref => NullDeref
  | DivideByZero => DivideByZero end
  | Throw e => Throw e | NullDeref => NullDeref
  | DivideByZero => DivideByZero end
  | Throw e => Throw e | NullDeref => NullDeref
  | DivideByZero => DivideByZero end
  | Throw e => Throw e | NullDeref => NullDeref
  | DivideByZero => DivideByZero end
  | Throw e => Throw e | NullDeref => NullDeref
  | DivideByZero => DivideByZero end
  | Throw e => Throw e | NullDeref => NullDeref
  | DivideByZero => DivideByZero end.

(** The two checks every loader makes before it reads: the file opens, and
    it is not empty ([tellg] of a stream opened at the end is the size). *)
Definition open_checked (filename : string) : M string :=
  fun st =>
    match open_read filename st with
    | None =>
        throw (runtime_error
          ("Cannot open file as it may not exist or cannot be opened: "
           +:+ filename)) st
    | Some content =>
        if (String.length content =? 0)%nat
        then throw (runtime_error ("File is empty: " +:+ filename)) st
        else ret content st
    end.

(** The [while (getline(file, line))] loop of [readFromFile]. *)
Fixpoint readFromFile_loop (lines : list string) : M unit :=
  match lines with
  | [] => ret tt
  | line :: lines' =>
      let* user := lift (decode_line line) in
      let* _ := addUserInfo user in
      let* _ := cout_line line in
      readFromFile_loop lines'
  end.

(** [UserInfoManager::readFromFile]. *)
Definition readFromFile (filename : string) : M unit :=
  let* content := open_checked filename in
  readFromFile_loop (file_lines content).

(** ** The two BFP methods, the calories and the meal plan

    The functions below take the record behind the [UserInfo*] they are
    given and return it as they leave it; the caller reads it through the
    pointer before and writes it back after. *)

Definition age_range_message : string :=
  "The body fat category cannot be determined because you are outside of the permitted age range.".

Definition calories_message : string :=
  "This is ackward, your intake calarie wasn't able to be processed".

(** [USNavyMethod::getBfp] on a record.  The locals [bfp] and [category]
    start uninitialised and empty; the pair stored at the end is
    [static_cast<int>(bfp)] and [category]. *)
Definition USNavyMethod_getBfp (user : UserInfo) : M UserInfo :=
  let bfp := indeterminate in
  let category := "" in
  let* '(bfp, category) :=
    if String.eqb (gender user) "female" then
      let bfp :=
        (495.0 / (1.29579 - 0.35004 * log10 (waist user + hip user - neck user)
                  + 0.22100 * log10 (height user)) - 450.0)%float in
      if (20 <=? age user) && (age user <=? 39) then
        if (bfp <? 21)%float then ret (bfp, "USNavy: Low")
        else if (bfp <? 33)%float then ret (bfp, "USNavy: Normal")
        else if (bfp <? 39)%float then ret (bfp, "USNavy: High")
        else ret (bfp, "USNavy: Very High")
      else if (40 <=? age user) && (age user <=? 59) then
        if (bfp <? 23)%float then ret (bfp, "USNavy: Low")
        else if (bfp <? 34)%float then ret (bfp, "USNavy: Normal")
        else if (bfp <? 40)%float then ret (bfp, "USNavy: High")
        else ret (bfp, "USNavy: Very High")
      else if (60 <=? age user) && (age user <=? 79) then
        if (bfp <? 24)%float then ret (bfp, "USNavy: Low")
        else if (bfp <? 36)%float then ret (bfp, "USNavy: Normal")
        else if (bfp <? 42)%float then ret (bfp, "USNavy: High")
        else ret (bfp, "USNavy: Very High")
      else
        let* _ := cout_line age_range_message in
        ret (bfp, category)
    else if String.eqb (gender user) "male" then
      let bfp :=
        (495.0 / (1.0324 - 0.19077 * log10 (waist user - neck user)
                  + 0.15456 * log10 (height user)) - 450.0)%float in
      if (20 <=? age user) && (age user <=? 39) then
        if (bfp <? 8)%float then ret (bfp, "USNavy: Low")
        else if (bfp <? 20)%float then ret (bfp, "USNavy: Normal")
        else if (bfp <? 25)%float then ret (bfp, "USNavy: High")
        else ret (bfp, "USNavy: Very High")
      else if (40 <=? age user) && (age user <=? 59) then
        if (bfp <? 11)%float then ret (bfp, "USNavy: Low")
        else if (bfp <? 22)%float then ret (bfp, "USNavy: Normal")
        else if (bfp <? 28)%float then ret (bfp, "USNavy: High")
        else ret (bfp, "USNavy: Very High")
      else if (60 <=? age user) && (age user <=? 79) then
        if (bfp <? 13)%float then ret (bfp, "USNavy: Low")
        else if (bfp <? 25)%float then ret (bfp, "USNavy: Normal")
        else if (bfp <? 30)%float then ret (bfp, "USNavy: High")
        else ret (bfp, "USNavy: Very High")
      else
        let* _ := cout_line age_range_message in
        ret (bfp, category)
    else ret (bfp, category) in
  ret (set_bfp user (static_cast_int bfp, category)).

(** [BmiMethod::getBfp] on a record. *)
Definition BmiMethod_getBfp (user : UserInfo) : M UserInfo :=
  let bfp := (weight user * 100 * 100 / (height user * height user))%float in
  let category :=
    if (bfp <? 18.5)%float then "Bmi: Low"
    else if (bfp <? 25)%float then "Bmi: Normal"
    else if (bfp <? 30)%float then "Bmi: High"
    else "Bmi: Very High" in
  ret (set_bfp user (static_cast_int bfp, category)).

(** [HealthAssistant::getDailyCalories] on a record. *)
Definition HealthAssistant_getDailyCalories (user : UserInfo) : M UserInfo :=
  let calories := 0 in
  let* calories :=
    if String.eqb (gender user) "male" then
      if (19 <=? age user) && (age user <=? 30) then
        if String.eqb (lifestyle user) "sedentary" then ret 2400
        else if String.eqb (lifestyle user) "moderate" then ret 2800
        else if String.eqb (lifestyle user) "active" then ret 3000
        else ret calories
      else if (31 <=? age user) && (age user <=? 50) then
        if String.eqb (lifestyle user) "sedentary" then ret 2200
        else if String.eqb (lifestyle user) "moderate" then ret 2600
        else if String.eqb (lifestyle user) "active" then ret 3000
        else ret calories
      else if 50 <? age user then
        if String.eqb (lifestyle user) "sedentary" then ret 2000
        else if String.eqb (lifestyle user) "moderate" then ret 2400
        else if String.eqb (lifestyle user) "active" then ret 2800
        else ret calories
      else ret calories
    else if String.eqb (gender user) "female" then
      if (19 <=? age user) && (age user <=? 30) then
        if String.eqb (lifestyle user) "sedentary" then ret 2000
        else if String.eqb (lifestyle user) "moderate" then ret 2200
        else if String.eqb (lifestyle user) "active" then ret 2400
        else ret calories
      else if (31 <=? age user) && (age user <=? 50) then
        if String.eqb (lifestyle user) "sedentary" then ret 1800
        else if String.eqb (lifestyle user) "moderate" then ret 2000
        else if String.eqb (lifestyle user) "active" then ret 2200
        else ret calories
      else if 50 <? age user then
        if String.eqb (lifestyle user) "sedentary" then ret 1600
        else if String.eqb (lifestyle user) "moderate" then ret 1800
        else if String.eqb (lifestyle user) "active" then ret 2200
        else ret calories
      else ret calories
    else
      let* _ := cerr_line calories_message in
      ret 0 in
  ret (set_daily_calories user calories).

(** [HealthAssistant::getMealPrep] on a record. *)
Definition HealthAssistant_getMealPrep (user : UserInfo) : M UserInfo :=
  let carbs_percentage := 0.50%float in
  let protein_percentage := 0.30%float in
  let fat_percentage := 0.20%float in
  let carbs_calories := (double_of_int (daily_calories user) * carbs_percentage)%float in
  let protein_calories := (double_of_int (daily_calories user) * protein_percentage)%float in
  let fat_calories := (double_of_int (daily_calories user) * fat_percentage)%float in
  let user := set_carbs user (carbs_calories / 4.0)%float in
  let user := set_protein user (protein_calories / 4.0)%float in
  let user := set_fat user (fat_calories / 9.0)%float in
  ret user.

(** ** The operations by user name

    Each one looks the name up and passes the pointer on without testing it:
    the callee's first statement reads through it. *)

(** [USNavyMethod::getBfp(std::string)]. *)
Definition USNavyMethod_getBfp_by_name (username : string) : M unit :=
  let* user := getUserInfo username in
  let* r := load user in
  let* r := USNavyMethod_getBfp r in
  store user r.

(** [BmiMethod::getBfp(std::string)]. *)
Definition BmiMethod_getBfp_by_name (username : string) : M unit :=
  let* user := getUserInfo username in
  let* r := load user in
  let* r := BmiMethod_getBfp r in
  store user r.

(** [HealthAssistant::getDailyCalories(std::string)]. *)
Definition HealthAssistant_getDailyCalories_by_name (username : string) : M unit :=
  let* user := getUserInfo username in
  let* r := load user in
  let* r := HealthAssistant_getDailyCalories r in
  store user r.

(** [HealthAssistant::getMealPrep(std::string)]. *)
Definition HealthAssistant_getMealPrep_by_name (username : string) : M unit :=
  let* user := getUserInfo username in
  let* r := load user in
  let* r := HealthAssistant_getMealPrep r in
  store user r.

(** The virtual [getBfp] of the [HealthAssistant] at hand. *)
Inductive BfpType : Type := BfpType_BmiMethod | BfpType_USNavyMethod.

Definition HealthAssistant_getBfp (self : BfpType) (user : UserInfo) : M UserInfo :=
  match self with
  | BfpType_BmiMethod => BmiMethod_getBfp user
  | BfpType_USNavyMethod => USNavyMethod_getBfp user
  end.

(** The [while] loop of [HealthAssistant::massLoadAndCompute]. *)
Fixpoint HealthAssistant_massLoadAndCompute_loop
  (self : BfpType) (lines : list string) : M unit :=
  match lines with
  | [] => ret tt
  | line :: lines' =>
      let* user := lift (decode_line line) in
      let* user := HealthAssistant_getBfp self user in
      let* user := HealthAssistant_getDailyCalories user in
      let* user := HealthAssistant_getMealPrep user in
      let* _ := addUserInfo user in
      HealthAssistant_massLoadAndCompute_loop self lines'
  end.

(** [HealthAssistant::massLoadAndCompute]. *)
Definition HealthAssistant_massLoadAndCompute (self : BfpType) (filename : string)
  : M unit :=
  let* content := open_checked filename in
  HealthAssistant_massLoadAndCompute_loop self (file_lines content).

(** ** UserStats *)

(** [UserStats::usNavyMethod]. *)
Definition UserStats_usNavyMethod (user : UserInfo) : M UserInfo :=
  let bfp := indeterminate_stats in
  let category := "" in
  let* '(bfp, category) :=
    if String.eqb (gender user) "female" then
      let bfp :=
        (495.0 / (1.29579 - 0.35004 * log10 (waist user + hip user - neck user)
                  + 0.22100 * log10 (height user)) - 450.0)%float in
      if (20 <=? age user) && (age user <=? 39) then
        if (bfp <? 21)%float then ret (bfp, "USNavy: Low")
        else if (bfp <? 33)%float then ret (bfp, "USNavy: Normal")
        else if (bfp <? 39)%float then ret (bfp, "USNavy: High")
        else ret (bfp, "USNavy: Very High")
      else if (40 <=? age user) && (age user <=? 59) then
        if (bfp <? 23)%float then ret (bfp, "USNavy: Low")
        else if (bfp <? 34)%float then ret (bfp, "USNavy: Normal")
        else if (bfp <? 40)%float then ret (bfp, "USNavy: High")
        else ret (bfp, "USNavy: Very High")
      else if (60 <=? age user) && (age user <=? 79) then
        if (bfp <? 24)%float then ret (bfp, "USNavy: Low")
        else if (bfp <? 36)%float then ret (bfp, "USNavy: Normal")
        else if (bfp <? 42)%float then ret (bfp, "USNavy: High")
        else ret (bfp, "USNavy: Very High")
      else
        let* _ := cout_line age_range_message in
        ret (bfp, category)
    else if String.eqb (gender user) "male" then
      let bfp :=
        (495.0 / (1.0324 - 0.19077 * log10 (waist user - neck user)
                  + 0.15456 * log10 (height user)) - 450.0)%float in
      if (20 <=? age user) && (age user <=? 39) then
        if (bfp <? 8)%float then ret (bfp, "USNavy: Low")
        else if (bfp <? 20)%float then ret (bfp, "USNavy: Normal")
        else if (bfp <? 25)%float then ret (bfp, "USNavy: High")
        else ret (bfp, "USNavy: Very High")
      else if (40 <=? age user) && (age user <=? 59) then
        if (bfp <? 11)%float then ret (bfp, "USNavy: Low")
        else if (bfp <? 22)%float then ret (bfp, "USNavy: Normal")
        else if (bfp <? 28)%float then ret (bfp, "USNavy: High")
        else ret (bfp, "USNavy: Very High")
      else if (60 <=? age user) && (age user <=? 79) then
        if (bfp <? 13)%float then ret (bfp, "USNavy: Low")
        else if (bfp <? 25)%float then ret (bfp, "USNavy: Normal")
        else if (bfp <? 30)%float then ret (bfp, "USNavy: High")
        else ret (bfp, "USNavy: Very High")
      else
        let* _ := cout_line age_range_message in
        ret (bfp, category)
    else ret (bfp, category) in
  ret (set_bfp user (static_cast_int bfp, category)).

(** [UserStats::bmiMethod]. *)
Definition UserStats_bmiMethod (user : UserInfo) : M UserInfo :=
  let bfp := (weight user * 100 * 100 / (height user * height user))%float in
  let category :=
    if (bfp <? 18.5)%float then "Bmi: Low"
    else if (bfp <? 25)%float then "Bmi: Normal"
    else if (bfp <? 30)%float then "Bmi: High"
    else "Bmi: Very High" in
  ret (set_bfp user (static_cast_int bfp, category)).

(** [UserStats::getDailyCalories]. *)
Definition UserStats_getDailyCalories (user : UserInfo) : M UserInfo :=
  let calories := 0 in
  let* calories :=
    if String.eqb (gender user) "male" then
      if (19 <=? age user) && (age user <=? 30) then
        if String.eqb (lifestyle user) "sedentary" then ret 2400
        else if String.eqb (lifestyle user) "moderate" then ret 2800
        else if String.eqb (lifestyle user) "active" then ret 3000
        else ret calories
      else if (31 <=? age user) && (age user <=? 50) then
        if String.eqb (lifestyle user) "sedentary" then ret 2200
        else if String.eqb (lifestyle user) "moderate" then ret 2600
        else if String.eqb (lifestyle user) "active" then ret 3000
        else ret calories
      else if 50 <? age user then
        if String.eqb (lifestyle user) "sedentary" then ret 2000
        else if String.eqb (lifestyle user) "moderate" then ret 2400
        else if String.eqb (lifestyle user) "active" then ret 2800
        else ret calories
      else ret calories
    else if String.eqb (gender user) "female" then
      if (19 <=? age user) && (age user <=? 30) then
        if String.eqb (lifestyle user) "sedentary" then ret 2000
        else if String.eqb (lifestyle user) "moderate" then ret 2200
        else if String.eqb (lifestyle user) "active" then ret 2400
        else ret calories
      else if (31 <=? age user) && (age user <=? 50) then
        if String.eqb (lifestyle user) "sedentary" then ret 1800
        else if String.eqb (lifestyle user) "moderate" then ret 2000
        else if String.eqb (lifestyle user) "active" then ret 2200
        else ret calories
      else if 50 <? age user then
        if String.eqb (lifestyle user) "sedentary" then ret 1600
        else if String.eqb (lifestyle user) "moderate" then ret 1800
        else if String.eqb (lifestyle user) "active" then ret 2200
        else ret calories
      else ret calories
    else
      let* _ := cerr_line calories_message in
      ret 0 in
  ret (set_daily_calories user calories).

(** [UserStats::getMealPrep]. *)
Definition UserStats_getMealPrep (user : UserInfo) : M UserInfo :=
  let carbs_percentage := 0.50%float in
  let protein_percentage := 0.30%float in
  let fat_percentage := 0.20%float in
  let carbs_calories := (double_of_int (daily_calories user) * carbs_percentage)%float in
  let protein_calories := (double_of_int (daily_calories user) * protein_percentage)%float in
  let fat_calories := (double_of_int (daily_calories user) * fat_percentage)%float in
  let user := set_carbs user (carbs_calories / 4.0)%float in
  let user := set_protein user (protein_calories / 4.0)%float in
  let user := set_fat user (fat_calories / 9.0)%float in
  ret user.

(** The [while] loop of [UserStats::massLoadAndCompute], which collects the
    records in a vector of its own. *)
Fixpoint UserStats_massLoadAndCompute_loop
  (bfpType : BfpType) (lines : list string) (UserInfoList : list UserInfo)
  : M (list UserInfo) :=
  match lines with
  | [] => ret UserInfoList
  | line :: lines' =>
      let* user := lift (decode_line line) in
      let* user :=
        match bfpType with
        | BfpType_BmiMethod => UserStats_bmiMethod user
        | BfpType_USNavyMethod => UserStats_usNavyMethod user
        end in
      let* user := UserStats_getDailyCalories user in
      let* user := UserStats_getMealPrep user in
      UserStats_massLoadAndCompute_loop bfpType lines' (UserInfoList ++ [user])%list
  end.

(** [UserStats::massLoadAndCompute]. *)
Definition UserStats_massLoadAndCompute (filename : string) (bfpType : BfpType)
  : M (list UserInfo) :=
  let* content := open_checked filename in
  UserStats_massLoadAndCompute_loop bfpType (file_lines content) [].

(** The names a loop of [GetHealthyUsers] pushes: the records of [userStats]
    whose category is [label]. *)
Definition healthy_names (label : string) (userStats : list UserInfo) : list string :=
  map name (filter (fun user => String.eqb (snd (bfp user)) label = true) userStats).

Fixpoint cout_lines (lines : list string) : M unit :=
  match lines with
  | [] => ret tt
  | l :: lines' => let* _ := cout_line l in cout_lines lines'
  end.

(** [UserStats::GetHealthyUsers(std::string method)]: both files, each with
    its own method. *)
Definition UserStats_GetHealthyUsers (method : string) : M (list string) :=
  let healthyUsers : list string := [] in
  let* userStats := UserStats_massLoadAndCompute "bmi_user_data.csv" BfpType_BmiMethod in
  let healthyUsers := (healthyUsers ++ healthy_names "Bmi: Normal" userStats)%list in
  let* userStats := UserStats_massLoadAndCompute "us_user_data.csv" BfpType_USNavyMethod in
  let healthyUsers := (healthyUsers ++ healthy_names "USNavy: Normal" userStats)%list in
  let* _ := cout_line "All Healthy Users " in
  let* _ := cout_lines healthyUsers in
  ret healthyUsers.

(** The counters of [GetFullStats]. *)
Record Counters : Type := mk_Counters {
  genderCount_male : Z;
  genderCount_female : Z;
  healthyCount : Z;
  healthyMaleCount : Z;
  healthyFemaleCount : Z
}.

(** One round of a [for] loop of [GetFullStats] over a loaded vector: the
    gender counters, and the healthy counters when the category is [label]. *)
Definition count_user (label : string) (c : Counters) (user : UserInfo) : Counters :=
  let '(maleCount, femaleCount) :=
    if String.eqb (gender user) "female"
    then (genderCount_male c, genderCount_female c + 1)
    else if String.eqb (gender user) "male"
    then (genderCount_male c + 1, genderCount_female c)
    else (genderCount_male c, genderCount_female c) in
  if String.eqb (snd (bfp user)) label then
    {| genderCount_male := maleCount; genderCount_female := femaleCount;
       healthyCount := healthyCount c + 1;
       healthyMaleCount :=
         if String.eqb (gender user) "female" then healthyMaleCount c
         else if String.eqb (gender user) "male" then healthyMaleCount c + 1
         else healthyMaleCount c;
       healthyFemaleCount :=
         if String.eqb (gender user) "female" then healthyFemaleCount c + 1
         else healthyFemaleCount c |}
  else
    {| genderCount_male := maleCount; genderCount_female := femaleCount;
       healthyCount := healthyCount c;
       healthyMaleCount := healthyMaleCount c;
       healthyFemaleCount := healthyFemaleCount c |}.

(** What [GetFullStats] prints, as numbers. *)
Record FullStats : Type := mk_FullStats {
  totalUsers : Z;
  malePercent : Z;
  femalePercent : Z;
  healthyBmiPercent : Z;
  healthyMaleBmiPercent : Z;
  healthyFemaleBmiPercent : Z;
  healthyUsPercent : Z;
  healthyMaleUsPercent : Z;
  healthyFemaleUsPercent : Z
}.

(** The statements of [UserStats::GetFullStats] after its two loads: the
    two counting loops and the six lines.  Both loops compare the category
    with ["Bmi: Normal"].  The counters are [int]s, taken here without
    wrap-around: they are those of the source as long as a hundred times the
    number of records is an [int].  Each quotient is computed when its line
    is printed, and nothing guards its divisor, the total or the size of a
    vector: with a vector of no record the process is killed there, after
    the lines printed before. *)
Definition GetFullStats_report (bmiUserStats usUserStats : list UserInfo)
  : M FullStats :=
  let zero := {| genderCount_male := 0; genderCount_female := 0; healthyCount := 0;
                 healthyMaleCount := 0; healthyFemaleCount := 0 |} in
  let totalUsers := Z.of_nat (length bmiUserStats) + Z.of_nat (length usUserStats) in
  let bmi := fold_left (count_user "Bmi: Normal") bmiUserStats zero in
  let us :=
    fold_left (count_user "Bmi: Normal") usUserStats
      {| genderCount_male := genderCount_male bmi;
         genderCount_female := genderCount_female bmi;
         healthyCount := 0; healthyMaleCount := 0; healthyFemaleCount := 0 |} in
  let maleCount := genderCount_male us in
  let femaleCount := genderCount_female us in
  let* _ := cout_line ("total users: " +:+ show_int totalUsers) in
  let* malePercent := divide (maleCount * 100) totalUsers in
  let* femalePercent := divide (femaleCount * 100) totalUsers in
  let* _ := cout_line ("male/female percentage: " +:+ show_int malePercent
                       +:+ "% / " +:+ show_int femalePercent +:+ "%") in
  let* healthyBmiPercent :=
    divide (healthyCount bmi * 100) (Z.of_nat (length bmiUserStats)) in
  let* _ := cout_line ("healty bmi: " +:+ show_int healthyBmiPercent +:+ "%") in
  let* healthyMaleBmiPercent :=
    divide (healthyMaleCount bmi * 100) (Z.of_nat (length bmiUserStats)) in
  let* healthyFemaleBmiPercent :=
    divide (healthyFemaleCount bmi * 100) (Z.of_nat (length bmiUserStats)) in
  let* _ := cout_line ("healty bmi male/female: " +:+ show_int healthyMaleBmiPercent
                       +:+ "% / " +:+ show_int healthyFemaleBmiPercent +:+ "%") in
  let* healthyUsPercent :=
    divide (healthyCount us * 100) (Z.of_nat (length usUserStats)) in
  let* _ := cout_line ("healty us: " +:+ show_int healthyUsPercent +:+ "%") in
  let* healthyMaleUsPercent :=
    divide (healthyMaleCount us * 100) (Z.of_nat (length usUserStats)) in
  let* healthyFemaleUsPercent :=
    divide (healthyFemaleCount us * 100) (Z.of_nat (length usUserStats)) in
  let* _ := cout_line ("healty us male/female: " +:+ show_int healthyMaleUsPercent
                       +:+ "% / " +:+ show_int healthyFemaleUsPercent +:+ "%") in
  ret {| totalUsers := totalUsers;
         malePercent := malePercent;
         femalePercent := femalePercent;
         healthyBmiPercent := healthyBmiPercent;
         healthyMaleBmiPercent := healthyMaleBmiPercent;
         healthyFemaleBmiPercent := healthyFemaleBmiPercent;
         healthyUsPercent := healthyUsPercent;
         healthyMaleUsPercent := healthyMaleUsPercent;
         healthyFemaleUsPercent := healthyFemaleUsPercent |}.

(** [UserStats::GetFullStats].  Both loads name [BfpType::BmiMethod]. *)
Definition UserStats_GetFullStats : M FullStats :=
  let* bmiUserStats := UserStats_massLoadAndCompute "bmi_user_data.csv" BfpType_BmiMethod in
  let* usUserStats := UserStats_massLoadAndCompute "us_user_data.csv" BfpType_BmiMethod in
  GetFullStats_report bmiUserStats usUserStats.

End Program.

(* ===================================================================== *)
(** * More of the program: display, helpers and the user lists *)
(* ===================================================================== *)

Section Display.

(** [std::string(n, ' ')]. *)
Fixpoint spaces (n : nat) : string :=
  match n with
  | O => EmptyString
  | S n' => String " " (spaces n')
  end.

(** [center(input, width)].  The two paddings are computed first, with the
    division of [int]s, which truncates toward zero; they are used only when
    [width] is not below the length. *)
Definition center (input : string) (width : Z) : string :=
  let inputLength := Z.of_nat (String.length input) in
  let diff := width - inputLength in
  let pad1 := Z.quot diff 2 in
  let pad2 := diff - pad1 in
  if width <? inputLength then input
  else spaces (Z.to_nat pad1) +:+ input +:+ spaces (Z.to_nat pad2).

(** The lines [UserInfoManager::displayUser] writes on [std::cout], one
    entry for each line end; the last, empty one is the [std::endl]. *)
Definition displayUser_lines (userInfo : UserInfo) : list string :=
  let width := 60 in
  let precision := 2%nat in
  ([center "--- USER PROFILE SUMMARY ---" width; "";
    center "Personal Details:" width;
    center ("Name: " +:+ name userInfo) width;
    center ("Gender: " +:+ gender userInfo) width;
    center ("Age (years): " +:+ show_int (age userInfo)) width;
    center ("Height (cm): " +:+ double_to_string (height userInfo) precision) width]
   ++ (if String.eqb (gender userInfo) "female"
       then [center ("Hip (cm): " +:+ double_to_string (hip userInfo) precision) width]
       else [])
   ++ [""; center "Body Measurements:" width;
       center ("Weight (kg): " +:+ double_to_string (weight userInfo) precision) width;
       center ("Waist (cm): " +:+ double_to_string (waist userInfo) precision) width;
       center ("Neck (cm): " +:+ double_to_string (neck userInfo) precision) width;
       ""; center "Lifestyle:" width;
       center ("Activity Level: " +:+ lifestyle userInfo) width;
       ""; center "Health Metrics:" width;
       center ("Body Fat Percentage: "
               +:+ double_to_string (double_of_int (fst (bfp userInfo))) precision
               +:+ "% (" +:+ snd (bfp userInfo) +:+ ")") width;
       center ("Daily Caloric Intake (calories): "
               +:+ double_to_string (double_of_int (daily_calories userInfo)) precision)
              width;
       ""; center "Macronutrient Breakdown (grams):" width;
       center ("Carbs: " +:+ double_to_string (carbs userInfo) precision +:+ "g") width;
       center ("Protein: " +:+ double_to_string (protein userInfo) precision +:+ "g") width;
       center ("Fat: " +:+ double_to_string (fat userInfo) precision +:+ "g") width;
       ""])%list.

(** [UserInfoManager::displayUser]. *)
Definition displayUser (userInfo : UserInfo) : M unit :=
  cout_lines (displayUser_lines userInfo).

(** The [for] loop of [display]: the first record named [username]. *)
Fixpoint display_loop (username : string) (ahead : list UserInfo) : option UserInfo :=
  match ahead with
  | [] => None
  | user :: ahead' =>
      if String.eqb (name user) username then Some user
      else display_loop username ahead'
  end.

(** [UserInfoManager::display]: its two messages go to [std::cout]. *)
Definition display (username : string) : M unit :=
  let* l := get_list in
  match l with
  | [] => cout_line "no user in list"
  | _ =>
      match display_loop username l with
      | Some user => displayUser user
      | None => cout_line "user not found"
      end
  end.

(** The [for] loop of [displayAll]. *)
Fixpoint displayAll_loop (l : list UserInfo) : M unit :=
  match l with
  | [] => ret tt
  | user :: l' => let* _ := displayUser user in displayAll_loop l'
  end.

(** [UserInfoManager::displayAll]. *)
Definition displayAll : M unit :=
  let width := 60 in
  let* _ := cout_lines [center "--- BEGIN ALL USER ---" width; ""] in
  let* l := get_list in
  let* _ := displayAll_loop l in
  cout_lines [center "--- END ALL USER ---" width; ""].

(** [HealthAssistant::display]: the name ["all"] stands for everybody. *)
Definition HealthAssistant_display (username : string) : M unit :=
  if String.eqb username "all" then displayAll else display username.

(** [HealthAssistant::deleteUser]. *)
Definition HealthAssistant_deleteUser (username : string) : M unit :=
  let* _ := cout_line ("Deleting User by the Name: " +:+ username) in
  deleteUser username.

(** [HealthAssistant::serialize] and [HealthAssistant::readFromFile]. *)
Definition HealthAssistant_serialize (filename : string) : M unit :=
  writeToFile filename.

Definition HealthAssistant_readFromFile (filename : string) : M unit :=
  readFromFile filename.

(** [toLower]: [std::tolower] on every character. *)
Fixpoint toLower (input : string) : string :=
  match input with
  | EmptyString => EmptyString
  | String c input' => String (to_lower c) (toLower input')
  end.

(** The first loop of [trim]: [start] moves over the leading white space;
    [ahead] holds the characters from [start] on. *)
Fixpoint trim_start (ahead : string) (start : nat) : nat :=
  match ahead with
  | String c ahead' => if isspace c then trim_start ahead' (S start) else start
  | EmptyString => start
  end.

(** The [do ... while] loop of [trim]: [end] steps back once, and again
    while it is after [start] and on white space.  [e] is [end] before the
    step, counted from [begin()]; the result is [end] after the loop, which
    is one before [begin()] for the empty string. *)
Fixpoint trim_end (str : string) (start : nat) (e : nat) : Z :=
  match e with
  | O => -1
  | S e' =>
      if (start <? e')%nat
         && match String.get e' str with Some c => isspace c | None => false end
      then trim_end str start e'
      else Z.of_nat e'
  end.

(** [trim]: the characters from [start] to [end], both included. *)
Definition trim (str : string) : string :=
  let start := trim_start str 0 in
  let end_ := trim_end str start (String.length str) in
  substring start (Z.to_nat (end_ + 1 - Z.of_nat start)) str.

End Display.

Section Lists.

Variable log10 : float -> float.
Variable indeterminate : float.

(** A [for] loop that pushes the names of the records [keep] accepts. *)
Fixpoint push_names (keep : UserInfo -> bool) (userStats : list UserInfo)
  (names : list string) : list string :=
  match userStats with
  | [] => names
  | user :: rest =>
      push_names keep rest (if keep user then names ++ [name user] else names)%list
  end.

(** [UserStats::GetHealthyUsers(method, gender)]. *)
Definition UserStats_GetHealthyUsers_of (method gender_ : string) : M (list string) :=
  let healthyUsers : list string := [] in
  let* healthyUsers :=
    if String.eqb method "bmi" then
      let* userStats :=
        UserStats_massLoadAndCompute log10 indeterminate
          "bmi_user_data.csv" BfpType_BmiMethod in
      ret (push_names
             (fun user => String.eqb (gender user) gender_
                          && String.eqb (snd (bfp user)) "Bmi: Normal")
             userStats healthyUsers)
    else if String.eqb method "USArmy" then
      let* userStats :=
        UserStats_massLoadAndCompute log10 indeterminate
          "us_user_data.csv" BfpType_USNavyMethod in
      ret (push_names
             (fun user => String.eqb (gender user) gender_
                          && String.eqb (snd (bfp user)) "USNavy: Normal")
             userStats healthyUsers)
    else ret healthyUsers in
  let* _ := cout_line ("Healthy Users (" +:+ gender_ +:+ ", " +:+ method +:+ " method):") in
  let* _ := cout_lines healthyUsers in
  ret healthyUsers.

(** [UserStats::GetUnfitUsers(method, gender)]. *)
Definition UserStats_GetUnfitUsers_of (method gender_ : string) : M (list string) :=
  let healthyUsers : list string := [] in
  let* healthyUsers :=
    if String.eqb method "bmi" then
      let* userStats :=
        UserStats_massLoadAndCompute log10 indeterminate
          "bmi_user_data.csv" BfpType_BmiMethod in
      ret (push_names
             (fun user => String.eqb (gender user) gender_
                          && negb (String.eqb (snd (bfp user)) "Bmi: Normal"))
             userStats healthyUsers)
    else if String.eqb method "USArmy" then
      let* userStats :=
        UserStats_massLoadAndCompute log10 indeterminate
          "us_user_data.csv" BfpType_USNavyMethod in
      ret (push_names
             (fun user => String.eqb (gender user) gender_
                          && negb (String.eqb (snd (bfp user)) "USNavy: Normal"))
             userStats healthyUsers)
    else ret healthyUsers in
  let* _ := cout_line ("Unfit Users (" +:+ gender_ +:+ ", " +:+ method +:+ " method):") in
  let* _ := cout_lines healthyUsers in
  ret healthyUsers.

(** [UserStats::GetUnfitUsers(method)]: both files, whatever [method] is. *)
Definition UserStats_GetUnfitUsers (method : string) : M (list string) :=
  let healthyUsers : list string := [] in
  let* userStats :=
    UserStats_massLoadAndCompute log10 indeterminate
      "bmi_user_data.csv" BfpType_BmiMethod in
  let healthyUsers :=
    push_names (fun user => negb (String.eqb (snd (bfp user)) "Bmi: Normal"))
      userStats healthyUsers in
  let* userStats :=
    UserStats_massLoadAndCompute log10 indeterminate
      "us_user_data.csv" BfpType_USNavyMethod in
  let healthyUsers :=
    push_names (fun user => negb (String.eqb (snd (bfp user)) "USNavy: Normal"))
      userStats healthyUsers in
  let* _ := cout_line "All Unfit Users " in
  let* _ := cout_lines healthyUsers in
  ret healthyUsers.

End Lists.


(* ===================================================================== *)
(** * The vocabulary of the statements *)
(* ===================================================================== *)

(** Unfolds the monad down to the state it threads. *)
Ltac run :=
  unfold bind, ret, throw, lift, get_list, put_list, cout_line, cerr_line
    in *; simpl in *.

(** Splits on every test of a conditional in the goal. *)
Ltac split_ifs :=
  repeat match goal with
         | |- context [if ?b then _ else _] => destruct b eqn:?
         end.

(** Replaces the value of a digit character by the number it computes to. *)
Ltac eval_digit :=
  repeat match goal with
         | |- context [digit_value ?c] =>
             let v := eval vm_compute in (digit_value c) in
             change (digit_value c) with v
         end.

(** ** The registry and the lookup by name *)

(** No record of [l] is named [username]. *)
Definition absent (username : string) (l : list UserInfo) : Prop :=
  Forall (fun user => name user <> username) l.

(** [st'] differs from [st] in the registry only. *)
Definition same_but_registry (st st' : State) : Prop :=
  files st' = files st /\ unopenable st' = unopenable st /\
  cout st' = cout st /\ cerr st' = cerr st.

(** The message [getUserInfo] prints when it finds nobody. *)
Definition not_found_message (l : list UserInfo) : string :=
  match l with
  | [] => "no user in list"
  | _ => "user not found"
  end.

(** The shape the four operations by name share. *)
Definition by_name (f : UserInfo -> M UserInfo) (username : string) : M unit :=
  let* user := getUserInfo username in
  let* r := load user in
  let* r := f r in
  store user r.

(** ** The loaders *)

Definition cannot_open (filename : string) : exn :=
  runtime_error
    ("Cannot open file as it may not exist or cannot be opened: " +:+ filename).

Definition file_is_empty (filename : string) : exn :=
  runtime_error ("File is empty: " +:+ filename).

(** The categories of the records a load returns. *)
Definition categories (r : result (list UserInfo)) : option (list string) :=
  match r with
  | Ok l => Some (map (fun user => snd (bfp user)) l)
  | _ => None
  end.

(** ** The derivations *)

(** The value of the BMI formula as the source computes it, and its band. *)
Definition bmi_index (w h : float) : float := (w * 100 * 100 / (h * h))%float.

Definition bmi_category (x : float) : string :=
  if (x <? 18.5)%float then "Bmi: Low"
  else if (x <? 25)%float then "Bmi: Normal"
  else if (x <? 30)%float then "Bmi: High"
  else "Bmi: Very High".

(** The two US Navy formulas. *)
Definition usnavy_female (log10 : float -> float) (user : UserInfo) : float :=
  (495.0 / (1.29579 - 0.35004 * log10 (waist user + hip user - neck user)
            + 0.22100 * log10 (height user)) - 450.0)%float.

Definition usnavy_male (log10 : float -> float) (user : UserInfo) : float :=
  (495.0 / (1.0324 - 0.19077 * log10 (waist user - neck user)
            + 0.15456 * log10 (height user)) - 450.0)%float.

Definition recognised_gender (g : string) : Prop := g = "male" \/ g = "female".

Definition in_age_range (a : Z) : Prop := 20 <= a <= 79.

(** The measurements of [user'] are those of [user]. *)
Definition same_measurements (user user' : UserInfo) : Prop :=
  name user' = name user /\ gender user' = gender user /\
  age user' = age user /\ weight user' = weight user /\
  waist user' = waist user /\ neck user' = neck user /\
  hip user' = hip user /\ height user' = height user /\
  lifestyle user' = lifestyle user.

Definition same_calories (user user' : UserInfo) : Prop :=
  daily_calories user' = daily_calories user.

Definition same_meal (user user' : UserInfo) : Prop :=
  carbs user' = carbs user /\ protein user' = protein user /\
  fat user' = fat user.

Definition same_bfp (user user' : UserInfo) : Prop := bfp user' = bfp user.

(** ** The table of daily calories as the specification prints it *)

(** The table of daily calories as the specification prints it. *)
Inductive Gender : Type := Male | Female.
Inductive AgeBand : Type := Age19to30 | Age31to50 | AgeOver50.
Inductive Lifestyle : Type := Sedentary | Moderate | Active.

Definition spec_calorie_table (g : Gender) (b : AgeBand) (l : Lifestyle) : Z :=
  match g, b, l with
  | Male, Age19to30, Sedentary => 2400
  | Male, Age19to30, Moderate => 2800
  | Male, Age19to30, Active => 3000
  | Male, Age31to50, Sedentary => 2200
  | Male, Age31to50, Moderate => 2600
  | Male, Age31to50, Active => 3000
  | Male, AgeOver50, Sedentary => 2000
  | Male, AgeOver50, Moderate => 2400
  | Male, AgeOver50, Active => 2800
  | Female, Age19to30, Sedentary => 2000
  | Female, Age19to30, Moderate => 2200
  | Female, Age19to30, Active => 2400
  | Female, Age31to50, Sedentary => 1800
  | Female, Age31to50, Moderate => 2000
  | Female, Age31to50, Active => 2200
  | Female, AgeOver50, Sedentary => 1600
  | Female, AgeOver50, Moderate => 1800
  | Female, AgeOver50, Active => 2200
  end.

Definition spec_gender (s : string) : option Gender :=
  if String.eqb s "male" then Some Male
  else if String.eqb s "female" then Some Female
  else None.

Definition spec_age_band (a : Z) : option AgeBand :=
  if (19 <=? a) && (a <=? 30) then Some Age19to30
  else if (31 <=? a) && (a <=? 50) then Some Age31to50
  else if 50 <? a then Some AgeOver50
  else None.

Definition spec_lifestyle (s : string) : option Lifestyle :=
  if String.eqb s "sedentary" then Some Sedentary
  else if String.eqb s "moderate" then Some Moderate
  else if String.eqb s "active" then Some Active
  else None.

(** The specification's [dailyCalories]: the calories, and whether a
    condition is reported. *)
Definition spec_dailyCalories (g : string) (a : Z) (l : string) : Z * bool :=
  match spec_gender g with
  | None => (0, true)
  | Some g' =>
      match spec_age_band a, spec_lifestyle l with
      | Some b, Some l' => (spec_calorie_table g' b l', false)
      | _, _ => (0, false)
      end
  end.

(** ** Text and the record codec *)

(** Whether the character [c] occurs in [s]. *)
Fixpoint contains (c : ascii) (s : string) : bool :=
  match s with
  | EmptyString => false
  | String a s' => Ascii.eqb a c || contains c s'
  end.

(** Whether every character of [s] passes [P]. *)
Fixpoint all_chars (P : ascii -> bool) (s : string) : bool :=
  match s with
  | EmptyString => true
  | String a s' => P a && all_chars P s'
  end.

(** The characters a formatted number is made of. *)
Definition numeric_char (c : ascii) : bool :=
  isdigit c || contains c "+-.einfa".

(** The real number [x] reads back from what [os << x] prints of it: six
    significant digits are enough to tell it. *)
Definition survives (x : float) : Prop := stod (show_double x) = Ok x.

(** The hip measurement reads back from its one decimal. *)
Definition hip_survives (x : float) : Prop := stod (double_to_string x 1) = Ok x.

(** What a decoded line holds of [user]: the persisted fields, the hip only
    for a female, and the derived fields at their defaults. *)
Definition persisted (user : UserInfo) : UserInfo :=
  {| age := age user; weight := weight user; waist := waist user;
     neck := neck user; height := height user;
     carbs := 0; protein := 0; fat := 0; bfp := (0, "");
     daily_calories := 0;
     hip := if String.eqb (gender user) "female" then hip user else 0%float;
     name := name user; gender := gender user; lifestyle := lifestyle user |}.

(** ** Records and states of the examples *)

Definition empty_state : State :=
  {| userInfoList := []; files := ∅; unopenable := ∅; cout := []; cerr := [] |}.

(** A record as the prompts or a decoded line would leave it. *)
Definition mk_user (n g : string) (a : Z) (w wa ne hp h : float) (ls : string)
  : UserInfo :=
  {| age := a; weight := w; waist := wa; neck := ne; height := h;
     carbs := 0; protein := 0; fat := 0; bfp := (0, "");
     daily_calories := 0; hip := hp; name := n; gender := g; lifestyle := ls |}.

Definition amy : UserInfo :=
  {| age := 25; weight := 60.5; waist := 70; neck := 32; height := 165;
     carbs := 0; protein := 0; fat := 0; bfp := (0, "");
     daily_calories := 0; hip := 95.5; name := "amy"; gender := "female";
     lifestyle := "active" |}.

(** A registry of two. *)
Definition two_users : State :=
  {| userInfoList := [mk_user "ann" "female" 30 60 91 36 97 165 "moderate";
                      mk_user "john" "male" 30 100 85 40 0 180 "sedentary"];
     files := ∅; unopenable := ∅; cout := []; cerr := [] |}.



(** A state with one file of length zero and no other file. *)
Definition one_empty_file : State :=
  {| userInfoList := []; files := {[ "us_user_data.csv" := "" ]};
     unopenable := ∅; cout := []; cerr := [] |}.

(** The two files of the statistics: one record each.  [amy] has a normal
    BMI; [al] has a normal BMI too, and at 85 no US Navy category at all. *)
Definition stats_files : State :=
  {| userInfoList := [];
     files := {[ "bmi_user_data.csv" := "amy,female,25,60.5,70,32,95.5,165,active" +:+ endl;
                 "us_user_data.csv" := "al,male,85,70,90,40,,175,active" +:+ endl ]};
     unopenable := ∅; cout := []; cerr := [] |}.

(** The same with [bob], 30, in the US Navy file: his BMI is very high, his
    US Navy category is normal. *)
Definition stats_files_bob : State :=
  {| userInfoList := [];
     files := {[ "bmi_user_data.csv" := "amy,female,25,60.5,70,32,95.5,165,active" +:+ endl;
                 "us_user_data.csv" := "bob,male,30,100,85,40,,180,sedentary" +:+ endl ]};
     unopenable := ∅; cout := []; cerr := [] |}.

(** Three records that do not come back from their line: a name with a
    comma in it, a weight with more than six significant digits, and a hip
    measurement with two decimals. *)
Definition user_with_comma : UserInfo :=
  mk_user "a,b" "male" 30 70 90 40 0 175 "active".

Definition user_with_long_weight : UserInfo :=
  mk_user "bob" "male" 30 70.1234567 90 40 0 175 "active".

Definition user_with_fine_hip : UserInfo :=
  mk_user "eve" "female" 30 60 91 36 97.25 165 "moderate".

(** ** Further vocabulary: what a derivation may touch, parts of the state *)

(** [st'] differs from [st] on the console only. *)
Definition same_but_console (st st' : State) : Prop :=
  userInfoList st' = userInfoList st /\ files st' = files st /\
  unopenable st' = unopenable st.

(** [st'] is [st] with [out] written after what [std::cout] already holds. *)
Definition wrote_cout (st st' : State) (out : list string) : Prop :=
  userInfoList st' = userInfoList st /\ files st' = files st /\
  unopenable st' = unopenable st /\ cerr st' = cerr st /\
  cout st' = (cout st ++ out)%list.

(** The records of [l] named [username]. *)
Definition named (username : string) (l : list UserInfo) : list UserInfo :=
  List.filter (fun user => String.eqb (name user) username) l.

(** The four labels of a BFP method. *)
Definition usnavy_labels : list string :=
  ["USNavy: Low"; "USNavy: Normal"; "USNavy: High"; "USNavy: Very High"].

(** A record whose line reads back: no comma in the name and the gender, no
    line end in name, gender and lifestyle, an age that is an [int], and
    real fields that survive their text. *)
Definition line_safe (user : UserInfo) : Prop :=
  contains comma (name user) = false /\ contains comma (gender user) = false /\
  contains newline (name user) = false /\ contains newline (gender user) = false /\
  contains newline (lifestyle user) = false /\
  in_int (age user) = true /\
  survives (weight user) /\ survives (waist user) /\
  survives (neck user) /\ survives (height user) /\
  (gender user = "female" -> hip_survives (hip user)).

(** A string of white space. *)
Definition all_space (s : string) : Prop := all_chars isspace s = true.

Definition first_char (s : string) : option ascii := String.get 0 s.

Definition last_char (s : string) : option ascii :=
  String.get (Nat.pred (String.length s)) s.

(** A registry with two records named jack. *)
Definition two_jacks : State :=
  set_userInfoList empty_state
    [mk_user "ann" "female" 30 60 70 32 95 165 "active";
     mk_user "jack" "male" 40 80 90 40 0 180 "moderate";
     mk_user "jack" "male" 50 90 95 41 0 175 "sedentary"].

(** A derivation returns the record under the same name and touches the
    console only. *)
Definition derivation (f : UserInfo -> M UserInfo) : Prop :=
  forall r st, exists st' r',
    f r st = (st', Ok r') /\ name r' = name r /\ same_measurements r r' /\
    same_but_console st st'.


(** [st] after a load: [users] pushed at the end of the list and [lines]
    echoed on [std::cout]. *)
Definition loaded (st : State) (users : list UserInfo) (lines : list string) : State :=
  {| userInfoList := (userInfoList st ++ users)%list; files := files st;
     unopenable := unopenable st; cout := (cout st ++ lines)%list;
     cerr := cerr st |}.

(** Each line decodes to the record beside it. *)
Definition decoded (lines : list string) (users : list UserInfo) : Prop :=
  Forall2 (fun line user => decode_line line = Ok user) lines users.

(** The text [writeToFile] appends for the records [l]. *)
Definition written (l : list UserInfo) : string :=
  String.concat "" (map (fun user => encode_line user +:+ endl) l).

(** A file whose second line has a word where the age should be. *)
Definition partly_bad_file : State :=
  {| userInfoList := [mk_user "ann" "female" 30 60 70 32 95 165 "active"];
     files := {[ "users.csv" :=
                   "amy,female,25,60.5,70,32,95.5,165,active" +:+ endl +:+
                   "bob,male,thirty,100,85,40,,180,sedentary" +:+ endl +:+
                   "eve,female,30,60,91,36,97,165,moderate" +:+ endl ]};
     unopenable := ∅; cout := []; cerr := [] |}.

(** [user] holds the fields of [line], whatever its derived fields are. *)
Definition computed_from (line : string) (user : UserInfo) : Prop :=
  exists r, decode_line line = Ok r /\ same_measurements r user.

(** A percentage. *)
Definition percent (p : Z) : Prop := 0 <= p <= 100.

(** The records of [users] of the gender [g]. *)
Definition of_gender (g : string) (users : list UserInfo) : list UserInfo :=
  List.filter (fun user => String.eqb (gender user) g) users.

(** [healthy] names the records of [users] of gender [g] in the category
    [label], [unfit] those of gender [g] in another category or in none:
    together they name each record of that gender once. *)
Definition split_by_label (label g : string) (users : list UserInfo)
  (healthy unfit : list string) : Prop :=
  healthy = map name (List.filter
                        (fun user => String.eqb (gender user) g
                                     && String.eqb (snd (bfp user)) label) users) /\
  unfit = map name (List.filter
                      (fun user => String.eqb (gender user) g
                                   && negb (String.eqb (snd (bfp user)) label)) users) /\
  Permutation (healthy ++ unfit)%list (map name (of_gender g users)).

(** What [m] returns does not depend on the state it runs in. *)
Definition state_blind {A : Type} (m : M A) : Prop :=
  forall st st', snd (m st) = snd (m st').

(** [std::isupper] in the "C" locale. *)
Definition isupper (c : ascii) : bool :=
  let n := nat_of_ascii c in (65 <=? n)%nat && (n <=? 90)%nat.

(** No capital letter in [s]. *)
Definition no_capital (s : string) : Prop :=
  all_chars (fun c => negb (isupper c)) s = true.

(** The four labels of the BMI method. *)
Definition bmi_labels : list string :=
  ["Bmi: Low"; "Bmi: Normal"; "Bmi: High"; "Bmi: Very High"].

(** The call returned or threw: the process was not killed. *)
Definition no_crash {A : Type} (r : result A) : Prop :=
  r <> NullDeref /\ r <> DivideByZero.
(* ===================================================================== *)
(** * Lemmas *)
(* ===================================================================== *)

(** ** The registry *)

Section Registry.

Implicit Types (st : State) (l : list UserInfo) (user : UserInfo).

Lemma set_userInfoList_same st : set_userInfoList st (userInfoList st) = st.
Proof. now destruct st. Qed.

Lemma deleteUser_loop_absent username l it :
  absent username l -> deleteUser_loop username l it = (it + length l)%nat.
Proof.
  intros H. revert it. induction H as [|user l Hne _ IH]; intros it; simpl.
  - lia.
  - apply String.eqb_neq in Hne. rewrite Hne, IH. lia.
Qed.

Lemma deleteUser_loop_first username l1 user l2 it :
  absent username l1 -> name user = username ->
  deleteUser_loop username (l1 ++ user :: l2) it = (it + length l1)%nat.
Proof.
  intros H Hn. revert it. induction H as [|u l Hne _ IH]; intros it; simpl.
  - apply String.eqb_eq in Hn. rewrite Hn. lia.
  - apply String.eqb_neq in Hne. rewrite Hne, IH. lia.
Qed.

Lemma getUserInfo_loop_absent username l i :
  absent username l -> getUserInfo_loop username l i = None.
Proof.
  intros H. revert i. induction H as [|user l Hne _ IH]; intros i; simpl.
  - reflexivity.
  - apply String.eqb_neq in Hne. now rewrite Hne, IH.
Qed.

Lemma getUserInfo_loop_None username l i :
  getUserInfo_loop username l i = None -> absent username l.
Proof.
  revert i. induction l as [|user l IH]; intros i; simpl.
  - constructor.
  - destruct (String.eqb (name user) username) eqn:E; [discriminate|].
    intros H. constructor; [now apply String.eqb_neq | exact (IH _ H)].
Qed.

(** A pointer that [getUserInfo] returns is the position of the first record
    with that name. *)
Lemma getUserInfo_loop_Some username l i j :
  getUserInfo_loop username l i = Some j ->
  exists l1 user l2,
    l = (l1 ++ user :: l2)%list /\ absent username l1 /\
    name user = username /\ j = (i + length l1)%nat.
Proof.
  revert i. induction l as [|u l IH]; intros i; simpl; [discriminate|].
  destruct (String.eqb (name u) username) eqn:E.
  - intros [= <-]. exists [], u, l. split; [reflexivity|]. split; [|split].
    + constructor.
    + now apply String.eqb_eq.
    + simpl. lia.
  - intros H. destruct (IH _ H) as (l1 & user & l2 & -> & Ha & Hn & ->).
    exists (u :: l1), user, l2. split; [reflexivity|]. split; [|split].
    + constructor; [now apply String.eqb_neq | assumption].
    + assumption.
    + simpl. lia.
Qed.

Lemma delete_middle (l1 : list UserInfo) user l2 :
  delete (length l1) (l1 ++ user :: l2)%list = (l1 ++ l2)%list.
Proof. induction l1 as [|u l1 IH]; simpl; [reflexivity | now rewrite IH]. Qed.

Lemma addUserInfo_appends st user :
  addUserInfo user st = (set_userInfoList st (userInfoList st ++ [user]), Ok tt).
Proof. reflexivity. Qed.

Lemma deleteUser_absent st username :
  absent username (userInfoList st) -> deleteUser username st = (st, Ok tt).
Proof.
  intros H. unfold deleteUser. run.
  rewrite (deleteUser_loop_absent _ _ 0 H). simpl.
  now rewrite Nat.ltb_irrefl.
Qed.

Lemma deleteUser_first st username l1 user l2 :
  userInfoList st = (l1 ++ user :: l2)%list ->
  absent username l1 -> name user = username ->
  deleteUser username st = (set_userInfoList st (l1 ++ l2), Ok tt).
Proof.
  intros Hl Ha Hn. unfold deleteUser. run. rewrite Hl.
  rewrite (deleteUser_loop_first _ _ _ _ 0 Ha Hn). simpl.
  assert ((length l1 <? length (l1 ++ user :: l2))%nat = true) as ->.
  { apply Nat.ltb_lt. rewrite length_app. simpl. lia. }
  now rewrite delete_middle.
Qed.

(** Nobody has the name, or somebody is the first to have it. *)
Lemma absent_or_first username l :
  absent username l \/
  exists l1 user l2,
    l = (l1 ++ user :: l2)%list /\ absent username l1 /\ name user = username.
Proof.
  destruct (getUserInfo_loop username l 0) as [i|] eqn:E.
  - right. destruct (getUserInfo_loop_Some _ _ _ _ E) as (l1 & u & l2 & H1 & H2 & H3 & _).
    now exists l1, u, l2.
  - left. now apply getUserInfo_loop_None in E.
Qed.

(** There is one way to cut a list at the first record of a name. *)
Lemma first_match_unique username (l1 k1 : list UserInfo) u v l2 k2 :
  (l1 ++ u :: l2 = k1 ++ v :: k2)%list ->
  absent username l1 -> name u = username ->
  absent username k1 -> name v = username ->
  l1 = k1 /\ l2 = k2.
Proof.
  revert k1. induction l1 as [|a l1 IH]; intros k1 E Hl Hu Hk Hv.
  - destruct k1 as [|b k1].
    + injection E as _ E. now split.
    + injection E as E _. inversion Hk as [|? ? Hb _]. subst b. contradiction.
  - destruct k1 as [|b k1].
    + injection E as E _. inversion Hl as [|? ? Ha _]. subst a. contradiction.
    + injection E as -> E. inversion Hl as [|? ? _ Hl']. inversion Hk as [|? ? _ Hk'].
      destruct (IH k1 E Hl' Hu Hk' Hv) as [-> ->]. now split.
Qed.

(** With somebody of the name in the list, nobody is absent. *)
Lemma not_absent username (l1 : list UserInfo) user l2 :
  name user = username -> ~ absent username (l1 ++ user :: l2).
Proof.
  intros Hn Ha. unfold absent in Ha. apply Forall_app in Ha as [_ Ha].
  inversion Ha as [|? ? Hx _]. now apply Hx.
Qed.

End Registry.

(** ** What each derivation returns *)

Section Derivations.

Variable log10 : float -> float.
Variable indeterminate : float.

Implicit Types (st : State) (user : UserInfo).

Lemma BmiMethod_getBfp_eq user st :
  BmiMethod_getBfp user st =
  (st, Ok (set_bfp user
             (static_cast_int (bmi_index (weight user) (height user)),
              bmi_category (bmi_index (weight user) (height user))))).
Proof. reflexivity. Qed.

Lemma UserStats_bmiMethod_eq user st :
  UserStats_bmiMethod user st = BmiMethod_getBfp user st.
Proof. reflexivity. Qed.

(** [USNavyMethod::getBfp] stores a pair in [bfp] and may print one line. *)
Lemma USNavyMethod_getBfp_shape user st :
  exists st' v,
    USNavyMethod_getBfp log10 indeterminate user st = (st', Ok (set_bfp user v)) /\
    (st' = st \/ st' = add_cout st age_range_message).
Proof.
  unfold USNavyMethod_getBfp. run. split_ifs; run; eauto.
Qed.

(** The two copies of the US Navy method are the same function. *)
Lemma UserStats_usNavyMethod_eq user st :
  UserStats_usNavyMethod log10 indeterminate user st =
  USNavyMethod_getBfp log10 indeterminate user st.
Proof. reflexivity. Qed.

Lemma age_tests_out_of_range a :
  ~ in_age_range a ->
  (20 <=? a) && (a <=? 39) = false /\
  (40 <=? a) && (a <=? 59) = false /\
  (60 <=? a) && (a <=? 79) = false.
Proof. unfold in_age_range. intros H. repeat split; lia. Qed.

(** Outside the age range and with a gender the method knows, the message is
    printed, the category stays empty and the truncated value is stored. *)
Lemma USNavyMethod_getBfp_age_out user st :
  recognised_gender (gender user) -> ~ in_age_range (age user) ->
  USNavyMethod_getBfp log10 indeterminate user st =
  (add_cout st age_range_message,
   Ok (set_bfp user
         (static_cast_int
            (if String.eqb (gender user) "female"
             then usnavy_female log10 user else usnavy_male log10 user), ""))).
Proof.
  intros Hg Ha. destruct (age_tests_out_of_range _ Ha) as (A1 & A2 & A3).
  unfold USNavyMethod_getBfp. run.
  destruct Hg as [Hg | Hg]; rewrite Hg; simpl; rewrite A1, A2, A3; reflexivity.
Qed.

(** With any other gender nothing is printed: the category stays empty and
    the value stored is the conversion of the uninitialised local. *)
Lemma USNavyMethod_getBfp_gender_out user st :
  ~ recognised_gender (gender user) ->
  USNavyMethod_getBfp log10 indeterminate user st =
  (st, Ok (set_bfp user (static_cast_int indeterminate, ""))).
Proof.
  intros Hg. unfold USNavyMethod_getBfp. run.
  destruct (String.eqb (gender user) "female") eqn:F.
  { apply String.eqb_eq in F. exfalso. apply Hg. now right. }
  destruct (String.eqb (gender user) "male") eqn:Ma.
  { apply String.eqb_eq in Ma. exfalso. apply Hg. now left. }
  reflexivity.
Qed.

(** [getDailyCalories] stores [daily_calories] and may print one line. *)
Lemma HealthAssistant_getDailyCalories_shape user st :
  exists st' v,
    HealthAssistant_getDailyCalories user st = (st', Ok (set_daily_calories user v)) /\
    (st' = st \/ st' = add_cerr st calories_message).
Proof.
  unfold HealthAssistant_getDailyCalories. run. split_ifs; run; eauto.
Qed.

Lemma UserStats_getDailyCalories_eq user st :
  UserStats_getDailyCalories user st = HealthAssistant_getDailyCalories user st.
Proof. reflexivity. Qed.

Lemma HealthAssistant_getMealPrep_eq user st :
  HealthAssistant_getMealPrep user st =
  (st, Ok (set_fat (set_protein (set_carbs user
      (double_of_int (daily_calories user) * 0.50 / 4.0)%float)
      (double_of_int (daily_calories user) * 0.30 / 4.0)%float)
      (double_of_int (daily_calories user) * 0.20 / 9.0)%float)).
Proof. reflexivity. Qed.

Lemma UserStats_getMealPrep_eq user st :
  UserStats_getMealPrep user st = HealthAssistant_getMealPrep user st.
Proof. reflexivity. Qed.

(** The source against the table: the same calories, the same message. *)
Lemma getDailyCalories_table user st :
  HealthAssistant_getDailyCalories user st
  = (if snd (spec_dailyCalories (gender user) (age user) (lifestyle user))
     then add_cerr st calories_message else st,
     Ok (set_daily_calories user
           (fst (spec_dailyCalories (gender user) (age user) (lifestyle user))))).
Proof.
  unfold HealthAssistant_getDailyCalories, spec_dailyCalories, spec_gender,
    spec_age_band, spec_lifestyle.
  run.
  destruct (String.eqb (gender user) "male");
    [|destruct (String.eqb (gender user) "female"); [|reflexivity]];
    (destruct ((19 <=? age user) && (age user <=? 30));
     [|destruct ((31 <=? age user) && (age user <=? 50));
       [|destruct (50 <? age user); [|reflexivity]]]);
    (destruct (String.eqb (lifestyle user) "sedentary"); [reflexivity|];
     destruct (String.eqb (lifestyle user) "moderate"); [reflexivity|];
     destruct (String.eqb (lifestyle user) "active"); reflexivity).
Qed.

Lemma spec_gender_recognised g :
  recognised_gender g -> spec_gender g <> None.
Proof. intros [-> | ->]; discriminate. Qed.

Lemma spec_gender_unrecognised g :
  ~ recognised_gender g -> spec_gender g = None.
Proof.
  intros H. unfold spec_gender.
  destruct (String.eqb g "male") eqn:Ma.
  { apply String.eqb_eq in Ma. exfalso. apply H. now left. }
  destruct (String.eqb g "female") eqn:F.
  { apply String.eqb_eq in F. exfalso. apply H. now right. }
  reflexivity.
Qed.

(** With a gender it knows the US Navy method never reads its uninitialised
    local: the value stored is the truncated formula of the gender, whatever
    the local holds, in both copies. *)
Lemma USNavyMethod_getBfp_recognised user st :
  recognised_gender (gender user) ->
  exists st' category,
    (st' = st \/ st' = add_cout st age_range_message) /\
    forall j,
      USNavyMethod_getBfp log10 j user st
      = (st', Ok (set_bfp user
                    (static_cast_int
                       (if String.eqb (gender user) "female"
                        then usnavy_female log10 user else usnavy_male log10 user),
                     category))) /\
      UserStats_usNavyMethod log10 j user st
      = USNavyMethod_getBfp log10 j user st.
Proof.
  intros Hg. unfold UserStats_usNavyMethod, USNavyMethod_getBfp. run.
  unfold usnavy_female, usnavy_male.
  destruct Hg as [Hg | Hg]; rewrite Hg; simpl; split_ifs; run;
    first [ eexists _, _; split; [left; reflexivity|];
            intros j; split; reflexivity
          | eexists _, _; split; [right; reflexivity|];
            intros j; split; reflexivity ].
Qed.

End Derivations.

(** ** Lookup by name *)

Section ByName.

Implicit Types (st : State) (user : UserInfo) (f : UserInfo -> M UserInfo).

Lemma getUserInfo_absent st username :
  absent username (userInfoList st) ->
  getUserInfo username st =
  (add_cerr st (not_found_message (userInfoList st)), Ok None).
Proof.
  intros H. unfold getUserInfo. run.
  destruct (userInfoList st) as [|u l] eqn:E; [reflexivity|].
  now rewrite (getUserInfo_loop_absent _ _ 0 H).
Qed.

Lemma getUserInfo_found st username i :
  getUserInfo_loop username (userInfoList st) 0 = Some i ->
  getUserInfo username st = (st, Ok (Some i)).
Proof.
  intros H. unfold getUserInfo. run.
  destruct (userInfoList st) as [|u l] eqn:E; [discriminate|].
  now rewrite H.
Qed.

(** Nobody by that name: the null pointer is read through. *)
Lemma by_name_absent f st username :
  absent username (userInfoList st) ->
  by_name f username st =
  (add_cerr st (not_found_message (userInfoList st)), NullDeref).
Proof.
  intros H. unfold by_name, bind. now rewrite (getUserInfo_absent _ _ H).
Qed.

(** Somebody by that name: the record is replaced by what [f] makes of it. *)
Lemma by_name_found f st username i r st' r' :
  getUserInfo_loop username (userInfoList st) 0 = Some i ->
  userInfoList st !! i = Some r ->
  f r st = (st', Ok r') ->
  by_name f username st =
  (set_userInfoList st' (<[i := r']> (userInfoList st')), Ok tt).
Proof.
  intros Hi Hr Hf. unfold by_name, bind.
  rewrite (getUserInfo_found _ _ _ Hi). unfold load. rewrite Hr, Hf.
  reflexivity.
Qed.

End ByName.

(** ** The loaders *)

Section Loaders.

Implicit Types (st : State) (filename : string).

Lemma open_checked_missing st filename :
  open_read filename st = None ->
  open_checked filename st = (st, Throw (cannot_open filename)).
Proof. intros H. unfold open_checked. now rewrite H. Qed.

Lemma open_checked_empty st filename :
  open_read filename st = Some "" ->
  open_checked filename st = (st, Throw (file_is_empty filename)).
Proof. intros H. unfold open_checked. now rewrite H. Qed.

Lemma open_checked_content st filename content :
  open_read filename st = Some content -> content <> "" ->
  open_checked filename st = (st, Ok content).
Proof.
  intros H Hne. unfold open_checked. rewrite H.
  destruct content; [contradiction | reflexivity].
Qed.

(** The two messages differ at their first letter. *)
Lemma cannot_open_neq_file_is_empty f1 f2 : cannot_open f1 <> file_is_empty f2.
Proof. unfold cannot_open, file_is_empty. simpl. intros [=]. Qed.

End Loaders.

(** ** Text: tokens, digits and what the formatters print *)

Section Text.

Lemma split_at_token c tok rest :
  contains c tok = false ->
  split_at c (tok +:+ String c rest) = Some (tok, rest).
Proof.
  induction tok as [|a tok IH]; simpl; intros H.
  - now rewrite Ascii.eqb_refl.
  - apply orb_false_iff in H as [Ha Ht]. now rewrite Ha, IH.
Qed.

Lemma split_at_none c s : contains c s = false -> split_at c s = None.
Proof.
  induction s as [|a s IH]; simpl; intros H; [reflexivity|].
  apply orb_false_iff in H as [Ha Hs]. now rewrite Ha, IH.
Qed.

(** A [getline] up to a comma takes a token that holds no comma. *)
Lemma getline_token tok rest old :
  contains comma tok = false ->
  getline {| unread := tok +:+ String comma rest; eofbit := false; failbit := false |}
          old comma
  = (tok, {| unread := rest; eofbit := false; failbit := false |}).
Proof.
  intros H. unfold getline. simpl. now rewrite (split_at_token _ _ _ H).
Qed.

(** The last [getline] takes all that is left when it holds no line end. *)
Lemma getline_rest s old :
  contains newline s = false ->
  fst (getline {| unread := s; eofbit := false; failbit := false |} old newline) = s.
Proof.
  intros H. unfold getline. simpl. now rewrite (split_at_none _ _ H).
Qed.

Lemma all_chars_app P a b :
  all_chars P (a +:+ b) = all_chars P a && all_chars P b.
Proof.
  induction a as [|c a IH]; simpl; [reflexivity|].
  now rewrite IH, andb_assoc.
Qed.

Lemma all_chars_weaken (P Q : ascii -> bool) s :
  (forall c, P c = true -> Q c = true) ->
  all_chars P s = true -> all_chars Q s = true.
Proof.
  intros HPQ. induction s as [|c s IH]; simpl; [easy|].
  intros H. apply andb_true_iff in H as [Hc Hs].
  now rewrite (HPQ _ Hc), IH.
Qed.

Lemma all_chars_substring P n m s :
  all_chars P s = true -> all_chars P (substring n m s) = true.
Proof.
  revert n m. induction s as [|c s IH]; intros n m H.
  - destruct n, m; reflexivity.
  - simpl in H. apply andb_true_iff in H as [Hc Hs].
    destruct n as [|n]; simpl.
    + destruct m as [|m]; simpl; [reflexivity|]. now rewrite Hc, IH.
    + now apply IH.
Qed.

Lemma all_chars_strip_zeros P s :
  all_chars P s = true -> all_chars P (strip_zeros s) = true.
Proof.
  induction s as [|c s IH]; simpl; [easy|].
  intros H. apply andb_true_iff in H as [Hc Hs]. specialize (IH Hs).
  destruct (strip_zeros s) as [|b t].
  - destruct (Ascii.eqb c "0"); simpl; [reflexivity | now rewrite Hc].
  - simpl in *. now rewrite Hc, IH.
Qed.

Lemma all_chars_zeros k : all_chars isdigit (zeros k) = true.
Proof. induction k as [|k IH]; simpl; [reflexivity | exact IH]. Qed.

Lemma isdigit_digit_char d : 0 <= d < 10 -> isdigit (digit_char d) = true.
Proof.
  intros H.
  assert (d = 0 \/ d = 1 \/ d = 2 \/ d = 3 \/ d = 4 \/ d = 5 \/ d = 6 \/
          d = 7 \/ d = 8 \/ d = 9) as Hd by lia.
  repeat (destruct Hd as [-> | Hd]; [reflexivity|]). now subst d.
Qed.

Lemma all_chars_digits_fixed k n : all_chars isdigit (digits_fixed k n) = true.
Proof.
  revert n. induction k as [|k IH]; intros n; simpl; [reflexivity|].
  rewrite all_chars_app, IH. cbn [all_chars andb].
  rewrite isdigit_digit_char; [reflexivity|]. apply Z.mod_pos_bound. lia.
Qed.

Lemma all_chars_string_of_uint d :
  all_chars isdigit (NilEmpty.string_of_uint d) = true.
Proof. induction d; simpl; auto. Qed.

Lemma all_chars_show_unsigned n : all_chars isdigit (show_unsigned n) = true.
Proof. apply all_chars_string_of_uint. Qed.

Lemma isdigit_numeric c : isdigit c = true -> numeric_char c = true.
Proof. unfold numeric_char. now intros ->. Qed.

Lemma numeric_digits s : all_chars isdigit s = true -> all_chars numeric_char s = true.
Proof. apply all_chars_weaken, isdigit_numeric. Qed.

Lemma numeric_with_point a b :
  all_chars numeric_char a = true -> all_chars numeric_char b = true ->
  all_chars numeric_char (with_point a b) = true.
Proof.
  intros Ha Hb. unfold with_point. destruct b as [|c b]; [exact Ha|].
  rewrite all_chars_app, Ha. simpl in *. exact Hb.
Qed.

Lemma numeric_sign s : all_chars numeric_char (sign_string s) = true.
Proof. now destruct s. Qed.

Lemma numeric_style_e ds X :
  all_chars isdigit ds = true -> all_chars numeric_char (style_e ds X) = true.
Proof.
  intros H. unfold style_e. destruct ds as [|c rest]; [reflexivity|].
  simpl in H. apply andb_true_iff in H as [Hc Hr].
  rewrite !all_chars_app.
  rewrite numeric_with_point.
  - destruct (X <? 0), (Z.abs X <? 10); simpl;
      now rewrite numeric_digits by apply all_chars_show_unsigned.
  - simpl. now rewrite isdigit_numeric.
  - now apply numeric_digits, all_chars_strip_zeros.
Qed.

Lemma numeric_style_f ds X :
  all_chars isdigit ds = true -> all_chars numeric_char (style_f ds X) = true.
Proof.
  intros H. unfold style_f. destruct (X <? 0).
  - rewrite !all_chars_app.
    rewrite (numeric_digits _ (all_chars_zeros _)).
    rewrite (numeric_digits (strip_zeros ds)) by now apply all_chars_strip_zeros.
    reflexivity.
  - apply numeric_with_point; apply numeric_digits.
    + now apply all_chars_substring.
    + now apply all_chars_strip_zeros, all_chars_substring.
Qed.

(** Every character [os << x] writes for a [double] is a digit, a sign, a
    point or a letter of [e], [inf], [nan]. *)
Lemma numeric_format_general P x :
  all_chars numeric_char (format_general P x) = true.
Proof.
  unfold format_general. destruct (classify x) as [|s|s|s n d].
  - reflexivity.
  - now destruct s.
  - now destruct s.
  - destruct (10 ^ Z.of_nat P <=? _);
      rewrite all_chars_app, numeric_sign; simpl;
      match goal with
      | |- context [if ?b then _ else _] => destruct b
      end;
      first [apply numeric_style_e | apply numeric_style_f];
      apply all_chars_digits_fixed.
Qed.

Lemma numeric_format_fixed p x :
  all_chars numeric_char (format_fixed p x) = true.
Proof.
  unfold format_fixed. destruct (classify x) as [|s|s|s n d].
  - reflexivity.
  - now destruct s.
  - rewrite all_chars_app, numeric_sign. simpl.
    apply numeric_with_point; [reflexivity|].
    apply numeric_digits, all_chars_zeros.
  - rewrite all_chars_app, numeric_sign. simpl.
    apply numeric_with_point; apply numeric_digits.
    + apply all_chars_show_unsigned.
    + apply all_chars_digits_fixed.
Qed.

Lemma numeric_show_int z : all_chars numeric_char (show_int z) = true.
Proof.
  unfold show_int. destruct (z <? 0); simpl;
    apply numeric_digits, all_chars_show_unsigned.
Qed.

(** A formatted number holds no comma. *)
Lemma numeric_no_comma s :
  all_chars numeric_char s = true -> contains comma s = false.
Proof.
  induction s as [|c s IH]; simpl; [reflexivity|].
  intros H. apply andb_true_iff in H as [Hc Hs]. rewrite (IH Hs).
  rewrite orb_false_r.
  destruct (Ascii.eqb c comma) eqn:E; [|reflexivity].
  apply Ascii.eqb_eq in E. subst c. discriminate Hc.
Qed.

Lemma float_neq (x y : float) : Prim2SF x <> Prim2SF y -> x <> y.
Proof. intros H E. apply H. now rewrite E. Qed.

End Text.

(** ** [stoi] reads back what [os << n] wrote *)

Section IntText.

Lemma digits_value_of_uint_acc d acc :
  digits_value (Z.pos acc) (NilEmpty.string_of_uint d) = Z.pos (Pos.of_uint_acc d acc).
Proof.
  revert acc. induction d; intros acc; simpl; [reflexivity|..];
    rewrite <- IHd; f_equal; eval_digit; lia.
Qed.

Lemma digits_value_of_uint d :
  digits_value 0 (NilEmpty.string_of_uint d) = Z.of_N (Pos.of_uint d).
Proof.
  induction d; simpl; [reflexivity | exact IHd |..];
    eval_digit; apply digits_value_of_uint_acc.
Qed.

Lemma digits_value_show_unsigned n :
  0 <= n -> digits_value 0 (show_unsigned n) = n.
Proof.
  intros H. unfold show_unsigned. rewrite digits_value_of_uint.
  change (Pos.of_uint (N.to_uint (Z.to_N n))) with (N.of_uint (N.to_uint (Z.to_N n))).
  rewrite DecimalN.Unsigned.of_to. lia.
Qed.

Lemma span_digits_all s :
  all_chars isdigit s = true -> span_digits s = (s, "").
Proof.
  induction s as [|c s IH]; simpl; [reflexivity|].
  intros H. apply andb_true_iff in H as [Hc Hs]. now rewrite Hc, IH.
Qed.

(** A string of digits has no white space or sign to skip. *)
Lemma skip_space_digits s : all_chars isdigit s = true -> skip_space s = s.
Proof.
  destruct s as [|c s]; simpl; [reflexivity|].
  intros H. apply andb_true_iff in H as [Hc _].
  destruct (isspace c) eqn:E; [|reflexivity].
  exfalso. unfold isdigit, isspace in *.
  apply andb_true_iff in Hc as [H1 H2].
  apply Nat.leb_le in H1. apply orb_true_iff in E as [E | E].
  - apply Nat.eqb_eq in E. lia.
  - apply andb_true_iff in E as [_ E]. apply Nat.leb_le in E. lia.
Qed.

Lemma take_sign_digits s : all_chars isdigit s = true -> take_sign s = (false, s).
Proof.
  destruct s as [|c s]; simpl; [reflexivity|].
  intros H. apply andb_true_iff in H as [Hc _].
  destruct (Ascii.eqb c "-") eqn:E1.
  { apply Ascii.eqb_eq in E1. subst c. discriminate Hc. }
  destruct (Ascii.eqb c "+") eqn:E2.
  { apply Ascii.eqb_eq in E2. subst c. discriminate Hc. }
  apply Ascii.eqb_neq in E1, E2.
  destruct c as [[] [] [] [] [] [] [] []]; try reflexivity; congruence.
Qed.

Lemma show_unsigned_nonempty n : show_unsigned n <> "".
Proof.
  unfold show_unsigned. destruct (Z.to_N n) as [|p]; [discriminate|].
  change (N.to_uint (N.pos p)) with (Pos.to_uint p).
  pose proof (DecimalPos.Unsigned.to_uint_nonnil p) as H.
  destruct (Pos.to_uint p); simpl; congruence.
Qed.

Lemma stoi_digits s :
  all_chars isdigit s = true -> s <> "" ->
  stoi s = if in_int (digits_value 0 s) then Ok (digits_value 0 s)
           else Throw (out_of_range "stoi").
Proof.
  intros H Hne. unfold stoi.
  rewrite (skip_space_digits _ H), (take_sign_digits _ H), (span_digits_all _ H).
  destruct s; [contradiction | reflexivity].
Qed.

(** [stoi] reads back every [int] that [os << n] wrote. *)
Lemma stoi_show_int z : in_int z = true -> stoi (show_int z) = Ok z.
Proof.
  intros Hz. unfold show_int. destruct (z <? 0) eqn:E.
  - apply Z.ltb_lt in E. unfold stoi.
    change (skip_space (String "-" (show_unsigned (- z))))
      with (String "-" (show_unsigned (- z))).
    change (take_sign (String "-" (show_unsigned (- z))))
      with (true, show_unsigned (- z)).
    cbv iota beta.
    rewrite (span_digits_all _ (all_chars_show_unsigned _)).
    pose proof (show_unsigned_nonempty (- z)) as Hne.
    destruct (show_unsigned (- z)) eqn:Es; [contradiction|].
    rewrite <- Es, digits_value_show_unsigned by lia.
    rewrite Z.opp_involutive, Hz. reflexivity.
  - apply Z.ltb_ge in E.
    rewrite stoi_digits.
    + rewrite digits_value_show_unsigned by assumption. now rewrite Hz.
    + apply all_chars_show_unsigned.
    + apply show_unsigned_nonempty.
Qed.

End IntText.

(** ** The record codec *)

Section Codec.

Lemma append_comma s : "," +:+ s = String comma s.
Proof. reflexivity. Qed.

(** The line [decode_line] reads when its nine tokens are given one by one. *)
Lemma decode_line_tokens n g ta tw twa tn th thg ls a w wa ne hp hg :
  contains comma n = false -> contains comma g = false ->
  contains comma ta = false -> contains comma tw = false ->
  contains comma twa = false -> contains comma tn = false ->
  contains comma th = false -> contains comma thg = false ->
  contains newline ls = false ->
  stoi ta = Ok a -> stod tw = Ok w -> stod twa = Ok wa -> stod tn = Ok ne ->
  match th with EmptyString => Ok 0%float | _ => stod th end = Ok hp ->
  stod thg = Ok hg ->
  decode_line (n +:+ "," +:+ g +:+ "," +:+ ta +:+ "," +:+ tw +:+ "," +:+
               twa +:+ "," +:+ tn +:+ "," +:+ th +:+ "," +:+ thg +:+ "," +:+ ls)
  = Ok {| age := a; weight := w; waist := wa; neck := ne; height := hg;
          carbs := 0; protein := 0; fat := 0; bfp := (0, "");
          daily_calories := 0; hip := hp; name := n; gender := g;
          lifestyle := ls |}.
Proof.
  intros Hn Hg Hta Htw Htwa Htn Hth Hthg Hls Ea Ew Ewa Ene Ehp Ehg.
  unfold decode_line, open_istream.
  rewrite !append_comma.
  rewrite (getline_token _ _ _ Hn).
  rewrite (getline_token _ _ _ Hg).
  rewrite (getline_token _ _ _ Hta), Ea.
  rewrite (getline_token _ _ _ Htw), Ew.
  rewrite (getline_token _ _ _ Htwa), Ewa.
  rewrite (getline_token _ _ _ Htn), Ene.
  rewrite (getline_token _ _ _ Hth), Ehp.
  rewrite (getline_token _ _ _ Hthg), Ehg.
  pose proof (getline_rest ls (lifestyle new_UserInfo) Hls) as Hl.
  destruct (getline _ _ newline) as [l iss]. simpl in Hl. subst l.
  reflexivity.
Qed.

Lemma stod_empty : stod "" = Throw (invalid_argument "stod").
Proof. reflexivity. Qed.

End Codec.

(** ** The line loop needs no more fuel than it is given *)

Section Fuel.

Lemma split_at_shorter c s tok rest :
  split_at c s = Some (tok, rest) -> (String.length rest < String.length s)%nat.
Proof.
  revert tok. induction s as [|a s IH]; simpl; intros tok; [discriminate|].
  destruct (Ascii.eqb a c).
  - intros [= _ <-]. lia.
  - destruct (split_at c s) as [[t r]|]; [|discriminate].
    intros [= _ <-]. specialize (IH _ eq_refl). lia.
Qed.

Lemma getlines_not_good n ist line : good ist = false -> getlines n ist line = [].
Proof.
  intros H. destruct n; [reflexivity|]. simpl. unfold getline. now rewrite H.
Qed.

Lemma getlines_fuel n m ist line :
  (String.length (unread ist) < n)%nat -> (String.length (unread ist) < m)%nat ->
  getlines n ist line = getlines m ist line.
Proof.
  revert m ist line. induction n as [|n IH]; intros m ist line Hn Hm; [lia|].
  destruct m as [|m]; [lia|].
  destruct (good ist) eqn:G; [|now rewrite !getlines_not_good].
  simpl. unfold getline. rewrite G.
  destruct (split_at newline (unread ist)) as [[tok rest]|] eqn:E.
  - simpl. f_equal. apply split_at_shorter in E. apply IH; simpl; lia.
  - simpl. destruct (unread ist); [reflexivity|]. f_equal.
    now rewrite !getlines_not_good.
Qed.

(** More fuel than [file_lines] takes changes nothing: the loop has ended by
    itself. *)
Lemma file_lines_fuel content n :
  (String.length content < n)%nat ->
  getlines n (open_istream content) "" = file_lines content.
Proof. intros H. apply getlines_fuel; simpl; lia. Qed.

(** A file that is not empty gives at least one line, so a loader that
    returns has read at least one record. *)
Lemma file_lines_nonempty content : content <> "" -> file_lines content <> [].
Proof.
  destruct content as [|c s]; [contradiction|]. intros _.
  unfold file_lines. simpl. unfold getline. simpl.
  destruct (Ascii.eqb c newline); [discriminate|].
  destruct (split_at newline s) as [[tok rest]|]; discriminate.
Qed.

End Fuel.

(* ===================================================================== *)
(** * The claims *)
(* ===================================================================== *)

(** C1: what [GetFullStats] does on [stats_files].  It loads the US Navy
    file with the BMI method and counts the label ["Bmi: Normal"] there:
    it reports 100% healthy for that file, although the US Navy method gives
    its one record no category, whatever [log10] returns; and with [bob] in
    the file it reports 0% although the US Navy method finds him normal.
    [GetHealthyUsers] loads the same file with the US Navy method. *)
Theorem C1_full_stats_loads_us_file_with_bmi
  (log10 : float -> float) (indeterminate : float) :
  snd (UserStats_GetFullStats log10 indeterminate stats_files)
  = Ok {| totalUsers := 2; malePercent := 50; femalePercent := 50;
          healthyBmiPercent := 100; healthyMaleBmiPercent := 0;
          healthyFemaleBmiPercent := 100;
          healthyUsPercent := 100; healthyMaleUsPercent := 100;
          healthyFemaleUsPercent := 0 |} /\
  cout (fst (UserStats_GetFullStats log10 indeterminate stats_files))
  = ["total users: 2"; "male/female percentage: 50% / 50%";
     "healty bmi: 100%"; "healty bmi male/female: 0% / 100%";
     "healty us: 100%"; "healty us male/female: 100% / 0%"] /\
  categories (snd (UserStats_massLoadAndCompute log10 indeterminate
                     "us_user_data.csv" BfpType_USNavyMethod stats_files))
  = Some [""] /\
  snd (UserStats_GetHealthyUsers log10 indeterminate "all" stats_files)
  = Ok ["amy"] /\
  healthyUsPercent
    <$> (match snd (UserStats_GetFullStats log10_ref indeterminate stats_files_bob)
         with Ok s => Some s | _ => None end)
  = Some 0 /\
  categories (snd (UserStats_massLoadAndCompute log10_ref indeterminate
                     "us_user_data.csv" BfpType_USNavyMethod stats_files_bob))
  = Some ["USNavy: Normal"].
Proof.
  repeat split; vm_compute; reflexivity.
Qed.

(** C2: what the code does when nobody has the name.  [getUserInfo] prints
    its message on [std::cerr] and returns the null pointer; each of the
    operations by name then reads through it.  The list is not changed, but
    the call does not return. *)
Theorem C2_by_name_not_found_reads_null
  (log10 : float -> float) (indeterminate : float)
  (st : State) (username : string) :
  absent username (userInfoList st) ->
  getUserInfo username st
  = (add_cerr st (not_found_message (userInfoList st)), Ok None) /\
  USNavyMethod_getBfp_by_name log10 indeterminate username st
  = (add_cerr st (not_found_message (userInfoList st)), NullDeref) /\
  BmiMethod_getBfp_by_name username st
  = (add_cerr st (not_found_message (userInfoList st)), NullDeref) /\
  HealthAssistant_getDailyCalories_by_name username st
  = (add_cerr st (not_found_message (userInfoList st)), NullDeref) /\
  HealthAssistant_getMealPrep_by_name username st
  = (add_cerr st (not_found_message (userInfoList st)), NullDeref).
Proof.
  intros H. split; [now apply getUserInfo_absent|].
  repeat split.
  - apply (by_name_absent (USNavyMethod_getBfp log10 indeterminate) _ _ H).
  - apply (by_name_absent BmiMethod_getBfp _ _ H).
  - apply (by_name_absent HealthAssistant_getDailyCalories _ _ H).
  - apply (by_name_absent HealthAssistant_getMealPrep _ _ H).
Qed.

Lemma C2_witness :
  USNavyMethod_getBfp_by_name log10_ref 0%float "john" empty_state
  = (add_cerr empty_state "no user in list", NullDeref) /\
  HealthAssistant_getDailyCalories_by_name "john" empty_state
  = (add_cerr empty_state "no user in list", NullDeref).
Proof.
  destruct (C2_by_name_not_found_reads_null log10_ref 0%float empty_state "john")
    as (_ & H1 & _ & H2 & _).
  - constructor.
  - split; [exact H1 | exact H2].
Defined.

Lemma C3_counterexample :
  encode_line user_with_comma = "a,b,male,30,70,90,40,,175,active" /\
  decode_line (encode_line user_with_comma) = Throw (invalid_argument "stoi") /\
  encode_line user_with_long_weight = "bob,male,30,70.1235,90,40,,175,active" /\
  (exists user',
      decode_line (encode_line user_with_long_weight) = Ok user' /\
      weight user' <> weight user_with_long_weight) /\
  encode_line user_with_fine_hip = "eve,female,30,60,91,36,97.2,165,moderate" /\
  (exists user',
      decode_line (encode_line user_with_fine_hip) = Ok user' /\
      hip user' <> hip user_with_fine_hip).
Proof.
  split; [vm_compute; reflexivity|].
  split; [vm_compute; reflexivity|].
  split; [vm_compute; reflexivity|].
  split.
  { eexists. split; [vm_compute; reflexivity|].
    apply float_neq. vm_compute. discriminate. }
  split; [vm_compute; reflexivity|].
  eexists. split; [vm_compute; reflexivity|].
  apply float_neq. vm_compute. discriminate.
Qed.

Theorem C3_encode_decode_round_trip user :
  contains comma (name user) = false ->
  contains comma (gender user) = false ->
  contains newline (lifestyle user) = false ->
  in_int (age user) = true ->
  survives (weight user) -> survives (waist user) ->
  survives (neck user) -> survives (height user) ->
  (gender user = "female" -> hip_survives (hip user)) ->
  decode_line (encode_line user) = Ok (persisted user).
Proof.
  intros Hn Hg Hl Ha Hw Hwa Hne Hh Hhip.
  unfold encode_line, persisted.
  apply decode_line_tokens; try assumption;
    try (apply numeric_no_comma;
         first [apply numeric_show_int | apply numeric_format_general]).
  - destruct (String.eqb (gender user) "female"); [|reflexivity].
    apply numeric_no_comma, numeric_format_fixed.
  - now apply stoi_show_int.
  - destruct (String.eqb (gender user) "female") eqn:E; [|reflexivity].
    apply String.eqb_eq in E. specialize (Hhip E). unfold hip_survives in Hhip.
    destruct (double_to_string (hip user) 1); [|exact Hhip].
    rewrite stod_empty in Hhip. discriminate.
Qed.

Lemma C3_witness : decode_line (encode_line amy) = Ok (persisted amy).
Proof.
  apply C3_encode_decode_round_trip; vm_compute; reflexivity.
Defined.

(** C4: what the US Navy method does outside its table, in both copies.
    With a gender it knows and an age outside 20..79 it prints its message,
    leaves the category empty and stores the truncated value.  With any
    other gender it prints nothing: the category is empty and the value
    stored is the conversion of a local that was never assigned. *)
Theorem C4_usnavy_outside_the_table
  (log10 : float -> float) (indeterminate : float)
  (user : UserInfo) (st : State) :
  (recognised_gender (gender user) -> ~ in_age_range (age user) ->
   USNavyMethod_getBfp log10 indeterminate user st
   = (add_cout st age_range_message,
      Ok (set_bfp user
            (static_cast_int
               (if String.eqb (gender user) "female"
                then usnavy_female log10 user else usnavy_male log10 user), "")))
   /\
   UserStats_usNavyMethod log10 indeterminate user st
   = USNavyMethod_getBfp log10 indeterminate user st) /\
  (~ recognised_gender (gender user) ->
   USNavyMethod_getBfp log10 indeterminate user st
   = (st, Ok (set_bfp user (static_cast_int indeterminate, ""))) /\
   UserStats_usNavyMethod log10 indeterminate user st
   = (st, Ok (set_bfp user (static_cast_int indeterminate, "")))).
Proof.
  split.
  - intros Hg Ha. split; [now apply USNavyMethod_getBfp_age_out|].
    apply UserStats_usNavyMethod_eq.
  - intros Hg. split; [now apply USNavyMethod_getBfp_gender_out|].
    etransitivity; [apply UserStats_usNavyMethod_eq|].
    now apply USNavyMethod_getBfp_gender_out.
Qed.

Lemma C4_witness :
  UserStats_usNavyMethod log10_ref 7.5%float
    (mk_user "sam" "other" 30 70 90 40 0 175 "active") empty_state
  = (empty_state,
     Ok (set_bfp (mk_user "sam" "other" 30 70 90 40 0 175 "active") (7, ""))) /\
  cout (fst (USNavyMethod_getBfp log10_ref 7.5%float
               (mk_user "al" "male" 85 70 90 40 0 175 "active") empty_state))
  = [age_range_message].
Proof.
  split.
  - apply (C4_usnavy_outside_the_table log10_ref 7.5%float
             (mk_user "sam" "other" 30 70 90 40 0 175 "active") empty_state).
    intros [H | H]; discriminate H.
  - destruct (C4_usnavy_outside_the_table log10_ref 7.5%float
                (mk_user "al" "male" 85 70 90 40 0 175 "active") empty_state)
      as [H _].
    destruct H as [H _].
    + now left.
    + unfold in_age_range. simpl. lia.
    + rewrite H. reflexivity.
Defined.

(** C5: the three loaders fail for good on a file that cannot be opened and
    on a file of length zero, each with an exception of its own: the list,
    the files and the console stay as they were, and the two exceptions
    differ. *)
Theorem C5_missing_and_empty_sources
  (log10 : float -> float) (indeterminate : float)
  (st : State) (filename : string) (self bfpType : BfpType) :
  (open_read filename st = None ->
   readFromFile filename st = (st, Throw (cannot_open filename)) /\
   HealthAssistant_massLoadAndCompute log10 indeterminate self filename st
   = (st, Throw (cannot_open filename)) /\
   UserStats_massLoadAndCompute log10 indeterminate filename bfpType st
   = (st, Throw (cannot_open filename))) /\
  (open_read filename st = Some "" ->
   readFromFile filename st = (st, Throw (file_is_empty filename)) /\
   HealthAssistant_massLoadAndCompute log10 indeterminate self filename st
   = (st, Throw (file_is_empty filename)) /\
   UserStats_massLoadAndCompute log10 indeterminate filename bfpType st
   = (st, Throw (file_is_empty filename))) /\
  cannot_open filename <> file_is_empty filename /\
  cannot_open filename
  = runtime_error ("Cannot open file as it may not exist or cannot be opened: "
                   +:+ filename) /\
  file_is_empty filename = runtime_error ("File is empty: " +:+ filename).
Proof.
  split; [|split; [|split; [|split]]].
  - intros H.
    unfold readFromFile, HealthAssistant_massLoadAndCompute,
      UserStats_massLoadAndCompute, bind.
    now rewrite (open_checked_missing _ _ H).
  - intros H.
    unfold readFromFile, HealthAssistant_massLoadAndCompute,
      UserStats_massLoadAndCompute, bind.
    now rewrite (open_checked_empty _ _ H).
  - apply cannot_open_neq_file_is_empty.
  - reflexivity.
  - reflexivity.
Qed.

Lemma C5_witness :
  readFromFile "bmi_user_data.csv" one_empty_file
  = (one_empty_file, Throw (cannot_open "bmi_user_data.csv")) /\
  readFromFile "us_user_data.csv" one_empty_file
  = (one_empty_file, Throw (file_is_empty "us_user_data.csv")).
Proof.
  split.
  - apply (C5_missing_and_empty_sources log10_ref 0%float one_empty_file
             "bmi_user_data.csv" BfpType_BmiMethod BfpType_BmiMethod).
    vm_compute. reflexivity.
  - apply (C5_missing_and_empty_sources log10_ref 0%float one_empty_file
             "us_user_data.csv" BfpType_BmiMethod BfpType_BmiMethod).
    vm_compute. reflexivity.
Defined.

(** C6: [getDailyCalories] stores the table value of the gender, age band
    and lifestyle; 2400 for a female of 25 who is active, 2000 for a male of
    55 who is sedentary; 0 with a message on [std::cerr] for any other
    gender; 0 and no message when the age or the lifestyle is not in the
    table, as for an age below 19.  The value is read in [daily_calories]
    of the record returned, the message in [cerr] of the state returned. *)
Theorem C6_daily_calories_table (user : UserInfo) (st : State) :
  exists st' user',
    HealthAssistant_getDailyCalories user st = (st', Ok user') /\
    daily_calories user'
    = fst (spec_dailyCalories (gender user) (age user) (lifestyle user)) /\
    cerr st'
    = (if snd (spec_dailyCalories (gender user) (age user) (lifestyle user))
       then cerr st ++ [calories_message] else cerr st)%list /\
    cout st' = cout st /\ same_but_console st st' /\
    (gender user = "female" -> age user = 25 -> lifestyle user = "active" ->
     daily_calories user' = 2400 /\ cerr st' = cerr st) /\
    (gender user = "male" -> age user = 55 -> lifestyle user = "sedentary" ->
     daily_calories user' = 2000 /\ cerr st' = cerr st) /\
    (~ recognised_gender (gender user) ->
     daily_calories user' = 0 /\
     cerr st' = (cerr st ++ [calories_message])%list) /\
    (recognised_gender (gender user) ->
     age user < 19 \/ spec_lifestyle (lifestyle user) = None ->
     daily_calories user' = 0 /\ cerr st' = cerr st).
Proof.
  eexists _, _. split; [apply getDailyCalories_table|].
  assert (forall (b : bool) m,
             cerr (if b then add_cerr st m else st)
             = (if b then cerr st ++ [m] else cerr st)%list) as Hc
      by (intros [|] m; reflexivity).
  assert (forall (b : bool) m, cout (if b then add_cerr st m else st) = cout st) as Ho
      by (intros [|] m; reflexivity).
  assert (forall (b : bool) m,
             same_but_console st (if b then add_cerr st m else st)) as Hs
      by (intros [|] m; now repeat split).
  rewrite Hc, Ho. cbn [daily_calories set_daily_calories].
  split; [reflexivity|]. split; [reflexivity|]. split; [reflexivity|].
  split; [apply Hs|].
  split; [|split; [|split]].
  - now intros -> -> ->.
  - now intros -> -> ->.
  - intros H. unfold spec_dailyCalories.
    now rewrite (spec_gender_unrecognised _ H).
  - intros Hg H. apply spec_gender_recognised in Hg.
    unfold spec_dailyCalories.
    destruct (spec_gender (gender user)); [|contradiction].
    destruct H as [Ha | Hl].
    + unfold spec_age_band.
      assert ((19 <=? age user) && (age user <=? 30) = false) as -> by lia.
      assert ((31 <=? age user) && (age user <=? 50) = false) as -> by lia.
      assert ((50 <? age user) = false) as -> by lia.
      now split.
    + rewrite Hl. now destruct (spec_age_band (age user)).
Qed.

Lemma C6_witness :
  exists st' user',
    HealthAssistant_getDailyCalories
      (mk_user "sam" "other" 30 60 70 32 0 165 "active") empty_state
    = (st', Ok user') /\
    daily_calories user' = 0 /\ cerr st' = [calories_message].
Proof.
  destruct (C6_daily_calories_table
              (mk_user "sam" "other" 30 60 70 32 0 165 "active") empty_state)
    as (st' & user' & E & _ & _ & _ & _ & _ & _ & H & _).
  exists st', user'. split; [exact E|]. apply H.
  intros [G | G]; discriminate G.
Defined.

(** C7: the BMI method looks at weight and height only: two records with the
    same weight and height get the same value (the integer part of the
    index) and the same category (below 18.5 Low, below 25 Normal, below 30
    High, else Very High), whatever their gender and age.  The pair is read
    in [bfp] of the records returned, by [BmiMethod::getBfp] and by
    [UserStats::bmiMethod]; neither touches the state. *)
Theorem C7_bmi_gender_symmetric (u1 u2 : UserInfo) (st1 st2 : State) :
  weight u1 = weight u2 -> height u1 = height u2 ->
  exists u1' u2' w1 w2,
    BmiMethod_getBfp u1 st1 = (st1, Ok u1') /\
    BmiMethod_getBfp u2 st2 = (st2, Ok u2') /\
    UserStats_bmiMethod u1 st1 = (st1, Ok w1) /\
    UserStats_bmiMethod u2 st2 = (st2, Ok w2) /\
    bfp u1' = (static_cast_int (bmi_index (weight u1) (height u1)),
               bmi_category (bmi_index (weight u1) (height u1))) /\
    bfp u2' = bfp u1' /\ bfp w1 = bfp u1' /\ bfp w2 = bfp u1'.
Proof.
  intros Hw Hh. eexists _, _, _, _.
  split; [reflexivity|]. split; [reflexivity|].
  split; [reflexivity|]. split; [reflexivity|].
  cbn [bfp set_bfp]. unfold bmi_index, bmi_category. rewrite Hw, Hh.
  repeat split.
Qed.

Lemma C7_witness :
  exists u1' u2',
    BmiMethod_getBfp (mk_user "ann" "female" 30 70 70 32 95 175 "active") empty_state
    = (empty_state, Ok u1') /\
    BmiMethod_getBfp (mk_user "john" "male" 61 70 95 41 0 175 "sedentary") empty_state
    = (empty_state, Ok u2') /\
    bfp u1' = (22, "Bmi: Normal") /\ bfp u2' = bfp u1'.
Proof.
  destruct (C7_bmi_gender_symmetric
              (mk_user "ann" "female" 30 70 70 32 95 175 "active")
              (mk_user "john" "male" 61 70 95 41 0 175 "sedentary")
              empty_state empty_state eq_refl eq_refl)
    as (u1' & u2' & _ & _ & H1 & H2 & _ & _ & Hv & Hs & _).
  exists u1', u2'. split; [exact H1|]. split; [exact H2|].
  split; [|exact Hs]. rewrite Hv. vm_compute. reflexivity.
Defined.




(** C9: [addUserInfo] appends at the end; [deleteUser] removes exactly the
    first record with the name and nothing when there is none, without an
    error, so the records left keep their order; adding three records and
    deleting the middle one by name leaves the other two in order.  The
    list is read in [userInfoList] of the state returned; nothing else
    changes. *)
Theorem C9_registry_add_delete_order (st : State) (username : string) :
  (forall user,
      exists st',
        addUserInfo user st = (st', Ok tt) /\
        userInfoList st' = (userInfoList st ++ [user])%list /\
        same_but_registry st st') /\
  (exists st',
      deleteUser username st = (st', Ok tt) /\ same_but_registry st st' /\
      (absent username (userInfoList st) -> userInfoList st' = userInfoList st) /\
      (forall l1 user l2,
          userInfoList st = (l1 ++ user :: l2)%list ->
          absent username l1 -> name user = username ->
          userInfoList st' = (l1 ++ l2)%list)) /\
  (forall a b c,
      name b = username -> absent username (userInfoList st ++ [a]) ->
      exists st',
        (let* _ := addUserInfo a in
         let* _ := addUserInfo b in
         let* _ := addUserInfo c in
         deleteUser username) st = (st', Ok tt) /\
        userInfoList st' = (userInfoList st ++ [a; c])%list /\
        same_but_registry st st').
Proof.
  split; [|split].
  - intros user. eexists. split; [apply addUserInfo_appends|]. now repeat split.
  - destruct (absent_or_first username (userInfoList st))
      as [Ha | (l1 & user & l2 & Hl & Ha & Hn)].
    + exists st. split; [now apply deleteUser_absent|]. split; [now repeat split|].
      split; [reflexivity|]. intros k1 u k2 Hk _ Hu. exfalso.
      rewrite Hk in Ha. now apply (not_absent username k1 u k2).
    + eexists. split; [now apply (deleteUser_first st username l1 user l2)|].
      split; [now repeat split|]. split.
      * intros Hab. exfalso. rewrite Hl in Hab.
        now apply (not_absent username l1 user l2).
      * intros k1 u k2 Hk Hka Hu. rewrite Hl in Hk.
        destruct (first_match_unique username l1 k1 user u l2 k2 Hk Ha Hn Hka Hu)
          as [-> ->]. reflexivity.
  - intros a b c Hb Ha. unfold bind. rewrite !addUserInfo_appends.
    rewrite (deleteUser_first _ username (userInfoList st ++ [a]) b [c]);
      simpl; try assumption.
    + eexists. split; [reflexivity|]. simpl. rewrite <- app_assoc.
      now repeat split.
    + now rewrite <- !app_assoc.
Qed.

Lemma C9_witness :
  exists st',
    (let* _ := addUserInfo (mk_user "ann" "female" 30 60 70 32 95 165 "active") in
     let* _ := addUserInfo (mk_user "jack" "male" 40 80 90 40 0 180 "moderate") in
     let* _ := addUserInfo (mk_user "john" "male" 50 90 95 41 0 175 "sedentary") in
     deleteUser "jack") empty_state = (st', Ok tt) /\
    userInfoList st'
    = [mk_user "ann" "female" 30 60 70 32 95 165 "active";
       mk_user "john" "male" 50 90 95 41 0 175 "sedentary"] /\
    same_but_registry empty_state st'.
Proof.
  apply (proj2 (proj2 (C9_registry_add_delete_order empty_state "jack"))).
  - reflexivity.
  - simpl. repeat constructor. discriminate.
Defined.

(** C10: each derivation writes its own fields only.  Both BFP methods
    change nothing but [bfp], the calories change nothing but
    [daily_calories], the meal plan changes nothing but [carbs], [protein]
    and [fat]; none of them touches a measurement. *)
Theorem C10_derivations_write_own_fields
  (log10 : float -> float) (indeterminate : float) (user : UserInfo) (st : State) :
  (exists user',
      snd (USNavyMethod_getBfp log10 indeterminate user st) = Ok user' /\
      same_measurements user user' /\ same_calories user user' /\
      same_meal user user') /\
  (exists user',
      snd (BmiMethod_getBfp user st) = Ok user' /\
      same_measurements user user' /\ same_calories user user' /\
      same_meal user user') /\
  (exists user',
      snd (HealthAssistant_getDailyCalories user st) = Ok user' /\
      same_measurements user user' /\ same_bfp user user' /\
      same_meal user user') /\
  (exists user',
      snd (HealthAssistant_getMealPrep user st) = Ok user' /\
      same_measurements user user' /\ same_bfp user user' /\
      same_calories user user').
Proof.
  split; [|split; [|split]].
  - destruct (USNavyMethod_getBfp_shape log10 indeterminate user st)
      as (st' & v & -> & _).
    eexists. split; [reflexivity|]. now repeat split.
  - rewrite BmiMethod_getBfp_eq. eexists. split; [reflexivity|].
    now repeat split.
  - destruct (HealthAssistant_getDailyCalories_shape user st)
      as (st' & v & -> & _).
    eexists. split; [reflexivity|]. now repeat split.
  - rewrite HealthAssistant_getMealPrep_eq. eexists. split; [reflexivity|].
    now repeat split.
Qed.

(* ===================================================================== *)
(** * Further properties of the code *)
(* ===================================================================== *)

(** ** Lookup, deletion and the operations by name *)

Section MoreRegistry.

Implicit Types (st : State) (l : list UserInfo) (user : UserInfo).

Lemma display_loop_absent username l :
  absent username l -> display_loop username l = None.
Proof.
  induction 1 as [|user l Hne _ IH]; simpl; [reflexivity|].
  apply String.eqb_neq in Hne. now rewrite Hne.
Qed.

Lemma display_loop_first username l1 user l2 :
  absent username l1 -> name user = username ->
  display_loop username (l1 ++ user :: l2) = Some user.
Proof.
  intros H Hn. induction H as [|u l Hne _ IH]; simpl.
  - apply String.eqb_eq in Hn. now rewrite Hn.
  - apply String.eqb_neq in Hne. now rewrite Hne.
Qed.

Lemma display_loop_app_other other l1 user l2 :
  name user <> other ->
  display_loop other (l1 ++ user :: l2) = display_loop other (l1 ++ l2).
Proof.
  intros Hne. induction l1 as [|u l1 IH]; simpl.
  - apply String.eqb_neq in Hne. now rewrite Hne.
  - destruct (String.eqb (name u) other); [reflexivity | exact IH].
Qed.

Lemma named_app username l1 l2 :
  named username (l1 ++ l2) = (named username l1 ++ named username l2)%list.
Proof. apply List.filter_app. Qed.

Lemma named_absent username l : absent username l -> named username l = [].
Proof.
  induction 1 as [|user l Hne _ IH]; simpl; [reflexivity|].
  apply String.eqb_neq in Hne. now rewrite Hne.
Qed.

(** Either nobody has the name, or the list splits at its first bearer. *)
End MoreRegistry.

(** X1: [deleteUser] removes the first record of the name and no other.
    Read in [userInfoList] of the state it returns: the list is the old one
    without the first record of the name, or the old one itself when nobody
    has the name.  So the records of the name are one fewer (none fewer when
    there was none), the records of every other name stay, in order, and a
    lookup of another name finds the same record as before.  Nothing but
    the list changes and nothing is thrown. *)
Theorem X1_deleteUser_removes_one_of_the_name
  (st : State) (username other : string) :
  other <> username ->
  exists st',
    deleteUser username st = (st', Ok tt) /\ same_but_registry st st' /\
    (absent username (userInfoList st) -> userInfoList st' = userInfoList st) /\
    (forall l1 user l2,
        userInfoList st = (l1 ++ user :: l2)%list ->
        absent username l1 -> name user = username ->
        userInfoList st' = (l1 ++ l2)%list) /\
    length (named username (userInfoList st'))
    = Nat.pred (length (named username (userInfoList st))) /\
    named other (userInfoList st') = named other (userInfoList st) /\
    display_loop other (userInfoList st') = display_loop other (userInfoList st).
Proof.
  intros Hne.
  destruct (absent_or_first username (userInfoList st))
    as [Ha | (l1 & user & l2 & Hl & Ha & Hn)].
  - exists st. split; [now apply deleteUser_absent|]. split; [now repeat split|].
    split; [reflexivity|]. split.
    { intros k1 u k2 Hk _ Hu. exfalso.
      rewrite Hk in Ha. now apply (not_absent username k1 u k2). }
    rewrite (named_absent _ _ Ha). now repeat split.
  - eexists. split; [now apply (deleteUser_first st username l1 user l2)|].
    split; [now repeat split|]. split.
    { intros Hab. exfalso. rewrite Hl in Hab.
      now apply (not_absent username l1 user l2). }
    split.
    { intros k1 u k2 Hk Hka Hu. rewrite Hl in Hk.
      destruct (first_match_unique username l1 k1 user u l2 k2 Hk Ha Hn Hka Hu)
        as [-> ->]. reflexivity. }
    cbn [userInfoList set_userInfoList]. rewrite Hl.
    rewrite !named_app, (named_absent _ _ Ha). simpl.
    assert (String.eqb (name user) username = true) as -> by now apply String.eqb_eq.
    assert (String.eqb (name user) other = false) as ->
        by (apply String.eqb_neq; congruence).
    split; [reflexivity|]. split; [reflexivity|].
    symmetry. apply display_loop_app_other. congruence.
Qed.

Lemma X1_witness :
  exists st',
    deleteUser "jack" two_jacks = (st', Ok tt) /\
    userInfoList st'
    = [mk_user "ann" "female" 30 60 70 32 95 165 "active";
       mk_user "jack" "male" 50 90 95 41 0 175 "sedentary"] /\
    named "ann" (userInfoList st') = named "ann" (userInfoList two_jacks).
Proof.
  destruct (X1_deleteUser_removes_one_of_the_name two_jacks "jack" "ann")
    as (st' & E & _ & _ & H & _ & Hn & _); [discriminate|].
  exists st'. split; [exact E|]. split; [|exact Hn].
  apply (H [mk_user "ann" "female" 30 60 70 32 95 165 "active"]
           (mk_user "jack" "male" 40 80 90 40 0 180 "moderate")
           [mk_user "jack" "male" 50 90 95 41 0 175 "sedentary"]).
  - reflexivity.
  - repeat constructor. discriminate.
  - reflexivity.
Defined.

Section MoreByName.

Variable log10 : float -> float.
Variable indeterminate : float.

Implicit Types (st : State) (user : UserInfo) (f : UserInfo -> M UserInfo).

Lemma derivation_USNavyMethod_getBfp :
  derivation (USNavyMethod_getBfp log10 indeterminate).
Proof.
  intros r st.
  destruct (USNavyMethod_getBfp_shape log10 indeterminate r st)
    as (st' & v & Hf & Hst).
  exists st', (set_bfp r v). split; [exact Hf|]. split; [reflexivity|].
  split; [now repeat split|].
  destruct Hst as [-> | ->]; now repeat split.
Qed.

Lemma derivation_BmiMethod_getBfp : derivation BmiMethod_getBfp.
Proof.
  intros r st. eexists _, _. split; [apply BmiMethod_getBfp_eq|].
  now repeat split.
Qed.

Lemma derivation_getDailyCalories : derivation HealthAssistant_getDailyCalories.
Proof.
  intros r st.
  destruct (HealthAssistant_getDailyCalories_shape r st) as (st' & v & Hf & Hst).
  exists st', (set_daily_calories r v). split; [exact Hf|].
  split; [reflexivity|]. split; [now repeat split|].
  destruct Hst as [-> | ->]; now repeat split.
Qed.

Lemma derivation_getMealPrep : derivation HealthAssistant_getMealPrep.
Proof.
  intros r st. eexists _, _. split; [apply HealthAssistant_getMealPrep_eq|].
  now repeat split.
Qed.

Lemma lookup_middle_found username (l : list UserInfo) i :
  getUserInfo_loop username l 0 = Some i ->
  exists r, l !! i = Some r /\ name r = username.
Proof.
  intros H. destruct (getUserInfo_loop_Some _ _ _ _ H) as (l1 & r & l2 & -> & _ & Hn & ->).
  exists r. split; [|exact Hn]. simpl. now rewrite list_lookup_middle.
Qed.

(** An operation by name on a name that is there replaces that one record
    by a record of the same name, and changes nothing else in the list. *)
Lemma by_name_frame f st username i :
  derivation f ->
  getUserInfo_loop username (userInfoList st) 0 = Some i ->
  exists st' r r',
    by_name f username st = (st', Ok tt) /\
    userInfoList st !! i = Some r /\
    userInfoList st' = <[i := r']> (userInfoList st) /\
    same_measurements r r' /\
    files st' = files st.
Proof.
  intros Hf Hi. destruct (lookup_middle_found _ _ _ Hi) as (r & Hr & Hn).
  destruct (Hf r st) as (st1 & r' & Hrun & Hname & Hsame & Hl & Hfiles & _).
  exists (set_userInfoList st1 (<[i := r']> (userInfoList st1))), r, r'.
  split; [now apply (by_name_found f st username i r st1 r')|].
  split; [exact Hr|]. simpl. rewrite Hl.
  split; [reflexivity|]. split; [exact Hsame | exact Hfiles].
Qed.

End MoreByName.

(** X2: when the name is in the registry, each operation by name returns and
    rewrites the one record [getUserInfo] finds: the list keeps its length,
    every other position keeps its record, the rewritten record keeps its
    name and measurements, and no file changes. *)
Theorem X2_by_name_rewrites_one_record
  (log10 : float -> float) (indeterminate : float)
  (st : State) (username : string) (i : nat) (op : string -> M unit) :
  In op [USNavyMethod_getBfp_by_name log10 indeterminate;
         BmiMethod_getBfp_by_name;
         HealthAssistant_getDailyCalories_by_name;
         HealthAssistant_getMealPrep_by_name] ->
  getUserInfo_loop username (userInfoList st) 0 = Some i ->
  exists st' r r',
    op username st = (st', Ok tt) /\
    userInfoList st !! i = Some r /\ userInfoList st' !! i = Some r' /\
    same_measurements r r' /\
    length (userInfoList st') = length (userInfoList st) /\
    (forall k, k <> i -> userInfoList st' !! k = userInfoList st !! k) /\
    files st' = files st.
Proof.
  intros Hop Hi.
  assert (exists f, derivation f /\ op = by_name f) as (f & Hf & ->).
  { simpl in Hop. destruct Hop as [<- | [<- | [<- | [<- | []]]]].
    - exists (USNavyMethod_getBfp log10 indeterminate).
      split; [apply derivation_USNavyMethod_getBfp | reflexivity].
    - exists BmiMethod_getBfp.
      split; [apply derivation_BmiMethod_getBfp | reflexivity].
    - exists HealthAssistant_getDailyCalories.
      split; [apply derivation_getDailyCalories | reflexivity].
    - exists HealthAssistant_getMealPrep.
      split; [apply derivation_getMealPrep | reflexivity]. }
  destruct (by_name_frame f st username i Hf Hi)
    as (st' & r & r' & Hrun & Hr & Hl & Hsame & Hfiles).
  exists st', r, r'. split; [exact Hrun|]. split; [exact Hr|].
  rewrite Hl. split.
  { apply list_lookup_insert_eq. now apply lookup_lt_Some in Hr. }
  split; [exact Hsame|]. split; [apply length_insert|].
  split; [|exact Hfiles].
  intros k Hk. now apply list_lookup_insert_ne.
Qed.

Lemma X2_witness :
  exists st' r r',
    HealthAssistant_getDailyCalories_by_name "john" two_users = (st', Ok tt) /\
    userInfoList two_users !! 1%nat = Some r /\
    userInfoList st' !! 1%nat = Some r' /\
    same_measurements r r' /\
    length (userInfoList st') = length (userInfoList two_users) /\
    (forall k, k <> 1%nat -> userInfoList st' !! k = userInfoList two_users !! k) /\
    files st' = files two_users.
Proof.
  apply (X2_by_name_rewrites_one_record log10_ref 0%float two_users "john" 1
           HealthAssistant_getDailyCalories_by_name).
  - simpl. tauto.
  - reflexivity.
Defined.

(** ** [center] and the display *)

Section MoreDisplay.

Lemma length_spaces n : String.length (spaces n) = n.
Proof. induction n as [|n IH]; simpl; [reflexivity | now rewrite IH]. Qed.

Lemma length_append (a b : string) :
  String.length (a +:+ b) = (String.length a + String.length b)%nat.
Proof. induction a as [|c a IH]; simpl; [reflexivity | now rewrite IH]. Qed.

Lemma all_space_spaces n : all_space (spaces n).
Proof. unfold all_space. induction n as [|n IH]; simpl; [reflexivity | exact IH]. Qed.

Lemma cout_lines_wrote st out :
  exists st', cout_lines out st = (st', Ok tt) /\ wrote_cout st st' out.
Proof.
  revert st. induction out as [|s out IH]; intros st; simpl.
  - exists st. split; [reflexivity|]. unfold wrote_cout.
    rewrite app_nil_r. now repeat split.
  - unfold bind, cout_line. destruct (IH (add_cout st s)) as (st' & -> & H).
    exists st'. split; [reflexivity|].
    destruct H as (H1 & H2 & H3 & H4 & H5). unfold wrote_cout.
    rewrite H1, H2, H3, H4, H5. simpl. rewrite <- app_assoc.
    now repeat split.
Qed.

Lemma wrote_cout_trans st1 st2 st3 o1 o2 :
  wrote_cout st1 st2 o1 -> wrote_cout st2 st3 o2 ->
  wrote_cout st1 st3 (o1 ++ o2).
Proof.
  intros (A1 & A2 & A3 & A4 & A5) (B1 & B2 & B3 & B4 & B5). unfold wrote_cout.
  rewrite B1, B2, B3, B4, B5, A1, A2, A3, A4, A5, app_assoc. now repeat split.
Qed.

Lemma length_center input width :
  Z.of_nat (String.length (center input width))
  = Z.max width (Z.of_nat (String.length input)).
Proof.
  unfold center. destruct (width <? _) eqn:E.
  - apply Z.ltb_lt in E. lia.
  - apply Z.ltb_ge in E.
    assert (0 <= Z.quot (width - Z.of_nat (String.length input)) 2)
      by (apply Z.quot_pos; lia).
    pose proof (Z.quot_rem' (width - Z.of_nat (String.length input)) 2).
    pose proof (Z.rem_bound_pos (width - Z.of_nat (String.length input)) 2).
    rewrite !length_append, !length_spaces. lia.
Qed.

End MoreDisplay.

(** X3: [center] pads to the width and never cuts: the result is as long as
    the larger of the width and the input; when the input fits it stands
    between two runs of blanks, the right one as long as the left one or
    one longer; when it does not fit it is returned as it is. *)
Theorem X3_center_pads_to_width (input : string) (width : Z) :
  Z.of_nat (String.length (center input width))
  = Z.max width (Z.of_nat (String.length input)) /\
  (width < Z.of_nat (String.length input) -> center input width = input) /\
  (Z.of_nat (String.length input) <= width ->
   exists a b : nat,
     center input width = spaces a +:+ input +:+ spaces b /\
     (b = a \/ b = S a) /\
     Z.of_nat (a + String.length input + b) = width).
Proof.
  unfold center.
  set (len := Z.of_nat (String.length input)).
  destruct (width <? len) eqn:E.
  - apply Z.ltb_lt in E. split; [lia|]. split; [reflexivity | lia].
  - apply Z.ltb_ge in E.
    pose proof (Z.quot_rem' (width - len) 2) as Hq.
    pose proof (Z.rem_bound_pos (width - len) 2) as Hr.
    assert (0 <= Z.quot (width - len) 2) as Hq0 by (apply Z.quot_pos; lia).
    split; [|split; [lia|]].
    + rewrite !length_append, !length_spaces. fold len. lia.
    + intros _. eexists _, _. split; [reflexivity|]. fold len. lia.
Qed.

Lemma X3_witness :
  center "abcd" 9 = "  abcd   " /\ center "abcd" 3 = "abcd".
Proof.
  split.
  - destruct (X3_center_pads_to_width "abcd" 9) as (_ & _ & H).
    destruct H as (a & b & H & _); [simpl; lia|].
    rewrite H. vm_compute in H. exact (eq_sym H).
  - apply (X3_center_pads_to_width "abcd" 3). simpl. lia.
Defined.

Section MoreDisplay2.

Implicit Types (st : State) (user : UserInfo).

Lemma displayUser_wrote user st :
  exists st', displayUser user st = (st', Ok tt) /\
              wrote_cout st st' (displayUser_lines user).
Proof. apply cout_lines_wrote. Qed.

Lemma wrote_cout_line st s : wrote_cout st (add_cout st s) [s].
Proof. now repeat split. Qed.

Lemma displayAll_loop_wrote l st :
  exists st', displayAll_loop l st = (st', Ok tt) /\
              wrote_cout st st' (concat (map displayUser_lines l)).
Proof.
  revert st. induction l as [|user l IH]; intros st; simpl.
  - exists st. split; [reflexivity|]. unfold wrote_cout. rewrite app_nil_r.
    now repeat split.
  - unfold bind. destruct (displayUser_wrote user st) as (st1 & -> & H1).
    destruct (IH st1) as (st2 & -> & H2). exists st2.
    split; [reflexivity|]. exact (wrote_cout_trans _ _ _ _ _ H1 H2).
Qed.

Lemma center_wide input : (60 <= String.length (center input 60))%nat.
Proof.
  pose proof (length_center input 60). lia.
Qed.

End MoreDisplay2.

(** X4: [display] never fails and writes on [std::cout] only: ["no user in
    list"] for an empty registry, ["user not found"] when nobody has the
    name, and otherwise the profile of the first record of that name, which
    has 25 lines (26 with the hip of a female), each empty or at least 60
    characters wide. *)
Theorem X4_display_prints_first_match (st : State) (username : string) :
  exists st' out,
    display username st = (st', Ok tt) /\ wrote_cout st st' out /\
    (userInfoList st = [] -> out = ["no user in list"]) /\
    (userInfoList st <> [] -> absent username (userInfoList st) ->
     out = ["user not found"]) /\
    (forall l1 user l2,
        userInfoList st = (l1 ++ user :: l2)%list ->
        absent username l1 -> name user = username ->
        out = displayUser_lines user /\
        length out = (if String.eqb (gender user) "female" then 26 else 25)%nat /\
        Forall (fun s => s = "" \/ (60 <= String.length s)%nat) out).
Proof.
  unfold display, bind, get_list.
  destruct (userInfoList st) as [|u l] eqn:El.
  - exists (add_cout st "no user in list"), ["no user in list"].
    split; [reflexivity|]. split; [apply wrote_cout_line|].
    split; [reflexivity|]. split; [congruence|].
    intros l1 user l2 H. now destruct l1.
  - destruct (display_loop username (u :: l)) as [r|] eqn:Ed.
    + destruct (displayUser_wrote r st) as (st' & Hrun & Hw).
      exists st', (displayUser_lines r). split; [exact Hrun|].
      split; [exact Hw|]. split; [discriminate|]. split.
      * intros _ Ha. rewrite (display_loop_absent _ _ Ha) in Ed. discriminate.
      * intros l1 user l2 Hl Ha Hn.
        rewrite Hl, (display_loop_first _ _ _ _ Ha Hn) in Ed.
        injection Ed as <-. split; [reflexivity|].
        unfold displayUser_lines.
        destruct (String.eqb (gender user) "female"); (split; [reflexivity|]);
          repeat (constructor; [first [now left | right; apply center_wide]|]);
          constructor.
    + exists (add_cout st "user not found"), ["user not found"].
      split; [reflexivity|]. split; [apply wrote_cout_line|].
      split; [discriminate|]. split; [reflexivity|].
      intros l1 user l2 Hl Ha Hn.
      rewrite Hl, (display_loop_first _ _ _ _ Ha Hn) in Ed. discriminate.
Qed.

Lemma X4_witness :
  exists st' out,
    display "jack" two_jacks = (st', Ok tt) /\ wrote_cout two_jacks st' out /\
    out = displayUser_lines (mk_user "jack" "male" 40 80 90 40 0 180 "moderate") /\
    length out = 25%nat.
Proof.
  destruct (X4_display_prints_first_match two_jacks "jack")
    as (st' & out & Hrun & Hw & _ & _ & H).
  exists st', out. split; [exact Hrun|]. split; [exact Hw|].
  destruct (H [mk_user "ann" "female" 30 60 70 32 95 165 "active"]
              (mk_user "jack" "male" 40 80 90 40 0 180 "moderate")
              [mk_user "jack" "male" 50 90 95 41 0 175 "sedentary"])
    as (H1 & H2 & _).
  - reflexivity.
  - repeat constructor. discriminate.
  - reflexivity.
  - split; [exact H1 | exact H2].
Defined.

(** X5: [HealthAssistant::display] gives ["all"] to [displayAll]: a begin
    line, the profile of every record in registry order and an end line,
    whether or not a record is named all; every other name goes to
    [display].  Neither changes anything but [std::cout]. *)
Theorem X5_display_all_lists_everybody (st : State) (username : string) :
  (exists st',
      HealthAssistant_display "all" st = (st', Ok tt) /\
      wrote_cout st st'
        ([center "--- BEGIN ALL USER ---" 60; ""]
         ++ concat (map displayUser_lines (userInfoList st))
         ++ [center "--- END ALL USER ---" 60; ""])) /\
  (username <> "all" -> HealthAssistant_display username st = display username st).
Proof.
  split.
  - unfold HealthAssistant_display. simpl. unfold displayAll, bind, get_list.
    destruct (cout_lines_wrote st [center "--- BEGIN ALL USER ---" 60; ""])
      as (st1 & -> & H1).
    destruct (displayAll_loop_wrote (userInfoList st1) st1) as (st2 & -> & H2).
    destruct (cout_lines_wrote st2 [center "--- END ALL USER ---" 60; ""])
      as (st3 & -> & H3).
    exists st3. split; [reflexivity|].
    assert (userInfoList st1 = userInfoList st) as E by apply H1.
    rewrite E in H2.
    exact (wrote_cout_trans _ _ _ _ _ H1 (wrote_cout_trans _ _ _ _ _ H2 H3)).
  - intros Hne. unfold HealthAssistant_display.
    apply String.eqb_neq in Hne. now rewrite Hne.
Qed.

Lemma X5_witness :
  HealthAssistant_display "jack" two_jacks = display "jack" two_jacks.
Proof.
  apply (X5_display_all_lists_everybody two_jacks "jack"). discriminate.
Defined.

(** ** Reading and writing files *)

Section MoreFiles.

Implicit Types (st : State) (user : UserInfo).

Lemma loaded_nil st : loaded st [] [] = st.
Proof. destruct st. unfold loaded. simpl. now rewrite !app_nil_r. Qed.

Lemma loaded_cons st user users line lines :
  loaded (add_cout (set_userInfoList st (userInfoList st ++ [user])) line) users lines
  = loaded st (user :: users) (line :: lines).
Proof. unfold loaded. simpl. now rewrite <- !app_assoc. Qed.

Lemma stoi_no_crash str : no_crash (stoi str).
Proof.
  unfold stoi. destruct (take_sign _) as [neg t], (span_digits _) as [ds r].
  destruct ds; [split; discriminate|]. destruct (in_int _); split; discriminate.
Qed.

Lemma stod_no_crash str : no_crash (stod str).
Proof.
  unfold stod. destruct (take_sign _) as [neg t].
  destruct (parse_number _); try (split; discriminate).
  destruct (erange _ _ _); split; discriminate.
Qed.

(** Decoding returns a record or throws; it never reads through a pointer
    and never divides. *)
Lemma decode_line_no_crash line : no_crash (decode_line line).
Proof.
  unfold decode_line.
  repeat match goal with
         | |- context [let '(_, _) := ?g in _] => destruct g
         end.
  repeat match goal with
         | |- context [match stoi ?t with _ => _ end] =>
             let E := fresh in
             destruct (stoi t) eqn:E;
             [|split; discriminate
              |now destruct (stoi_no_crash t) | now destruct (stoi_no_crash t)]
         | |- context [match stod ?t with _ => _ end] =>
             let E := fresh in
             destruct (stod t) eqn:E;
             [|split; discriminate
              |now destruct (stod_no_crash t) | now destruct (stod_no_crash t)]
         | |- context [match ?t with EmptyString => _ | String _ _ => _ end] =>
             destruct t
         end; split; discriminate.
Qed.

(** The loop of [readFromFile]: the lines up to the first that does not
    decode are pushed and echoed; the loop ends there with that line's
    exception, or after the last line. *)
Lemma readFromFile_loop_outcome lines st :
  exists good users r,
    readFromFile_loop lines st = (loaded st users good, r) /\
    decoded good users /\
    ((r = Ok tt /\ good = lines) \/
     (exists bad rest e,
         r = Throw e /\ lines = (good ++ bad :: rest)%list /\
         decode_line bad = Throw e)).
Proof.
  revert st. induction lines as [|line lines IH]; intros st; simpl.
  - exists [], [], (Ok tt). rewrite loaded_nil.
    split; [reflexivity|]. split; [constructor | now left].
  - unfold bind, lift. destruct (decode_line line) as [user|e| |] eqn:E.
    + unfold addUserInfo, bind, get_list, put_list, cout_line.
      destruct (IH (add_cout (set_userInfoList st (userInfoList st ++ [user])) line))
        as (good & users & r & -> & Hd & Hr).
      exists (line :: good), (user :: users), r. rewrite loaded_cons.
      split; [reflexivity|]. split; [now constructor|].
      destruct Hr as [[-> ->] | (bad & rest & e & -> & -> & Hb)]; [now left|].
      right. now exists bad, rest, e.
    + exists [], [], (Throw e). rewrite loaded_nil.
      split; [reflexivity|]. split; [constructor|].
      right. now exists line, lines, e.
    + now destruct (decode_line_no_crash line).
    + now destruct (decode_line_no_crash line).
Qed.

End MoreFiles.

(** X6: [readFromFile] on a file that opens and is not empty pushes the
    records of the lines it can decode, in file order, after the records
    already there, and echoes those lines on [std::cout].  It stops at the
    first line that does not decode and throws that line's exception: the
    records of the lines before it stay in the registry. *)
Theorem X6_readFromFile_appends_until_bad_line
  (st : State) (filename content : string) :
  open_read filename st = Some content -> content <> "" ->
  exists good users r,
    readFromFile filename st = (loaded st users good, r) /\
    decoded good users /\
    ((r = Ok tt /\ good = file_lines content) \/
     (exists bad rest e,
         r = Throw e /\ file_lines content = (good ++ bad :: rest)%list /\
         decode_line bad = Throw e)).
Proof.
  intros Ho Hne. unfold readFromFile, bind.
  rewrite (open_checked_content _ _ _ Ho Hne).
  apply readFromFile_loop_outcome.
Qed.

Lemma X6_witness :
  exists good users r,
    readFromFile "users.csv" partly_bad_file = (loaded partly_bad_file users good, r) /\
    decoded good users /\
    ((r = Ok tt /\
      good = file_lines ("amy,female,25,60.5,70,32,95.5,165,active" +:+ endl +:+
                         "bob,male,thirty,100,85,40,,180,sedentary" +:+ endl +:+
                         "eve,female,30,60,91,36,97,165,moderate" +:+ endl)) \/
     (exists bad rest e,
         r = Throw e /\
         file_lines ("amy,female,25,60.5,70,32,95.5,165,active" +:+ endl +:+
                     "bob,male,thirty,100,85,40,,180,sedentary" +:+ endl +:+
                     "eve,female,30,60,91,36,97,165,moderate" +:+ endl)
         = (good ++ bad :: rest)%list /\
         decode_line bad = Throw e)).
Proof.
  apply X6_readFromFile_appends_until_bad_line.
  - vm_compute. reflexivity.
  - discriminate.
Defined.

Section MoreFiles2.

Implicit Types (st : State) (user : UserInfo).

Lemma append_cons c (a b : string) : String c a +:+ b = String c (a +:+ b).
Proof. reflexivity. Qed.

Lemma append_empty_l (s : string) : "" +:+ s = s.
Proof. reflexivity. Qed.

Lemma append_empty_r (s : string) : s +:+ "" = s.
Proof.
  induction s as [|c s IH]; [reflexivity | now rewrite append_cons, IH].
Qed.

Lemma append_assoc' (a b c : string) : (a +:+ b) +:+ c = a +:+ (b +:+ c).
Proof.
  induction a as [|x a IH]; [reflexivity | now rewrite !append_cons, IH].
Qed.

Lemma concat_empty_cons (x : string) xs :
  String.concat "" (x :: xs) = x +:+ String.concat "" xs.
Proof.
  destruct xs as [|y xs]; simpl.
  - now rewrite append_empty_r.
  - reflexivity.
Qed.

Lemma written_cons user l :
  written (user :: l) = encode_line user +:+ String newline (written l).
Proof.
  unfold written. rewrite map_cons, concat_empty_cons.
  unfold endl. now rewrite append_assoc'.
Qed.

Lemma contains_app c (a b : string) :
  contains c (a +:+ b) = contains c a || contains c b.
Proof.
  induction a as [|x a IH]; [reflexivity|].
  rewrite append_cons. simpl. now rewrite IH, orb_assoc.
Qed.

Lemma numeric_no_newline s :
  all_chars numeric_char s = true -> contains newline s = false.
Proof.
  induction s as [|c s IH]; simpl; [reflexivity|].
  intros H. apply andb_true_iff in H as [Hc Hs]. rewrite (IH Hs).
  rewrite orb_false_r.
  destruct (Ascii.eqb c newline) eqn:E; [|reflexivity].
  apply Ascii.eqb_eq in E. subst c. discriminate Hc.
Qed.

(** The line of a record that is safe for the codec holds no line end. *)
Lemma encode_line_no_newline user :
  line_safe user -> contains newline (encode_line user) = false.
Proof.
  intros (_ & _ & Hn & Hg & Hl & _). unfold encode_line, show_double.
  rewrite !contains_app, Hn, Hg, Hl.
  rewrite (numeric_no_newline _ (numeric_show_int _)).
  rewrite !(numeric_no_newline _ (numeric_format_general _ _)).
  assert (contains newline
            (if String.eqb (gender user) "female"
             then double_to_string (hip user) 1 else "") = false) as ->.
  { destruct (String.eqb (gender user) "female"); [|reflexivity].
    apply numeric_no_newline, numeric_format_fixed. }
  reflexivity.
Qed.

(** The line of a safe record decodes to what the file keeps of it. *)
Lemma decode_encode_line user :
  line_safe user -> decode_line (encode_line user) = Ok (persisted user).
Proof.
  intros (Hn & Hg & _ & _ & Hl & Ha & Hw & Hwa & Hne & Hh & Hhip).
  unfold encode_line, persisted.
  apply decode_line_tokens; try assumption;
    try (apply numeric_no_comma;
         first [apply numeric_show_int | apply numeric_format_general]).
  - destruct (String.eqb (gender user) "female"); [|reflexivity].
    apply numeric_no_comma, numeric_format_fixed.
  - now apply stoi_show_int.
  - destruct (String.eqb (gender user) "female") eqn:E; [|reflexivity].
    apply String.eqb_eq in E. specialize (Hhip E). unfold hip_survives in Hhip.
    destruct (double_to_string (hip user) 1); [|exact Hhip].
    rewrite stod_empty in Hhip. discriminate.
Qed.

(** The loop over lines that end with a line end gives these lines. *)
Lemma getlines_written l fuel old :
  Forall line_safe l ->
  (String.length (written l) < fuel)%nat ->
  getlines fuel (open_istream (written l)) old = map encode_line l.
Proof.
  intros H. revert fuel old.
  induction H as [|user l Hu _ IH]; intros fuel old Hf.
  - destruct fuel; [simpl in Hf; lia | reflexivity].
  - destruct fuel as [|fuel]; [lia|].
    rewrite written_cons in *. simpl getlines. unfold getline, open_istream.
    cbn [good unread eofbit failbit negb andb].
    rewrite (split_at_token _ _ _ (encode_line_no_newline _ Hu)).
    cbn [failbit]. rewrite map_cons. f_equal.
    apply IH. rewrite length_append in Hf. simpl in Hf. lia.
Qed.

Lemma file_lines_written l :
  Forall line_safe l -> file_lines (written l) = map encode_line l.
Proof. intros H. apply getlines_written; [exact H | lia]. Qed.

Lemma decoded_written l :
  Forall line_safe l -> decoded (map encode_line l) (map persisted l).
Proof.
  induction 1 as [|user l Hu _ IH]; simpl; constructor; [|exact IH].
  now apply decode_encode_line.
Qed.

Lemma readFromFile_loop_decoded lines users st :
  decoded lines users ->
  readFromFile_loop lines st = (loaded st users lines, Ok tt).
Proof.
  intros H. revert st. induction H as [|line user lines users Hd _ IH]; intros st.
  - simpl. now rewrite loaded_nil.
  - simpl. unfold bind, lift. rewrite Hd.
    unfold addUserInfo, bind, get_list, put_list, cout_line.
    now rewrite IH, loaded_cons.
Qed.

Lemma written_nonempty l : l <> [] -> written l <> "".
Proof.
  destruct l as [|user l]; [contradiction|]. intros _.
  rewrite written_cons. destruct (encode_line user); discriminate.
Qed.

End MoreFiles2.

(** X7: what [writeToFile] wrote, [readFromFile] reads back.  On a file
    that does not exist yet, serialising a registry of records that are safe
    for the codec and then reading the file pushes, after the records already
    there, one record for each of them with its persisted fields (the hip
    only for a female, the derived fields at their defaults), in order, and
    echoes their lines.  Serialising an empty registry creates an empty
    file, which [readFromFile] refuses with its empty-file exception. *)
Theorem X7_write_then_read_file (st : State) (filename : string) :
  filename ∉ unopenable st -> files st !! filename = None ->
  Forall line_safe (userInfoList st) ->
  (userInfoList st <> [] ->
   (let* _ := writeToFile filename in readFromFile filename) st
   = (loaded (set_files st (<[filename := written (userInfoList st)]> (files st)))
             (map persisted (userInfoList st))
             (map encode_line (userInfoList st)),
      Ok tt)) /\
  (userInfoList st = [] ->
   (let* _ := writeToFile filename in readFromFile filename) st
   = (set_files st (<[filename := ""]> (files st)),
      Throw (file_is_empty filename))).
Proof.
  intros Hu Hf Hs.
  assert (writeToFile filename st
          = (set_files st (<[filename := written (userInfoList st)]> (files st)),
             Ok tt)) as Hw.
  { unfold writeToFile. destruct (decide (filename ∈ unopenable st)); [contradiction|].
    unfold append_file. now rewrite Hf. }
  assert (forall c,
             open_read filename (set_files st (<[filename := c]> (files st))) = Some c)
    as Ho.
  { intros c. unfold open_read. simpl.
    destruct (decide (filename ∈ unopenable st)); [contradiction|].
    apply lookup_insert_eq. }
  split; intros Hl; unfold bind; rewrite Hw.
  - unfold readFromFile, bind.
    rewrite (open_checked_content _ _ _ (Ho _) (written_nonempty _ Hl)).
    rewrite (file_lines_written _ Hs).
    apply readFromFile_loop_decoded, decoded_written, Hs.
  - rewrite Hl. unfold readFromFile, bind.
    change (written []) with "".
    now rewrite (open_checked_empty _ _ (Ho "")).
Qed.

Lemma X7_witness :
  (let* _ := writeToFile "out.csv" in readFromFile "out.csv") two_users
  = (loaded (set_files two_users
               (<["out.csv" := written (userInfoList two_users)]> (files two_users)))
            (map persisted (userInfoList two_users))
            (map encode_line (userInfoList two_users)),
     Ok tt).
Proof.
  destruct (X7_write_then_read_file two_users "out.csv") as [H _].
  - apply not_elem_of_empty.
  - apply lookup_empty.
  - apply Forall_cons_2; [|apply Forall_cons_2; [|apply Forall_nil_2]];
      unfold line_safe; repeat apply conj; vm_compute; reflexivity.
  - apply H. discriminate.
Defined.

Section MoreCodec.

(** A [getline] that meets the end of the input before its delimiter takes
    all that is left and sets [eofbit]. *)
Lemma getline_last s old delim :
  contains delim s = false ->
  getline {| unread := s; eofbit := false; failbit := false |} old delim
  = (s, {| unread := EmptyString; eofbit := true;
           failbit := match s with EmptyString => true | _ => false end |}).
Proof.
  intros H. unfold getline. simpl. now rewrite (split_at_none _ _ H).
Qed.

(** A [getline] on a stream at its end leaves the string as it was. *)
Lemma getline_exhausted ist old delim :
  eofbit ist = true ->
  getline ist old delim
  = (old, {| unread := unread ist; eofbit := eofbit ist; failbit := true |}).
Proof. intros H. unfold getline, good. now rewrite H. Qed.

End MoreCodec.

(** X8: a line cut short is not refused, its last token is read again.
    [token] is declared once for the line and a [getline] on the exhausted
    string stream leaves it as it was.  So on a line of three fields, the
    text of the age is also converted for the weight, the waist, the neck,
    the hip and the height; on a line of four fields the text of the weight
    stands for the four measurements after it.  The lifestyle keeps the
    empty string of a new record. *)
Theorem X8_short_line_reuses_last_token
  (n g ta tw : string) (a : Z) (x w : float) :
  contains comma n = false -> contains comma g = false ->
  contains comma ta = false -> contains comma tw = false ->
  stoi ta = Ok a -> stod ta = Ok x -> stod tw = Ok w ->
  decode_line (n +:+ "," +:+ g +:+ "," +:+ ta)
  = Ok {| age := a; weight := x; waist := x; neck := x; height := x;
          carbs := 0; protein := 0; fat := 0; bfp := (0, "");
          daily_calories := 0; hip := x; name := n; gender := g;
          lifestyle := "" |} /\
  decode_line (n +:+ "," +:+ g +:+ "," +:+ ta +:+ "," +:+ tw)
  = Ok {| age := a; weight := w; waist := w; neck := w; height := w;
          carbs := 0; protein := 0; fat := 0; bfp := (0, "");
          daily_calories := 0; hip := w; name := n; gender := g;
          lifestyle := "" |}.
Proof.
  intros Hn Hg Hta Htw Ea Ex Ew.
  assert (ta <> "") as Hta0 by (intros ->; discriminate Ea).
  assert (tw <> "") as Htw0 by (intros ->; discriminate Ew).
  split; unfold decode_line, open_istream; rewrite !append_comma;
    rewrite (getline_token _ _ _ Hn), (getline_token _ _ _ Hg).
  - rewrite (getline_last _ _ _ Hta), Ea.
    rewrite !getline_exhausted by reflexivity. cbn [unread eofbit].
    rewrite Ex. destruct ta; [contradiction | reflexivity].
  - rewrite (getline_token _ _ _ Hta), Ea.
    rewrite (getline_last _ _ _ Htw), Ew.
    rewrite !getline_exhausted by reflexivity. cbn [unread eofbit].
    rewrite Ew. destruct tw; [contradiction | reflexivity].
Qed.

Lemma X8_witness :
  decode_line "bob,male,30"
  = Ok {| age := 30; weight := 30; waist := 30; neck := 30; height := 30;
          carbs := 0; protein := 0; fat := 0; bfp := (0, "");
          daily_calories := 0; hip := 30; name := "bob"; gender := "male";
          lifestyle := "" |} /\
  decode_line "bob,male,30,80.5"
  = Ok {| age := 30; weight := 80.5; waist := 80.5; neck := 80.5; height := 80.5;
          carbs := 0; protein := 0; fat := 0; bfp := (0, "");
          daily_calories := 0; hip := 80.5; name := "bob"; gender := "male";
          lifestyle := "" |}.
Proof.
  apply (X8_short_line_reuses_last_token "bob" "male" "30" "80.5");
    vm_compute; reflexivity.
Defined.

Section MoreStats.

Variable log10 : float -> float.
Variable indeterminate : float.

Implicit Types (st : State) (user : UserInfo).

Lemma same_but_console_refl st : same_but_console st st.
Proof. now repeat split. Qed.

Lemma same_but_console_trans st1 st2 st3 :
  same_but_console st1 st2 -> same_but_console st2 st3 -> same_but_console st1 st3.
Proof.
  intros (H1 & H2 & H3) (K1 & K2 & K3). unfold same_but_console.
  now rewrite K1, K2, K3.
Qed.

Lemma same_measurements_trans u1 u2 u3 :
  same_measurements u1 u2 -> same_measurements u2 u3 -> same_measurements u1 u3.
Proof.
  unfold same_measurements. intros H K.
  destruct H as (?&?&?&?&?&?&?&?&?), K as (?&?&?&?&?&?&?&?&?).
  repeat split; congruence.
Qed.

Lemma derivation_UserStats_bfp bfpType :
  derivation (match bfpType with
              | BfpType_BmiMethod => UserStats_bmiMethod
              | BfpType_USNavyMethod => UserStats_usNavyMethod log10 indeterminate
              end).
Proof.
  destruct bfpType.
  - exact derivation_BmiMethod_getBfp.
  - exact (derivation_USNavyMethod_getBfp log10 indeterminate).
Qed.

(** The loop of [UserStats::massLoadAndCompute] touches the console only; it
    returns one record for each line, or the exception of a conversion. *)
Lemma UserStats_massLoadAndCompute_loop_outcome bfpType lines acc st :
  exists st' r,
    UserStats_massLoadAndCompute_loop log10 indeterminate bfpType lines acc st
    = (st', r) /\
    same_but_console st st' /\ no_crash r /\
    (forall users, r = Ok users ->
       exists new, users = (acc ++ new)%list /\ Forall2 computed_from lines new) /\
    (forall e, r = Throw e -> exists line, In line lines /\ decode_line line = Throw e).
Proof.
  revert acc st. induction lines as [|line lines IH]; intros acc st.
  - exists st, (Ok acc). split; [reflexivity|]. split; [apply same_but_console_refl|].
    split; [split; discriminate|]. split.
    + intros users [= <-]. exists []. rewrite app_nil_r. split; [reflexivity | constructor].
    + discriminate.
  - cbn [UserStats_massLoadAndCompute_loop]. unfold bind at 1, lift.
    destruct (decode_line line) as [u|e| |] eqn:Hd.
    + unfold bind at 1.
      destruct (derivation_UserStats_bfp bfpType u st) as (st1 & u1 & E1 & _ & M1 & S1).
      replace (match bfpType with
               | BfpType_USNavyMethod => UserStats_usNavyMethod log10 indeterminate u
               | BfpType_BmiMethod => UserStats_bmiMethod u
               end st)
        with (st1, Ok u1 : result UserInfo) by (rewrite <- E1; now destruct bfpType).
      unfold bind at 1.
      destruct (derivation_getDailyCalories u1 st1) as (st2 & u2 & E2 & _ & M2 & S2).
      change (UserStats_getDailyCalories u1 st1)
        with (HealthAssistant_getDailyCalories u1 st1).
      rewrite E2. unfold bind at 1.
      destruct (derivation_getMealPrep u2 st2) as (st3 & u3 & E3 & _ & M3 & S3).
      change (UserStats_getMealPrep u2 st2) with (HealthAssistant_getMealPrep u2 st2).
      rewrite E3.
      destruct (IH (acc ++ [u3])%list st3) as (st' & r & E & S & Hn & Hok & Hth).
      exists st', r. split; [exact E|].
      split; [eauto using same_but_console_trans|].
      split; [exact Hn|]. split.
      * intros users Hu. destruct (Hok users Hu) as (new & -> & Hnew).
        exists (u3 :: new). rewrite <- app_assoc. split; [reflexivity|].
        constructor; [|exact Hnew]. exists u. split; [exact Hd|].
        eauto using same_measurements_trans.
      * intros e He. destruct (Hth e He) as (l & Hin & Hl).
        exists l. split; [now right | exact Hl].
    + exists st, (Throw e). split; [reflexivity|].
      split; [apply same_but_console_refl|]. split; [split; discriminate|]. split.
      * discriminate.
      * intros e' [= <-]. exists line. split; [now left | exact Hd].
    + now destruct (decode_line_no_crash line).
    + now destruct (decode_line_no_crash line).
Qed.

End MoreStats.

(** X9: what [UserStats::massLoadAndCompute] does with a file that has
    text in it.  It changes nothing but the console: the registry and the
    files stay as they were.  It is not killed.  When it returns, the vector
    holds at least one record, and one record for each line of the file, in
    order, with the fields of that line.  When it throws, the exception is
    the one a conversion raised on a line of the file. *)
Theorem X9_stats_load_outcome
  (log10 : float -> float) (indeterminate : float)
  (filename content : string) (bfpType : BfpType) (st : State) :
  open_read filename st = Some content -> content <> "" ->
  exists st' r,
    UserStats_massLoadAndCompute log10 indeterminate filename bfpType st = (st', r) /\
    same_but_console st st' /\ no_crash r /\
    (forall users, r = Ok users ->
       users <> [] /\ Forall2 computed_from (file_lines content) users) /\
    (forall e, r = Throw e ->
       exists line, In line (file_lines content) /\ decode_line line = Throw e).
Proof.
  intros Ho Hne. unfold UserStats_massLoadAndCompute, bind.
  rewrite (open_checked_content _ _ _ Ho Hne).
  destruct (UserStats_massLoadAndCompute_loop_outcome log10 indeterminate
              bfpType (file_lines content) [] st)
    as (st' & r & E & S & Hn & Hok & Hth).
  exists st', r. split; [exact E|]. split; [exact S|]. split; [exact Hn|].
  split; [|exact Hth].
  intros users Hu. destruct (Hok users Hu) as (new & -> & Hnew).
  split; [|exact Hnew]. simpl. intros ->.
  apply Forall2_nil_inv_r in Hnew.
  now apply (file_lines_nonempty content).
Qed.

Lemma X9_witness :
  exists st' r,
    UserStats_massLoadAndCompute log10_ref 0%float
      "bmi_user_data.csv" BfpType_BmiMethod stats_files = (st', r) /\
    same_but_console stats_files st' /\ no_crash r /\
    (forall users, r = Ok users ->
       users <> [] /\
       Forall2 computed_from
         (file_lines ("amy,female,25,60.5,70,32,95.5,165,active" +:+ endl)) users) /\
    (forall e, r = Throw e ->
       exists line,
         In line (file_lines ("amy,female,25,60.5,70,32,95.5,165,active" +:+ endl)) /\
         decode_line line = Throw e).
Proof.
  apply X9_stats_load_outcome.
  - vm_compute. reflexivity.
  - discriminate.
Defined.

Section MoreFullStats.

Variable log10 : float -> float.
Variable indeterminate : float.

Implicit Types (st : State) (user : UserInfo) (c : Counters).

(** A load of [UserStats] that returns gives at least one record and leaves
    the registry and the files alone. *)
Lemma UserStats_massLoadAndCompute_returns filename bfpType st st' users :
  UserStats_massLoadAndCompute log10 indeterminate filename bfpType st
  = (st', Ok users) ->
  users <> [] /\ same_but_console st st'.
Proof.
  unfold UserStats_massLoadAndCompute, bind. unfold open_checked.
  destruct (open_read filename st) as [content|]; [|discriminate].
  destruct (String.eqb_spec content "") as [-> | Hne]; [discriminate|].
  replace (String.length content =? 0)%nat with false
    by (destruct content; [contradiction | reflexivity]).
  unfold ret.
  destruct (UserStats_massLoadAndCompute_loop_outcome log10 indeterminate
              bfpType (file_lines content) [] st)
    as (st1 & r & E & S & _ & Hok & _).
  rewrite E. intros [= <- ->]. split; [|exact S].
  destruct (Hok users eq_refl) as (new & -> & Hnew). simpl. intros ->.
  apply Forall2_nil_inv_r in Hnew. now apply (file_lines_nonempty content).
Qed.

(** The gender counters never exceed the number of records seen. *)
Lemma count_user_genders label l c n :
  0 <= genderCount_male c -> 0 <= genderCount_female c ->
  genderCount_male c + genderCount_female c <= n ->
  let c' := fold_left (count_user label) l c in
  0 <= genderCount_male c' /\ 0 <= genderCount_female c' /\
  genderCount_male c' + genderCount_female c' <= n + Z.of_nat (length l).
Proof.
  revert c n. induction l as [|user l IH]; intros c n Hm Hf Hs;
    cbn [fold_left length].
  - repeat split; lia.
  - rewrite Nat2Z.inj_succ.
    replace (n + Z.succ (Z.of_nat (length l)))
      with ((n + 1) + Z.of_nat (length l)) by lia.
    apply IH; unfold count_user;
      destruct (String.eqb (gender user) "female"),
               (String.eqb (gender user) "male"),
               (String.eqb (snd (bfp user)) label); simpl; lia.
Qed.

(** The healthy counters: the two by gender stay within the healthy ones,
    which stay within the number of records seen. *)
Lemma count_user_healthy label l c n :
  0 <= healthyMaleCount c -> 0 <= healthyFemaleCount c ->
  healthyMaleCount c + healthyFemaleCount c <= healthyCount c ->
  healthyCount c <= n ->
  let c' := fold_left (count_user label) l c in
  0 <= healthyMaleCount c' /\ 0 <= healthyFemaleCount c' /\
  healthyMaleCount c' + healthyFemaleCount c' <= healthyCount c' /\
  healthyCount c' <= n + Z.of_nat (length l).
Proof.
  revert c n. induction l as [|user l IH]; intros c n Hm Hf Hs Hn;
    cbn [fold_left length].
  - repeat split; lia.
  - rewrite Nat2Z.inj_succ.
    replace (n + Z.succ (Z.of_nat (length l)))
      with ((n + 1) + Z.of_nat (length l)) by lia.
    apply IH; unfold count_user;
      destruct (String.eqb (gender user) "female"),
               (String.eqb (gender user) "male"),
               (String.eqb (snd (bfp user)) label); simpl; lia.
Qed.

Lemma percent_part a n : 0 <= a <= n -> 0 < n -> percent (a * 100 / n).
Proof.
  intros Ha Hn. split.
  - apply Z.div_pos; lia.
  - apply Z.div_le_upper_bound; nia.
Qed.

Lemma percent_parts a b t n :
  0 <= a -> 0 <= b -> a + b <= t -> 0 < n ->
  a * 100 / n + b * 100 / n <= t * 100 / n.
Proof.
  intros Ha Hb Hs Hn. apply Z.div_le_lower_bound; [exact Hn|].
  pose proof (Z.mul_div_le (a * 100) n Hn).
  pose proof (Z.mul_div_le (b * 100) n Hn). nia.
Qed.

Lemma divide_zero a st : divide a 0 st = (st, DivideByZero).
Proof. reflexivity. Qed.

Lemma divide_nonzero a b st : b <> 0 -> divide a b st = (st, Ok (a / b)).
Proof.
  intros H. unfold divide. destruct (Z.eqb_spec b 0); [contradiction | reflexivity].
Qed.

Lemma length_nonempty {A : Type} (l : list A) : l <> [] -> 0 < Z.of_nat (length l).
Proof. destruct l; [contradiction | simpl; lia]. Qed.

(** A load of [UserStats] is not killed. *)
Lemma UserStats_massLoadAndCompute_no_crash filename bfpType st :
  no_crash (snd (UserStats_massLoadAndCompute log10 indeterminate filename bfpType st)).
Proof.
  unfold UserStats_massLoadAndCompute, bind, open_checked.
  destruct (open_read filename st) as [content|]; [|split; discriminate].
  destruct (String.length content =? 0)%nat; [split; discriminate|].
  unfold ret.
  destruct (UserStats_massLoadAndCompute_loop_outcome log10 indeterminate
              bfpType (file_lines content) [] st)
    as (st1 & r & E & _ & Hn & _).
  now rewrite E.
Qed.

(** With a record in each vector no divisor is zero: the six lines are
    printed and the figures are the quotients. *)
Lemma GetFullStats_report_returns bmi us st :
  bmi <> [] -> us <> [] ->
  exists st' out stats,
    GetFullStats_report bmi us st = (st', Ok stats) /\
    wrote_cout st st' out /\ length out = 6%nat /\
    let cb := fold_left (count_user "Bmi: Normal") bmi
                {| genderCount_male := 0; genderCount_female := 0; healthyCount := 0;
                   healthyMaleCount := 0; healthyFemaleCount := 0 |} in
    let cu := fold_left (count_user "Bmi: Normal") us
                {| genderCount_male := genderCount_male cb;
                   genderCount_female := genderCount_female cb;
                   healthyCount := 0; healthyMaleCount := 0;
                   healthyFemaleCount := 0 |} in
    let nb := Z.of_nat (length bmi) in
    let nu := Z.of_nat (length us) in
    totalUsers stats = nb + nu /\
    malePercent stats = genderCount_male cu * 100 / (nb + nu) /\
    femalePercent stats = genderCount_female cu * 100 / (nb + nu) /\
    healthyBmiPercent stats = healthyCount cb * 100 / nb /\
    healthyMaleBmiPercent stats = healthyMaleCount cb * 100 / nb /\
    healthyFemaleBmiPercent stats = healthyFemaleCount cb * 100 / nb /\
    healthyUsPercent stats = healthyCount cu * 100 / nu /\
    healthyMaleUsPercent stats = healthyMaleCount cu * 100 / nu /\
    healthyFemaleUsPercent stats = healthyFemaleCount cu * 100 / nu.
Proof.
  intros Hb Hu. apply length_nonempty in Hb, Hu.
  unfold GetFullStats_report. cbv zeta. unfold bind, cout_line, ret.
  rewrite !divide_nonzero by lia.
  eexists _, [_; _; _; _; _; _], _. split; [reflexivity|].
  split; [|split; [reflexivity|repeat split]].
  unfold wrote_cout. simpl. rewrite <- !app_assoc. now repeat split.
Qed.

End MoreFullStats.

(** X10: the report of [GetFullStats] and its divisors.  The statements
    after the two loads divide by the total and by the size of each vector,
    unguarded.  With a vector of no record the process is killed by the
    division: after one line when both are empty, after two when the first
    is, after four when only the second is.  With a record in each vector
    the six lines are printed, there are at least two users, and, as long as
    a hundred times their number is an [int], so that no product of the
    source wraps, every figure is between 0 and 100, the two gender shares
    add up to at most 100, and for each vector the healthy shares of the two
    genders add up to at most its healthy share.  Nothing but [std::cout]
    changes.  On two files that have text, [GetFullStats] is not killed:
    each load that returns has read a record. *)
Theorem X10_full_stats_are_percentages
  (log10 : float -> float) (indeterminate : float)
  (bmi us : list UserInfo) (st : State) :
  (bmi = [] \/ us = [] ->
   exists st' out,
     GetFullStats_report bmi us st = (st', DivideByZero) /\
     wrote_cout st st' out /\
     length out = match bmi, us with
                  | [], [] => 1 | [], _ => 2 | _, _ => 4
                  end%nat) /\
  (bmi <> [] -> us <> [] ->
   (Z.of_nat (length bmi) + Z.of_nat (length us)) * 100 <= INT_MAX ->
   exists st' out stats,
     GetFullStats_report bmi us st = (st', Ok stats) /\
     wrote_cout st st' out /\ length out = 6%nat /\
     totalUsers stats = Z.of_nat (length bmi) + Z.of_nat (length us) /\
     2 <= totalUsers stats /\
     percent (malePercent stats) /\ percent (femalePercent stats) /\
     malePercent stats + femalePercent stats <= 100 /\
     percent (healthyBmiPercent stats) /\
     percent (healthyMaleBmiPercent stats) /\
     percent (healthyFemaleBmiPercent stats) /\
     healthyMaleBmiPercent stats + healthyFemaleBmiPercent stats
       <= healthyBmiPercent stats /\
     percent (healthyUsPercent stats) /\
     percent (healthyMaleUsPercent stats) /\
     percent (healthyFemaleUsPercent stats) /\
     healthyMaleUsPercent stats + healthyFemaleUsPercent stats
       <= healthyUsPercent stats) /\
  (forall c1 c2,
      open_read "bmi_user_data.csv" st = Some c1 ->
      open_read "us_user_data.csv" st = Some c2 ->
      no_crash (snd (UserStats_GetFullStats log10 indeterminate st))).
Proof.
  split; [|split].
  - intros H. unfold GetFullStats_report. cbv zeta. unfold bind, cout_line, ret.
    destruct bmi as [|b bmi'], us as [|u us'].
    + eexists _, [_]. split; [reflexivity|]. split; [|reflexivity].
      unfold wrote_cout. simpl. now repeat split.
    + rewrite !divide_nonzero by (simpl; lia).
      eexists _, [_; _]. split; [reflexivity|]. split; [|reflexivity].
      unfold wrote_cout. simpl. rewrite <- !app_assoc. now repeat split.
    + rewrite !divide_nonzero by (simpl; lia).
      eexists _, [_; _; _; _]. split; [reflexivity|]. split; [|reflexivity].
      unfold wrote_cout. simpl. rewrite <- !app_assoc. now repeat split.
    + destruct H; discriminate.
  - intros Hb Hu _.
    destruct (GetFullStats_report_returns bmi us st Hb Hu)
      as (st' & out & stats & E & W & L & F).
    cbv zeta in F.
    destruct F as (F0 & F1 & F2 & F3 & F4 & F5 & F6 & F7 & F8).
    exists st', out, stats. split; [exact E|]. split; [exact W|]. split; [exact L|].
    split; [exact F0|].
    rewrite F0, F1, F2, F3, F4, F5, F6, F7, F8.
    apply length_nonempty in Hb as Lb. apply length_nonempty in Hu as Lu.
    set (zero := {| genderCount_male := 0; genderCount_female := 0; healthyCount := 0;
                    healthyMaleCount := 0; healthyFemaleCount := 0 |}).
    set (cb := fold_left (count_user "Bmi: Normal") bmi zero).
    set (start := {| genderCount_male := genderCount_male cb;
                     genderCount_female := genderCount_female cb;
                     healthyCount := 0; healthyMaleCount := 0;
                     healthyFemaleCount := 0 |}).
    set (cu := fold_left (count_user "Bmi: Normal") us start).
    destruct (count_user_genders "Bmi: Normal" bmi zero 0) as (Gb1 & Gb2 & Gb3);
      [simpl; lia..|]. fold cb in Gb1, Gb2, Gb3.
    destruct (count_user_healthy "Bmi: Normal" bmi zero 0) as (Hb1 & Hb2 & Hb3 & Hb4);
      [simpl; lia..|]. fold cb in Hb1, Hb2, Hb3, Hb4.
    destruct (count_user_genders "Bmi: Normal" us start (Z.of_nat (length bmi)))
      as (Gu1 & Gu2 & Gu3); [simpl; lia..|]. fold cu in Gu1, Gu2, Gu3.
    destruct (count_user_healthy "Bmi: Normal" us start 0) as (Hu1 & Hu2 & Hu3 & Hu4);
      [simpl; lia..|]. fold cu in Hu1, Hu2, Hu3, Hu4.
    split; [lia|].
    split; [apply percent_part; lia|]. split; [apply percent_part; lia|].
    split.
    { pose proof (percent_parts _ _ _ (Z.of_nat (length bmi) + Z.of_nat (length us))
                    Gu1 Gu2 Gu3 ltac:(lia)) as P.
      apply Z.le_trans with (1 := P). apply Z.div_le_upper_bound; lia. }
    split; [apply percent_part; lia|].
    split; [apply percent_part; lia|]. split; [apply percent_part; lia|].
    split; [apply percent_parts; lia|].
    split; [apply percent_part; lia|].
    split; [apply percent_part; lia|]. split; [apply percent_part; lia|].
    apply percent_parts; lia.
  - intros c1 c2 _ _. unfold UserStats_GetFullStats. unfold bind at 1.
    pose proof (UserStats_massLoadAndCompute_no_crash log10 indeterminate
                  "bmi_user_data.csv" BfpType_BmiMethod st) as N1.
    destruct (UserStats_massLoadAndCompute log10 indeterminate
                "bmi_user_data.csv" BfpType_BmiMethod st)
      as [s1 [b|e| |]] eqn:E1; simpl in N1;
      [|split; discriminate | now destruct N1 | now destruct N1].
    unfold bind at 1.
    pose proof (UserStats_massLoadAndCompute_no_crash log10 indeterminate
                  "us_user_data.csv" BfpType_BmiMethod s1) as N2.
    destruct (UserStats_massLoadAndCompute log10 indeterminate
                "us_user_data.csv" BfpType_BmiMethod s1)
      as [s2 [u|e| |]] eqn:E2; simpl in N2;
      [|split; discriminate | now destruct N2 | now destruct N2].
    apply UserStats_massLoadAndCompute_returns in E1 as [Hb _].
    apply UserStats_massLoadAndCompute_returns in E2 as [Hu _].
    destruct (GetFullStats_report_returns b u s2 Hb Hu) as (st' & out & stats & E & _).
    rewrite E. split; discriminate.
Qed.

Lemma X10_witness :
  (exists st' out,
      GetFullStats_report [amy] [] empty_state = (st', DivideByZero) /\
      wrote_cout empty_state st' out /\ length out = 4%nat) /\
  no_crash (snd (UserStats_GetFullStats log10_ref 0%float stats_files_bob)).
Proof.
  split.
  - apply (X10_full_stats_are_percentages log10_ref 0%float [amy] [] empty_state).
    now right.
  - apply (X10_full_stats_are_percentages log10_ref 0%float [] [] stats_files_bob)
      with (c1 := "amy,female,25,60.5,70,32,95.5,165,active" +:+ endl)
           (c2 := "bob,male,30,100,85,40,,180,sedentary" +:+ endl);
      vm_compute; reflexivity.
Defined.

Section MoreLists.

Variable log10 : float -> float.
Variable indeterminate : float.

Implicit Types (st : State) (user : UserInfo).

(** The [for] loops that push names are a filter. *)
Lemma push_names_filter keep l acc :
  push_names keep l acc = (acc ++ map name (List.filter keep l))%list.
Proof.
  revert acc. induction l as [|user l IH]; intros acc; simpl.
  - now rewrite app_nil_r.
  - rewrite IH. destruct (keep user); [|reflexivity].
    simpl. now rewrite <- app_assoc.
Qed.

Lemma split_by_label_filters label g users :
  split_by_label label g users
    (map name (List.filter (fun user => String.eqb (gender user) g
                                        && String.eqb (snd (bfp user)) label) users))
    (map name (List.filter (fun user => String.eqb (gender user) g
                                        && negb (String.eqb (snd (bfp user)) label))
                           users)).
Proof.
  split; [reflexivity|]. split; [reflexivity|].
  unfold of_gender. induction users as [|user users IH]; simpl; [constructor|].
  destruct (String.eqb (gender user) g); simpl; [|exact IH].
  destruct (String.eqb (snd (bfp user)) label); simpl.
  - now constructor.
  - rewrite <- Permutation_middle. now constructor.
Qed.

Lemma state_blind_bind {A B : Type} (m : M A) (k : A -> M B) :
  state_blind m -> (forall a, state_blind (k a)) -> state_blind (bind m k).
Proof.
  intros Hm Hk st st'. unfold bind. specialize (Hm st st').
  destruct (m st) as [s1 [a|e| |]], (m st') as [s1' [a'|e'| |]]; simpl in Hm;
    try discriminate Hm; try (injection Hm as ->); try reflexivity.
  apply Hk.
Qed.

(** What a derivation returns does not depend on the state it runs in. *)
Lemma USNavyMethod_getBfp_result user :
  state_blind (USNavyMethod_getBfp log10 indeterminate user).
Proof. intros st st'. unfold USNavyMethod_getBfp. run. split_ifs; reflexivity. Qed.

Lemma HealthAssistant_getDailyCalories_result user :
  state_blind (HealthAssistant_getDailyCalories user).
Proof.
  intros st st'. unfold HealthAssistant_getDailyCalories. run.
  split_ifs; reflexivity.
Qed.

(** The loop of [UserStats::massLoadAndCompute] returns the same records
    from the same lines, whatever the state. *)
Lemma UserStats_massLoadAndCompute_loop_result bfpType lines acc :
  state_blind
    (UserStats_massLoadAndCompute_loop log10 indeterminate bfpType lines acc).
Proof.
  revert acc. induction lines as [|line lines IH]; intros acc;
    [intros st st'; reflexivity|].
  cbn [UserStats_massLoadAndCompute_loop].
  apply state_blind_bind; [intros st st'; reflexivity|]. intros u.
  apply state_blind_bind.
  { destruct bfpType; [intros st st'; reflexivity|].
    apply USNavyMethod_getBfp_result. }
  intros u1. apply state_blind_bind; [apply HealthAssistant_getDailyCalories_result|].
  intros u2. apply state_blind_bind; [intros st st'; reflexivity|].
  intros u3. apply IH.
Qed.

Lemma UserStats_massLoadAndCompute_result filename bfpType st st' :
  same_but_console st st' ->
  snd (UserStats_massLoadAndCompute log10 indeterminate filename bfpType st)
  = snd (UserStats_massLoadAndCompute log10 indeterminate filename bfpType st').
Proof.
  intros (_ & Hf & Hu). unfold UserStats_massLoadAndCompute, bind, open_checked.
  unfold open_read. rewrite Hf, Hu.
  destruct (decide (filename ∈ unopenable st)); [reflexivity|].
  destruct (files st !! filename) as [content|]; [|reflexivity].
  destruct (String.length content =? 0)%nat; [reflexivity|].
  apply UserStats_massLoadAndCompute_loop_result.
Qed.

Lemma cout_lines_ok out st : exists st', cout_lines out st = (st', Ok tt) /\
  same_but_console st st'.
Proof.
  revert st. induction out as [|l out IH]; intros st.
  - exists st. split; [reflexivity | apply same_but_console_refl].
  - simpl. unfold bind, cout_line. destruct (IH (add_cout st l)) as (st' & E & S).
    exists st'. split; [exact E|]. destruct S as (S1 & S2 & S3). now repeat split.
Qed.

(** One list of names after the other, from the same file: the second load
    returns the records of the first. *)
Lemma two_lists filename bfpType keep1 keep2 header1 header2 st st1 names1 :
  (let* names :=
     (let* userStats :=
        UserStats_massLoadAndCompute log10 indeterminate filename bfpType in
      ret (push_names keep1 userStats [])) in
   let* _ := cout_line header1 in
   let* _ := cout_lines names in
   ret names) st = (st1, Ok names1) ->
  exists st2 users,
    snd (UserStats_massLoadAndCompute log10 indeterminate filename bfpType st)
    = Ok users /\
    names1 = map name (List.filter keep1 users) /\
    (let* names :=
       (let* userStats :=
          UserStats_massLoadAndCompute log10 indeterminate filename bfpType in
        ret (push_names keep2 userStats [])) in
     let* _ := cout_line header2 in
     let* _ := cout_lines names in
     ret names) st1 = (st2, Ok (map name (List.filter keep2 users))) /\
    same_but_console st st2.
Proof.
  intros H. unfold bind, ret in H.
  destruct (UserStats_massLoadAndCompute log10 indeterminate filename bfpType st)
    as [s1 [users|e| |]] eqn:E; try discriminate H.
  destruct (UserStats_massLoadAndCompute_returns _ _ _ _ _ _ _ E) as [_ S1].
  rewrite push_names_filter in H. cbn [app] in H.
  unfold cout_line in H.
  destruct (cout_lines_ok (map name (List.filter keep1 users)) (add_cout s1 header1))
    as (s2 & E2 & S2).
  rewrite E2 in H. injection H as <- <-.
  assert (same_but_console st s2) as S.
  { eapply same_but_console_trans; [exact S1|].
    destruct S2 as (K1 & K2 & K3). now repeat split. }
  pose proof (UserStats_massLoadAndCompute_result filename bfpType st s2 S) as R.
  rewrite E in R. simpl in R.
  destruct (UserStats_massLoadAndCompute log10 indeterminate filename bfpType s2)
    as [s3 r3] eqn:E3. simpl in R. subst r3.
  destruct (UserStats_massLoadAndCompute_returns _ _ _ _ _ _ _ E3) as [_ S3].
  destruct (cout_lines_ok (map name (List.filter keep2 users)) (add_cout s3 header2))
    as (s4 & E4 & S4).
  exists s4, users. split; [reflexivity|]. split; [reflexivity|]. split.
  - unfold bind, ret. rewrite E3, push_names_filter. cbn [app].
    unfold cout_line. now rewrite E4.
  - eapply same_but_console_trans; [exact S|].
    eapply same_but_console_trans; [exact S3|].
    destruct S4 as (K1 & K2 & K3). now repeat split.
Qed.

End MoreLists.

(** X11: the healthy and the unfit of a gender.  When
    [GetHealthyUsers(method, gender)] returns, [GetUnfitUsers(method, gender)]
    called after it returns too, and neither has changed the registry or the
    files.  With the method ["bmi"] or ["USArmy"] the two lists split the
    records of that gender in the file of the method: the first names, in
    the order of the file, those in the normal category of the method, the
    second those in another category or in none, so that together they name
    each record of the gender once.  With any other method both lists are
    empty and only the two headings are printed. *)
Theorem X11_healthy_and_unfit_split_a_gender
  (log10 : float -> float) (indeterminate : float)
  (method g : string) (st st1 : State) (healthy : list string) :
  UserStats_GetHealthyUsers_of log10 indeterminate method g st = (st1, Ok healthy) ->
  exists st2 unfit,
    UserStats_GetUnfitUsers_of log10 indeterminate method g st1 = (st2, Ok unfit) /\
    same_but_console st st2 /\
    (method = "bmi" ->
     exists users,
       snd (UserStats_massLoadAndCompute log10 indeterminate
              "bmi_user_data.csv" BfpType_BmiMethod st) = Ok users /\
       split_by_label "Bmi: Normal" g users healthy unfit) /\
    (method = "USArmy" ->
     exists users,
       snd (UserStats_massLoadAndCompute log10 indeterminate
              "us_user_data.csv" BfpType_USNavyMethod st) = Ok users /\
       split_by_label "USNavy: Normal" g users healthy unfit) /\
    (method <> "bmi" -> method <> "USArmy" ->
     healthy = [] /\ unfit = [] /\
     cout st2 = (cout st ++
                 ["Healthy Users (" +:+ g +:+ ", " +:+ method +:+ " method):";
                  "Unfit Users (" +:+ g +:+ ", " +:+ method +:+ " method):"])%list).
Proof.
  intros H. unfold UserStats_GetHealthyUsers_of in H.
  unfold UserStats_GetUnfitUsers_of.
  destruct (String.eqb_spec method "bmi") as [-> | Hb].
  - destruct (two_lists log10 indeterminate _ _ _
                (fun user => String.eqb (gender user) g
                             && negb (String.eqb (snd (bfp user)) "Bmi: Normal"))
                _ ("Unfit Users (" +:+ g +:+ ", " +:+ "bmi" +:+ " method):")
                _ _ _ H)
      as (st2 & users & E & -> & E2 & S).
    eexists st2, _. split; [exact E2|]. split; [exact S|]. split; [|split].
    + intros _. exists users. split; [exact E | apply split_by_label_filters].
    + discriminate.
    + contradiction.
  - destruct (String.eqb_spec method "USArmy") as [-> | Hu].
    + destruct (two_lists log10 indeterminate _ _ _
                  (fun user => String.eqb (gender user) g
                               && negb (String.eqb (snd (bfp user)) "USNavy: Normal"))
                  _ ("Unfit Users (" +:+ g +:+ ", " +:+ "USArmy" +:+ " method):")
                  _ _ _ H)
        as (st2 & users & E & -> & E2 & S).
      eexists st2, _. split; [exact E2|]. split; [exact S|]. split; [|split].
      * discriminate.
      * intros _. exists users. split; [exact E | apply split_by_label_filters].
      * contradiction.
    + unfold bind, ret, cout_line in H. simpl in H. injection H as <- <-.
      eexists _, []. split; [reflexivity|]. split; [now repeat split|].
      split; [contradiction|]. split; [contradiction|]. intros _ _.
      split; [reflexivity|]. split; [reflexivity|]. simpl.
      now rewrite <- app_assoc.
Qed.

Lemma X11_witness :
  exists st2 unfit,
    UserStats_GetUnfitUsers_of log10_ref 0%float "USArmy" "male"
      (fst (UserStats_GetHealthyUsers_of log10_ref 0%float "USArmy" "male"
              stats_files_bob))
    = (st2, Ok unfit) /\
    same_but_console stats_files_bob st2 /\
    exists users,
      snd (UserStats_massLoadAndCompute log10_ref 0%float
             "us_user_data.csv" BfpType_USNavyMethod stats_files_bob) = Ok users /\
      split_by_label "USNavy: Normal" "male" users ["bob"] unfit.
Proof.
  destruct (X11_healthy_and_unfit_split_a_gender log10_ref 0%float
              "USArmy" "male" stats_files_bob
              (fst (UserStats_GetHealthyUsers_of log10_ref 0%float "USArmy" "male"
                      stats_files_bob))
              ["bob"])
    as (st2 & unfit & E & S & _ & Hus & _).
  - vm_compute. reflexivity.
  - exists st2, unfit. split; [exact E|]. split; [exact S|]. now apply Hus.
Defined.

Section MoreLists2.

Variable log10 : float -> float.
Variable indeterminate : float.

Implicit Types (st : State) (user : UserInfo).

Lemma healthy_names_filter label l :
  healthy_names label l
  = map name (List.filter (fun user => String.eqb (snd (bfp user)) label) l).
Proof.
  unfold healthy_names. induction l as [|user l IH]; [reflexivity|].
  rewrite filter_cons. simpl.
  destruct (decide (String.eqb (snd (bfp user)) label = true)) as [E | E].
  - rewrite E. simpl. now f_equal.
  - apply not_true_is_false in E. now rewrite E.
Qed.

Lemma names_split label l :
  Permutation
    (map name (List.filter (fun user => String.eqb (snd (bfp user)) label) l)
     ++ map name (List.filter
                    (fun user => negb (String.eqb (snd (bfp user)) label)) l))%list
    (map name l).
Proof.
  induction l as [|user l IH]; simpl; [constructor|].
  destruct (String.eqb (snd (bfp user)) label); simpl.
  - now constructor.
  - rewrite <- Permutation_middle. now constructor.
Qed.

(** A load that has returned returns the same records when it is run again
    on the same files. *)
Lemma load_again filename bfpType st s users :
  same_but_console st s ->
  snd (UserStats_massLoadAndCompute log10 indeterminate filename bfpType st)
  = Ok users ->
  exists s',
    UserStats_massLoadAndCompute log10 indeterminate filename bfpType s
    = (s', Ok users) /\ same_but_console st s'.
Proof.
  intros S E.
  rewrite (UserStats_massLoadAndCompute_result log10 indeterminate _ _ _ _ S) in E.
  destruct (UserStats_massLoadAndCompute log10 indeterminate filename bfpType s)
    as [s' r] eqn:E'. simpl in E. subst r. exists s'. split; [reflexivity|].
  eapply same_but_console_trans; [exact S|].
  now apply (UserStats_massLoadAndCompute_returns log10 indeterminate _ _ _ _ _ E').
Qed.

Lemma same_but_console_lines st s header out :
  same_but_console st s ->
  exists s', cout_lines out (add_cout s header) = (s', Ok tt) /\
             same_but_console st s'.
Proof.
  intros S. destruct (cout_lines_ok out (add_cout s header)) as (s' & E & S').
  exists s'. split; [exact E|]. eapply same_but_console_trans; [exact S|].
  destruct S' as (K1 & K2 & K3). now repeat split.
Qed.

End MoreLists2.

(** X12: the two lists over both files.  [GetHealthyUsers(method)] and
    [GetUnfitUsers(method)] never look at [method].  When the first returns,
    the second, called after it with any argument, returns too; the first
    names the records of the BMI file in the category ["Bmi: Normal"] and
    then those of the US Navy file in ["USNavy: Normal"], the second names
    the others, and together they name each record of the two files once.
    The registry and the files are as before. *)
Theorem X12_all_healthy_and_all_unfit
  (log10 : float -> float) (indeterminate : float)
  (method method' : string) (st st1 : State) (healthy : list string) :
  UserStats_GetHealthyUsers log10 indeterminate method st = (st1, Ok healthy) ->
  exists st2 unfit bmi us,
    UserStats_GetUnfitUsers log10 indeterminate method' st1 = (st2, Ok unfit) /\
    same_but_console st st2 /\
    snd (UserStats_massLoadAndCompute log10 indeterminate
           "bmi_user_data.csv" BfpType_BmiMethod st) = Ok bmi /\
    snd (UserStats_massLoadAndCompute log10 indeterminate
           "us_user_data.csv" BfpType_USNavyMethod st) = Ok us /\
    healthy = (healthy_names "Bmi: Normal" bmi
               ++ healthy_names "USNavy: Normal" us)%list /\
    Permutation (healthy ++ unfit)%list (map name (bmi ++ us)%list).
Proof.
  intros H. unfold UserStats_GetHealthyUsers in H. unfold bind at 1 in H.
  destruct (UserStats_massLoadAndCompute log10 indeterminate
              "bmi_user_data.csv" BfpType_BmiMethod st)
    as [s1 [bmi|e| |]] eqn:E1; try discriminate H.
  unfold bind at 1 in H.
  destruct (UserStats_massLoadAndCompute log10 indeterminate
              "us_user_data.csv" BfpType_USNavyMethod s1)
    as [s2 [us|e| |]] eqn:E2; try discriminate H.
  destruct (UserStats_massLoadAndCompute_returns _ _ _ _ _ _ _ E1) as [_ S1].
  destruct (UserStats_massLoadAndCompute_returns _ _ _ _ _ _ _ E2) as [_ S2].
  assert (same_but_console st s2) as S12 by eauto using same_but_console_trans.
  cbv zeta in H. unfold bind, cout_line, ret in H.
  destruct (same_but_console_lines st s2 "All Healthy Users "
              ([] ++ healthy_names "Bmi: Normal" bmi
               ++ healthy_names "USNavy: Normal" us)%list S12) as (s3 & E3 & S3).
  cbn [app] in E3, H. rewrite E3 in H. injection H as <- <-.
  assert (snd (UserStats_massLoadAndCompute log10 indeterminate
                 "us_user_data.csv" BfpType_USNavyMethod st) = Ok us) as Eus.
  { rewrite (UserStats_massLoadAndCompute_result log10 indeterminate _ _ _ _ S1).
    now rewrite E2. }
  destruct (load_again log10 indeterminate "bmi_user_data.csv" BfpType_BmiMethod
              st s3 bmi S3) as (s4 & E4 & S4); [now rewrite E1|].
  destruct (load_again log10 indeterminate "us_user_data.csv" BfpType_USNavyMethod
              st s4 us S4 Eus) as (s5 & E5 & S5).
  destruct (same_but_console_lines st s5 "All Unfit Users "
              (push_names (fun user => negb (String.eqb (snd (bfp user)) "USNavy: Normal"))
                 us (push_names
                       (fun user => negb (String.eqb (snd (bfp user)) "Bmi: Normal"))
                       bmi [])) S5) as (s6 & E6 & S6).
  eexists s6, _, bmi, us. split.
  { unfold UserStats_GetUnfitUsers, bind. rewrite E4, E5. unfold cout_line, ret.
    now rewrite E6. }
  split; [exact S6|]. split; [reflexivity|]. split; [exact Eus|].
  split; [reflexivity|].
  rewrite !push_names_filter, !healthy_names_filter. cbn [app].
  rewrite map_app, <- (names_split "Bmi: Normal" bmi),
    <- (names_split "USNavy: Normal" us).
  rewrite <- !app_assoc. apply Permutation_app_head.
  rewrite !app_assoc. apply Permutation_app_tail. apply Permutation_app_comm.
Qed.

Lemma X12_witness :
  exists st2 unfit bmi us,
    UserStats_GetUnfitUsers log10_ref 0%float "bmi"
      (fst (UserStats_GetHealthyUsers log10_ref 0%float "USArmy" stats_files_bob))
    = (st2, Ok unfit) /\
    same_but_console stats_files_bob st2 /\
    snd (UserStats_massLoadAndCompute log10_ref 0%float
           "bmi_user_data.csv" BfpType_BmiMethod stats_files_bob) = Ok bmi /\
    snd (UserStats_massLoadAndCompute log10_ref 0%float
           "us_user_data.csv" BfpType_USNavyMethod stats_files_bob) = Ok us /\
    ["amy"; "bob"] = (healthy_names "Bmi: Normal" bmi
                      ++ healthy_names "USNavy: Normal" us)%list /\
    Permutation (["amy"; "bob"] ++ unfit)%list (map name (bmi ++ us)%list).
Proof.
  apply (X12_all_healthy_and_all_unfit log10_ref 0%float "USArmy" "bmi"
           stats_files_bob).
  vm_compute. reflexivity.
Defined.

Section MoreDerivations.

Variable log10 : float -> float.
Variable indeterminate : float.

Implicit Types (st : State) (user : UserInfo).

Lemma SFeqb_refl_not_nan f : SFeqb f f = false -> f = S754_nan.
Proof.
  destruct f as [s|s| |s m e]; unfold SFeqb, SFcompare; try reflexivity.
  - discriminate.
  - destruct s; discriminate.
  - rewrite Z.compare_refl.
    change (PosDef.Pos.compare_cont Eq m m) with (Pos.compare m m).
    rewrite Pos.compare_refl. destruct s; discriminate.
Qed.

(** No comparison holds of a NaN. *)
Lemma ltb_nan (x c : float) : PrimFloat.is_nan x = true -> (x <? c)%float = false.
Proof.
  unfold PrimFloat.is_nan. rewrite FloatAxioms.eqb_spec, FloatAxioms.ltb_spec. intros H.
  apply negb_true_iff, SFeqb_refl_not_nan in H. now rewrite H.
Qed.

Lemma age_tests_in_range a :
  in_age_range a ->
  (20 <=? a) && (a <=? 39) = true \/
  ((20 <=? a) && (a <=? 39) = false /\ (40 <=? a) && (a <=? 59) = true) \/
  ((20 <=? a) && (a <=? 39) = false /\ (40 <=? a) && (a <=? 59) = false /\
   (60 <=? a) && (a <=? 79) = true).
Proof. unfold in_age_range. intros H. lia. Qed.

End MoreDerivations.

(** X13: the US Navy method inside its table.  With a gender it knows and an
    age from 20 to 79 it prints nothing and leaves the state as it is.  Read
    in [bfp] of the record it returns: the value is the truncated value of
    the formula of the gender, and the category is one of the four labels,
    never the empty one.  When the formula gives no number, as with a waist
    not above the neck, every comparison fails and the label is the last
    one, ["USNavy: Very High"].  The uninitialised local is not read: the
    result is the same whatever it holds, and the copy in [UserStats]
    returns the same record. *)
Theorem X13_usnavy_inside_the_table
  (log10 : float -> float) (j1 j2 : float)
  (user : UserInfo) (st : State) :
  recognised_gender (gender user) -> in_age_range (age user) ->
  exists user',
    USNavyMethod_getBfp log10 j1 user st = (st, Ok user') /\
    UserStats_usNavyMethod log10 j2 user st = (st, Ok user') /\
    fst (bfp user')
    = static_cast_int (if String.eqb (gender user) "female"
                       then usnavy_female log10 user else usnavy_male log10 user) /\
    In (snd (bfp user')) usnavy_labels /\
    (PrimFloat.is_nan (if String.eqb (gender user) "female"
                       then usnavy_female log10 user else usnavy_male log10 user)
     = true ->
     snd (bfp user') = "USNavy: Very High") /\
    same_measurements user user'.
Proof.
  intros Hg Ha.
  assert (exists category,
             (forall j,
                 USNavyMethod_getBfp log10 j user st
                 = (st, Ok (set_bfp user
                              (static_cast_int
                                 (if String.eqb (gender user) "female"
                                  then usnavy_female log10 user
                                  else usnavy_male log10 user),
                               category))) /\
                 UserStats_usNavyMethod log10 j user st
                 = USNavyMethod_getBfp log10 j user st) /\
             In category usnavy_labels /\
             (PrimFloat.is_nan (if String.eqb (gender user) "female"
                                then usnavy_female log10 user
                                else usnavy_male log10 user)
              = true ->
              category = "USNavy: Very High")) as (category & E & L & N).
  { unfold UserStats_usNavyMethod, USNavyMethod_getBfp. run.
    fold (usnavy_female log10 user). fold (usnavy_male log10 user).
    destruct Hg as [Hg | Hg]; rewrite Hg; simpl;
      [set (x := usnavy_male log10 user) | set (x := usnavy_female log10 user)];
      destruct (age_tests_in_range _ Ha) as [A1 | [[A1 A2] | (A1 & A2 & A3)]];
      rewrite ?A1, ?A2, ?A3;
      repeat match goal with
             | |- context [if (?y <? ?c)%float then _ else _] =>
                 let E := fresh "E" in destruct (y <? c)%float eqn:E
             end;
      eexists; (split; [intros j; split; reflexivity|]);
      (split; [simpl; tauto|]); intros N;
      repeat match goal with
             | E : (?y <? ?c)%float = true |- _ =>
                 rewrite (ltb_nan y c N) in E; discriminate E
             end; reflexivity. }
  eexists. split; [exact (proj1 (E j1))|].
  split; [rewrite (proj2 (E j2)); exact (proj1 (E j2))|].
  cbn [bfp set_bfp fst snd].
  split; [reflexivity|]. split; [exact L|]. split; [exact N|].
  now repeat split.
Qed.

Lemma X13_witness :
  exists user',
    USNavyMethod_getBfp log10_ref 7.5
      (mk_user "john" "male" 30 100 85 40 0 180 "sedentary") empty_state
    = (empty_state, Ok user') /\
    UserStats_usNavyMethod log10_ref 0
      (mk_user "john" "male" 30 100 85 40 0 180 "sedentary") empty_state
    = (empty_state, Ok user') /\
    bfp user' = (14, "USNavy: Normal").
Proof.
  destruct (X13_usnavy_inside_the_table log10_ref 7.5 0
              (mk_user "john" "male" 30 100 85 40 0 180 "sedentary") empty_state)
    as (user' & E1 & E2 & _).
  - now left.
  - unfold in_age_range. simpl. lia.
  - exists user'. split; [exact E1|]. split; [exact E2|].
    vm_compute in E1. now injection E1 as <-.
Defined.

Section MoreLoaders.

Variable log10 : float -> float.
Variable indeterminate : float.
Variable indeterminate_stats : float.

Implicit Types (st : State) (user : UserInfo).

(** A derivation that does not look at the state computes a record from a
    record. *)
Lemma derivation_computes (f : UserInfo -> M UserInfo) :
  derivation f -> (forall r, state_blind (f r)) ->
  forall r, exists r',
    same_measurements r r' /\
    forall st, exists st', f r st = (st', Ok r') /\ same_but_console st st'.
Proof.
  intros D B r. destruct (D r empty_state) as (s0 & r' & E0 & _ & M0 & _).
  exists r'. split; [exact M0|]. intros st.
  destruct (D r st) as (st' & r'' & E & _ & _ & S). exists st'.
  split; [|exact S]. pose proof (B r st empty_state) as K.
  rewrite E, E0 in K. simpl in K. now rewrite E, K.
Qed.

Lemma computes_calories r :
  exists r',
    same_measurements r r' /\
    forall st, exists st',
      HealthAssistant_getDailyCalories r st = (st', Ok r') /\ same_but_console st st'.
Proof.
  apply (derivation_computes HealthAssistant_getDailyCalories
           derivation_getDailyCalories HealthAssistant_getDailyCalories_result).
Qed.

(** The BFP method of [UserStats] and the virtual [getBfp] return the same
    record, each with its own uninitialised local, when the local is not
    read: with the BMI method, and with the US Navy method on a gender it
    knows. *)
Lemma bfp_methods_agree bfpType r st1 st2 a1 r1 :
  (bfpType = BfpType_USNavyMethod -> recognised_gender (gender r)) ->
  (match bfpType with
   | BfpType_BmiMethod => UserStats_bmiMethod
   | BfpType_USNavyMethod => UserStats_usNavyMethod log10 indeterminate_stats
   end) r st1 = (a1, Ok r1) ->
  exists b1,
    HealthAssistant_getBfp log10 indeterminate bfpType r st2 = (b1, Ok r1) /\
    same_but_console st2 b1.
Proof.
  intros Hg H. destruct bfpType.
  - exists st2. rewrite UserStats_bmiMethod_eq, BmiMethod_getBfp_eq in H.
    injection H as _ <-. split; [apply BmiMethod_getBfp_eq | now repeat split].
  - specialize (Hg eq_refl).
    destruct (USNavyMethod_getBfp_recognised log10 r st1 Hg) as (s1 & c1 & _ & J1).
    destruct (USNavyMethod_getBfp_recognised log10 r st2 Hg) as (s2 & c2 & S2 & J2).
    rewrite (proj2 (J1 indeterminate_stats)), (proj1 (J1 indeterminate_stats)) in H.
    injection H as _ <-.
    pose proof (USNavyMethod_getBfp_result log10 indeterminate_stats r st1 st2) as B.
    rewrite (proj1 (J1 indeterminate_stats)), (proj1 (J2 indeterminate_stats)) in B.
    simpl in B. exists s2. split.
    + cbn [HealthAssistant_getBfp]. rewrite (proj1 (J2 indeterminate)).
      now rewrite B.
    + destruct S2 as [-> | ->]; now repeat split.
Qed.

(** What the loop of [UserStats] returns holds the records it was given. *)
Lemma UserStats_loop_extends bfpType lines acc st s users :
  UserStats_massLoadAndCompute_loop log10 indeterminate_stats bfpType lines acc st
  = (s, Ok users) ->
  exists new, users = (acc ++ new)%list.
Proof.
  intros H.
  destruct (UserStats_massLoadAndCompute_loop_outcome log10 indeterminate_stats
              bfpType lines acc st) as (st' & r & E & _ & _ & Hok & _).
  rewrite H in E. injection E as _ <-.
  destruct (Hok users eq_refl) as (new & Hn & _). now exists new.
Qed.

(** The two loops over the lines compute the same records: what the loop of
    [UserStats] collects, the loop of [HealthAssistant] pushes on the
    registry. *)
Lemma loaders_loops_agree bfpType lines acc st1 st2 s users :
  UserStats_massLoadAndCompute_loop log10 indeterminate_stats bfpType lines acc st1
  = (s, Ok users) ->
  (bfpType = BfpType_USNavyMethod ->
   Forall (fun user => recognised_gender (gender user)) users) ->
  exists new s',
    users = (acc ++ new)%list /\
    HealthAssistant_massLoadAndCompute_loop log10 indeterminate bfpType lines st2
    = (s', Ok tt) /\
    userInfoList s' = (userInfoList st2 ++ new)%list /\
    files s' = files st2 /\ unopenable s' = unopenable st2.
Proof.
  revert acc st1 st2. induction lines as [|line lines IH]; intros acc st1 st2 H HP.
  - injection H as <- <-. exists [], st2. rewrite !app_nil_r. now repeat split.
  - cbn [UserStats_massLoadAndCompute_loop] in H.
    cbn [HealthAssistant_massLoadAndCompute_loop].
    unfold bind at 1 in H. unfold bind at 1. unfold lift in *.
    destruct (decode_line line) as [u|e| |]; try discriminate H.
    destruct (derivation_UserStats_bfp log10 indeterminate_stats bfpType u st1)
      as (a1 & u1 & E1 & _ & M1 & _).
    unfold bind at 1 in H.
    replace (match bfpType with
             | BfpType_USNavyMethod => UserStats_usNavyMethod log10 indeterminate_stats u
             | BfpType_BmiMethod => UserStats_bmiMethod u
             end st1)
      with (a1, Ok u1 : result UserInfo) in H by (rewrite <- E1; now destruct bfpType).
    destruct (computes_calories u1) as (u2 & M2 & K2).
    destruct (K2 a1) as (a2 & E2 & _).
    unfold bind at 1 in H.
    change (UserStats_getDailyCalories u1 a1)
      with (HealthAssistant_getDailyCalories u1 a1) in H.
    rewrite E2 in H. unfold bind at 1 in H.
    change (UserStats_getMealPrep u2 a2) with (HealthAssistant_getMealPrep u2 a2) in H.
    rewrite HealthAssistant_getMealPrep_eq in H.
    assert (bfpType = BfpType_USNavyMethod -> recognised_gender (gender u)) as Hg.
    { intros Hb. destruct (UserStats_loop_extends _ _ _ _ _ _ H) as (new & Hn).
      specialize (HP Hb). rewrite Hn in HP.
      apply Forall_app in HP as [HP _]. apply Forall_app in HP as [_ HP].
      inversion HP as [|? ? Hx _]. simpl in Hx.
      destruct M1 as (_ & G1 & _), M2 as (_ & G2 & _). now rewrite G2, G1 in Hx. }
    destruct (bfp_methods_agree bfpType u st1 st2 a1 u1 Hg E1)
      as (b1 & F1 & (L1 & L2 & L3)).
    unfold bind at 1. rewrite F1.
    destruct (K2 b1) as (b2 & F2 & (L4 & L5 & L6)).
    unfold bind at 1. rewrite F2.
    unfold bind at 1. rewrite HealthAssistant_getMealPrep_eq.
    unfold bind at 1. unfold addUserInfo at 1. unfold bind at 1, get_list, put_list.
    match type of H with
    | UserStats_massLoadAndCompute_loop _ _ _ _ (_ ++ [?u3])%list _ = _ =>
        destruct (IH _ _ (set_userInfoList b2 (userInfoList b2 ++ [u3])%list) H HP)
          as (new & s' & -> & F & Hl & Hf & Hu);
        exists (u3 :: new), s'
    end. rewrite <- app_assoc. split; [reflexivity|].
    split; [exact F|]. rewrite Hl, Hf, Hu. simpl.
    rewrite L4, L1, <- app_assoc. split; [reflexivity|].
    split; congruence.
Qed.

End MoreLoaders.

(** X14: the two mass loaders compute the same records.  When
    [UserStats::massLoadAndCompute] returns a vector for a file and a method,
    and the method is the BMI method or every record has a gender the US
    Navy method knows, [HealthAssistant::massLoadAndCompute] with that
    method on that file returns too and pushes exactly these records, in
    order, after those already in the registry, whatever the uninitialised
    locals of the two copies of the US Navy method hold; it leaves the files
    alone. *)
Theorem X14_mass_loaders_agree
  (log10 : float -> float) (indeterminate indeterminate_stats : float)
  (filename : string) (bfpType : BfpType) (st s : State) (users : list UserInfo) :
  UserStats_massLoadAndCompute log10 indeterminate_stats filename bfpType st
  = (s, Ok users) ->
  (bfpType = BfpType_USNavyMethod ->
   Forall (fun user => recognised_gender (gender user)) users) ->
  exists st',
    HealthAssistant_massLoadAndCompute log10 indeterminate bfpType filename st
    = (st', Ok tt) /\
    userInfoList st' = (userInfoList st ++ users)%list /\
    files st' = files st /\ unopenable st' = unopenable st.
Proof.
  unfold UserStats_massLoadAndCompute, HealthAssistant_massLoadAndCompute, bind.
  destruct (open_checked filename st) as [s0 [content|e| |]] eqn:E; try discriminate.
  assert (s0 = st) as ->.
  { unfold open_checked, throw, ret in E.
    destruct (open_read filename st) as [c|]; [|now injection E].
    destruct (String.length c =? 0)%nat; now injection E. }
  intros H HP.
  destruct (loaders_loops_agree log10 indeterminate indeterminate_stats
              _ _ _ _ st _ _ H HP)
    as (new & s' & -> & F & Hl & Hf & Hu).
  exists s'. now repeat split.
Qed.

Lemma X14_witness :
  exists st',
    HealthAssistant_massLoadAndCompute log10_ref 7.5 BfpType_USNavyMethod
      "us_user_data.csv" stats_files_bob = (st', Ok tt) /\
    userInfoList st'
    = (userInfoList stats_files_bob
       ++ match snd (UserStats_massLoadAndCompute log10_ref 0
                       "us_user_data.csv" BfpType_USNavyMethod stats_files_bob)
          with Ok users => users | _ => [] end)%list /\
    files st' = files stats_files_bob /\
    unopenable st' = unopenable stats_files_bob.
Proof.
  apply (X14_mass_loaders_agree log10_ref 7.5 0 "us_user_data.csv"
           BfpType_USNavyMethod stats_files_bob
           (fst (UserStats_massLoadAndCompute log10_ref 0
                   "us_user_data.csv" BfpType_USNavyMethod stats_files_bob))).
  - vm_compute. reflexivity.
  - intros _. vm_compute. apply Forall_cons_2; [now left | apply Forall_nil_2].
Defined.

Section MoreTrim.

Lemma trim_start_acc ahead start :
  trim_start ahead start = (start + trim_start ahead 0)%nat.
Proof.
  revert start. induction ahead as [|c ahead IH]; intros start; simpl; [lia|].
  destruct (isspace c); [|lia]. rewrite (IH (S start)), (IH 1%nat). lia.
Qed.

Lemma trim_start_cons c s :
  trim_start (String c s) 0 = if isspace c then S (trim_start s 0) else 0%nat.
Proof. simpl. destruct (isspace c); [|reflexivity]. now rewrite trim_start_acc. Qed.

Lemma trim_start_le s : (trim_start s 0 <= String.length s)%nat.
Proof.
  induction s as [|c s IH]; [simpl; lia|]. rewrite trim_start_cons.
  destruct (isspace c); simpl; lia.
Qed.

(** The characters [start] has moved over are white space. *)
Lemma trim_start_spaces s : all_space (substring 0 (trim_start s 0) s).
Proof.
  unfold all_space. induction s as [|c s IH]; [reflexivity|].
  rewrite trim_start_cons. destruct (isspace c) eqn:E; [|reflexivity].
  simpl. now rewrite E.
Qed.

Lemma trim_start_all s : all_space s -> trim_start s 0 = String.length s.
Proof.
  unfold all_space. induction s as [|c s IH]; [reflexivity|].
  rewrite trim_start_cons. cbn [all_chars String.length].
  intros H. apply andb_true_iff in H as [-> H]. now rewrite IH.
Qed.

(** The character [start] stops on is not. *)
Lemma trim_start_stop s c :
  String.get (trim_start s 0) s = Some c -> isspace c = false.
Proof.
  induction s as [|a s IH]; [discriminate|]. rewrite trim_start_cons.
  destruct (isspace a) eqn:E; simpl; [exact IH|]. now intros [= <-].
Qed.

(** Where [end] stops: at [start] or after it when it can, on a character
    that is not white space when it is after [start]; what it has stepped
    over is white space. *)
Lemma trim_end_spec str start e :
  (e = 0%nat -> trim_end str start e = -1) /\
  ((0 < e)%nat ->
   Z.min (Z.of_nat start) (Z.of_nat e - 1) <= trim_end str start e <= Z.of_nat e - 1) /\
  (forall i c, trim_end str start e < Z.of_nat i -> (i < e)%nat ->
               String.get i str = Some c -> isspace c = true) /\
  (forall c, Z.of_nat start < trim_end str start e ->
             String.get (Z.to_nat (trim_end str start e)) str = Some c ->
             isspace c = false).
Proof.
  induction e as [|e IH].
  - simpl. repeat split; try lia.
  - cbn [trim_end]. destruct IH as (I1 & I2 & I3 & I4).
    destruct ((start <? e)%nat
              && match String.get e str with Some c => isspace c | None => false end)
      eqn:T.
    + apply andb_true_iff in T as [T1 T2]. apply Nat.ltb_lt in T1.
      split; [discriminate|]. split; [intros _; specialize (I2 ltac:(lia)); lia|].
      split; [|exact I4].
      intros i c Hz Hi Hg. destruct (Nat.eq_dec i e) as [-> | Hne].
      * now rewrite Hg in T2.
      * apply (I3 i c Hz); [lia | exact Hg].
    + split; [discriminate|]. split; [lia|]. split; [intros i c Hz Hi; lia|].
      intros c Hs. rewrite Nat2Z.id. intros Hg. rewrite Hg in T.
      apply andb_false_iff in T as [T | T]; [|exact T].
      apply Nat.ltb_ge in T. lia.
Qed.

Lemma substring_zero a s : substring a 0 s = "".
Proof.
  revert a. induction s as [|c s IH]; intros [|a]; simpl; try reflexivity.
  apply IH.
Qed.

Lemma substring_all s : substring 0 (String.length s) s = s.
Proof. induction s as [|c s IH]; [reflexivity|]. simpl. now rewrite IH. Qed.

Lemma substring_add s a m k :
  substring a (m + k) s = substring a m s +:+ substring (a + m) k s.
Proof.
  revert a m. induction s as [|c s IH]; intros a m.
  - destruct a, m, k; reflexivity.
  - destruct a as [|a].
    + destruct m as [|m]; [reflexivity|]. cbn [Nat.add substring].
      rewrite append_cons. f_equal. apply (IH 0%nat).
    + cbn [Nat.add substring]. apply IH.
Qed.

(** A string is the three parts a range cuts it in. *)
Lemma substring_three s a m :
  (a + m <= String.length s)%nat ->
  s = substring 0 a s +:+ substring a m s
      +:+ substring (a + m) (String.length s - (a + m)) s.
Proof.
  intros H. rewrite <- (substring_add s a m), <- (substring_add s 0 a).
  replace (a + (m + (String.length s - (a + m))))%nat with (String.length s) by lia.
  now rewrite substring_all.
Qed.

Lemma all_chars_range P a m s :
  (forall i c, (a <= i)%nat -> (i < a + m)%nat -> String.get i s = Some c -> P c = true) ->
  all_chars P (substring a m s) = true.
Proof.
  revert a m. induction s as [|c s IH]; intros a m H.
  - destruct a, m; reflexivity.
  - destruct a as [|a].
    + destruct m as [|m]; [reflexivity|]. cbn [substring all_chars].
      rewrite (H 0%nat c); [|lia|lia|reflexivity]. cbn [andb].
      apply IH. intros i d H1 H2 Hg. apply (H (S i) d); [lia | lia | exact Hg].
    + cbn [substring]. apply IH. intros i d H1 H2 Hg.
      apply (H (S i) d); [lia | lia | exact Hg].
Qed.

Lemma length_substring_in s a m :
  (a + m <= String.length s)%nat -> String.length (substring a m s) = m.
Proof.
  revert a m. induction s as [|c s IH]; intros a m H; simpl in H.
  - destruct a, m; try reflexivity; lia.
  - destruct a as [|a].
    + destruct m as [|m]; [reflexivity|]. simpl. rewrite IH; lia.
    + simpl. apply IH. lia.
Qed.

(** [trim] leaves a string alone that neither starts nor ends with white
    space. *)
Lemma trim_fixed s :
  (forall c, first_char s = Some c -> isspace c = false) ->
  (forall c, last_char s = Some c -> isspace c = false) ->
  trim s = s.
Proof.
  destruct s as [|c s]; [reflexivity|]. intros Hf Hl.
  unfold trim. rewrite trim_start_cons, (Hf c eq_refl).
  cbn [String.length trim_end]. unfold last_char in Hl. cbn [String.length Nat.pred] in Hl.
  replace ((0 <? String.length s)%nat
           && match String.get (String.length s) (String c s) with
              | Some c0 => isspace c0
              | None => false
              end) with false.
  - replace (Z.to_nat (Z.of_nat (String.length s) + 1 - Z.of_nat 0))
      with (String.length (String c s)) by (simpl; lia).
    apply substring_all.
  - destruct (String.get (String.length s) (String c s)) as [d|];
      [rewrite (Hl d eq_refl)|]; now rewrite andb_false_r.
Qed.

End MoreTrim.

(** X15: what [trim] returns.  The string is some white space, then the
    result, then some white space; the result neither starts nor ends with
    white space, and it is empty when the string is white space only.  So
    trimming twice is trimming once. *)
Theorem X15_trim_strips_both_ends (str : string) :
  (exists pre post,
      str = pre +:+ trim str +:+ post /\ all_space pre /\ all_space post) /\
  (forall c, first_char (trim str) = Some c -> isspace c = false) /\
  (forall c, last_char (trim str) = Some c -> isspace c = false) /\
  (all_space str -> trim str = "") /\
  trim (trim str) = trim str.
Proof.
  assert ((exists pre post,
              str = pre +:+ trim str +:+ post /\ all_space pre /\ all_space post) /\
          (forall c, first_char (trim str) = Some c -> isspace c = false) /\
          (forall c, last_char (trim str) = Some c -> isspace c = false) /\
          (all_space str -> trim str = "")) as (H1 & H2 & H3 & H4).
  2:{ split; [exact H1|]. split; [exact H2|]. split; [exact H3|].
      split; [exact H4|]. now apply trim_fixed. }
  unfold trim.
  set (start := trim_start str 0).
  set (z := trim_end str start (String.length str)).
  pose proof (trim_start_le str) as Hle. fold start in Hle.
  pose proof (trim_start_spaces str) as Hpre. fold start in Hpre.
  pose proof (trim_start_stop str) as Hstop. fold start in Hstop.
  destruct (trim_end_spec str start (String.length str)) as (E1 & E2 & E3 & E4).
  fold z in E1, E2, E3, E4.
  destruct (Nat.eq_dec start (String.length str)) as [Hall | Hsome].
  - (* white space only *)
    assert (Z.to_nat (z + 1 - Z.of_nat start) = 0%nat) as ->.
    { destruct (Nat.eq_dec (String.length str) 0%nat) as [H0 | H0];
        [rewrite (E1 H0); lia | specialize (E2 ltac:(lia)); lia]. }
    rewrite substring_zero. split; [|split; [discriminate | split; [discriminate|]]].
    + exists str, "". rewrite append_empty_r. split; [reflexivity|].
      split; [|reflexivity]. rewrite Hall, substring_all in Hpre. exact Hpre.
    + reflexivity.
  - specialize (E2 ltac:(lia)).
    set (m := Z.to_nat (z + 1 - Z.of_nat start)).
    assert (Z.of_nat start <= z <= Z.of_nat (String.length str) - 1) as Hz by lia.
    assert (0 < m)%nat as Hm by lia.
    assert (start + m <= String.length str)%nat as Hsm by lia.
    split; [|split; [|split]].
    + exists (substring 0 start str),
        (substring (start + m) (String.length str - (start + m)) str).
      split; [now apply substring_three|]. split; [exact Hpre|].
      apply all_chars_range. intros i c Hi1 Hi2 Hg.
      apply (E3 i c); [lia | lia | exact Hg].
    + intros c. unfold first_char. rewrite substring_correct1 by exact Hm.
      apply Hstop.
    + intros c. unfold last_char. rewrite (length_substring_in _ _ _ Hsm).
      rewrite substring_correct1 by lia.
      replace (Nat.pred m + start)%nat with (Z.to_nat z) by lia.
      destruct (Z.eq_dec z (Z.of_nat start)) as [Hzs | Hzs].
      * rewrite Hzs, Nat2Z.id. apply Hstop.
      * apply E4. lia.
    + intros Hs. apply trim_start_all in Hs. contradiction.
Qed.

Section MoreToLower.

Lemma to_lower_not_upper c : isupper (to_lower c) = false.
Proof.
  destruct c as [b0 b1 b2 b3 b4 b5 b6 b7].
  destruct b0, b1, b2, b3, b4, b5, b6, b7; vm_compute; reflexivity.
Qed.

Lemma to_lower_fixed c : isupper c = false -> to_lower c = c.
Proof. unfold isupper, to_lower. simpl. now intros ->. Qed.

Lemma isspace_to_lower c : isspace (to_lower c) = isspace c.
Proof.
  destruct c as [b0 b1 b2 b3 b4 b5 b6 b7].
  destruct b0, b1, b2, b3, b4, b5, b6, b7; vm_compute; reflexivity.
Qed.

Lemma length_toLower s : String.length (toLower s) = String.length s.
Proof. induction s as [|c s IH]; [reflexivity|]. simpl. now rewrite IH. Qed.

Lemma trim_start_toLower s start : trim_start (toLower s) start = trim_start s start.
Proof.
  revert start. induction s as [|c s IH]; intros start; [reflexivity|].
  cbn [toLower trim_start]. now rewrite isspace_to_lower, IH.
Qed.

Lemma get_toLower i s : String.get i (toLower s) = option_map to_lower (String.get i s).
Proof.
  revert i. induction s as [|c s IH]; intros i; [reflexivity|].
  destruct i as [|i]; [reflexivity|]. apply IH.
Qed.

Lemma trim_end_toLower s start e : trim_end (toLower s) start e = trim_end s start e.
Proof.
  induction e as [|e IH]; [reflexivity|]. cbn [trim_end].
  rewrite get_toLower, IH.
  destruct (String.get e s) as [c|]; [|reflexivity].
  cbn [option_map]. now rewrite isspace_to_lower.
Qed.

Lemma substring_toLower a m s : substring a m (toLower s) = toLower (substring a m s).
Proof.
  revert a m. induction s as [|c s IH]; intros a m.
  - destruct a, m; reflexivity.
  - destruct a as [|a]; [|apply IH].
    destruct m as [|m]; [reflexivity|]. cbn [toLower substring]. now rewrite IH.
Qed.

End MoreToLower.

(** X16: what [toLower] returns.  The result has the length of the input
    and no capital letter; a string without capital letters comes back as
    it is, so lowering twice is lowering once.  White space stays where it
    is, so trimming before or after makes no difference. *)
Theorem X16_toLower_lowers (input : string) :
  String.length (toLower input) = String.length input /\
  no_capital (toLower input) /\
  (no_capital input -> toLower input = input) /\
  toLower (toLower input) = toLower input /\
  toLower (trim input) = trim (toLower input).
Proof.
  assert (forall s, no_capital (toLower s)) as Hno.
  { unfold no_capital. induction s as [|c s IH]; [reflexivity|].
    cbn [toLower all_chars]. now rewrite to_lower_not_upper, IH. }
  assert (forall s, no_capital s -> toLower s = s) as Hfix.
  { unfold no_capital. induction s as [|c s IH]; [reflexivity|].
    cbn [toLower all_chars]. intros H. apply andb_true_iff in H as [Hc Hs].
    apply negb_true_iff in Hc. now rewrite (to_lower_fixed _ Hc), (IH Hs). }
  split; [|split; [apply Hno | split; [apply Hfix | split; [apply Hfix, Hno|]]]].
  - apply length_toLower.
  - unfold trim.
    now rewrite trim_start_toLower, trim_end_toLower, length_toLower, substring_toLower.
Qed.

Section MoreFiles3.

Implicit Types (st : State) (user : UserInfo).

Lemma written_app (l1 l2 : list UserInfo) :
  written (l1 ++ l2) = written l1 +:+ written l2.
Proof.
  induction l1 as [|user l1 IH]; [reflexivity|].
  change ((user :: l1) ++ l2)%list with (user :: (l1 ++ l2))%list.
  rewrite !written_cons, IH, append_assoc'. f_equal.
Qed.

End MoreFiles3.

(** X17: [writeToFile] appends.  On a file that does not exist yet,
    [HealthAssistant::serialize] called twice leaves the lines of the
    registry twice in the file, and [HealthAssistant::readFromFile] then
    pushes every record twice, in the order of the two passes. *)
Theorem X17_write_twice_then_read (st : State) (filename : string) :
  filename ∉ unopenable st -> files st !! filename = None ->
  Forall line_safe (userInfoList st) -> userInfoList st <> [] ->
  (let* _ := HealthAssistant_serialize filename in
   let* _ := HealthAssistant_serialize filename in
   HealthAssistant_readFromFile filename) st
  = (loaded (set_files st
               (<[filename := written (userInfoList st ++ userInfoList st)]>
                  (files st)))
            (map persisted (userInfoList st ++ userInfoList st))
            (map encode_line (userInfoList st ++ userInfoList st)),
     Ok tt).
Proof.
  intros Hu Hf Hs Hl.
  assert (userInfoList st ++ userInfoList st <> [])%list as Hl2
    by (destruct (userInfoList st); [contradiction | discriminate]).
  set (l := userInfoList st) in *.
  set (st1 := set_files st (<[filename := written l]> (files st))).
  set (st2 := set_files st (<[filename := written (l ++ l)]> (files st))).
  assert (writeToFile filename st = (st1, Ok tt)) as W1.
  { unfold writeToFile. destruct (decide (filename ∈ unopenable st)); [contradiction|].
    unfold append_file. now rewrite Hf. }
  assert (writeToFile filename st1 = (st2, Ok tt)) as W2.
  { unfold writeToFile. simpl.
    destruct (decide (filename ∈ unopenable st)); [contradiction|].
    unfold append_file. simpl. rewrite lookup_insert_eq. simpl.
    fold l. fold (written l). rewrite <- written_app.
    unfold st2, set_files. simpl. now rewrite insert_insert_eq. }
  assert (open_read filename st2 = Some (written (l ++ l))) as Ho.
  { unfold open_read. simpl.
    destruct (decide (filename ∈ unopenable st)); [contradiction|].
    apply lookup_insert_eq. }
  assert (Forall line_safe (l ++ l)) as Hs2 by (apply Forall_app; now split).
  unfold HealthAssistant_serialize, HealthAssistant_readFromFile.
  unfold bind. rewrite W1, W2. unfold readFromFile, bind.
  rewrite (open_checked_content _ _ _ Ho (written_nonempty _ Hl2)).
  rewrite (file_lines_written _ Hs2).
  apply readFromFile_loop_decoded, decoded_written, Hs2.
Qed.

Lemma X17_witness :
  (let* _ := HealthAssistant_serialize "out.csv" in
   let* _ := HealthAssistant_serialize "out.csv" in
   HealthAssistant_readFromFile "out.csv") two_users
  = (loaded (set_files two_users
               (<["out.csv" := written (userInfoList two_users
                                         ++ userInfoList two_users)]>
                  (files two_users)))
            (map persisted (userInfoList two_users ++ userInfoList two_users))
            (map encode_line (userInfoList two_users ++ userInfoList two_users)),
     Ok tt).
Proof.
  apply (X17_write_twice_then_read two_users "out.csv").
  - apply not_elem_of_empty.
  - apply lookup_empty.
  - apply Forall_cons_2; [|apply Forall_cons_2; [|apply Forall_nil_2]];
      unfold line_safe; repeat apply conj; vm_compute; reflexivity.
  - discriminate.
Defined.

Section MoreBmi.

Lemma is_nan_classify (x : float) : PrimFloat.is_nan x = true -> classify x = DNaN.
Proof.
  unfold PrimFloat.is_nan, classify. rewrite FloatAxioms.eqb_spec. intros H.
  apply negb_true_iff, SFeqb_refl_not_nan in H. now rewrite H.
Qed.

End MoreBmi.

(** X18: the BMI method always gives a label.  Whatever the record, it
    prints nothing and leaves the state as it is.  Read in [bfp] of the
    record it returns: the value is the truncated index and the category is
    the label of the band of the index, one of the four, never the empty
    one.  When the index is no number, as with a weight and a height of
    zero, every comparison fails: the label is ["Bmi: Very High"] and the
    value is the one the conversion leaves, [INT_MIN].  The copy in
    [UserStats] returns the same record. *)
Theorem X18_bmi_always_labels (user : UserInfo) (st : State) :
  exists user',
    BmiMethod_getBfp user st = (st, Ok user') /\
    UserStats_bmiMethod user st = (st, Ok user') /\
    bfp user' = (static_cast_int (bmi_index (weight user) (height user)),
                 bmi_category (bmi_index (weight user) (height user))) /\
    In (snd (bfp user')) bmi_labels /\
    (PrimFloat.is_nan (bmi_index (weight user) (height user)) = true ->
     bfp user' = (INT_MIN, "Bmi: Very High")) /\
    same_measurements user user'.
Proof.
  eexists. split; [reflexivity|]. split; [reflexivity|].
  cbn [bfp set_bfp fst snd].
  fold (bmi_index (weight user) (height user)).
  fold (bmi_category (bmi_index (weight user) (height user))).
  split; [reflexivity|]. split; [|split].
  - unfold bmi_category, bmi_labels. split_ifs; simpl; tauto.
  - intros N. f_equal.
    + unfold static_cast_int. now rewrite (is_nan_classify _ N).
    + unfold bmi_category. now rewrite !(ltb_nan _ _ N).
  - now repeat split.
Qed.

Lemma X18_witness :
  exists user',
    BmiMethod_getBfp (mk_user "nil" "male" 30 0 85 40 0 0 "active") empty_state
    = (empty_state, Ok user') /\
    bfp user' = (INT_MIN, "Bmi: Very High").
Proof.
  destruct (X18_bmi_always_labels (mk_user "nil" "male" 30 0 85 40 0 0 "active")
              empty_state) as (user' & E & _ & _ & _ & N & _).
  exists user'. split; [exact E|]. apply N. vm_compute. reflexivity.
Defined.

